(** * DecisionEngine: the channel supervisor of
      [src/decisionengine/framework/engine/DecisionEngine.py]

    A shallow embedding of the supervisor's administrative operations.
    Python values that cross the RPC boundary are a small tagged union
    ([pyval]); dictionaries are insertion-ordered association lists
    ([odict]); the methods of [DecisionEngine] are computations in a
    state-and-exception monad ([M]) that also records, in order, the calls
    made to the collaborating objects (worker processes, the source
    registry, the configuration loader).  The behaviour of those
    collaborators is not part of this module of the repository and is a
    parameter ([Env]) of the development. *)

From Stdlib Require Import ZArith NArith List String Ascii Bool Lia.
From Stdlib Require Import Floats DecimalString.
From Stdlib Require Decimal DecimalFacts DecimalZ.
Import ListNotations.

Open Scope string_scope.
Open Scope Z_scope.

(* ================================================================== *)
(** ** Python values and exceptions *)

(** The values an XML-RPC client can send for a scalar argument. *)
Inductive pyval :=
| PyNone
| PyBool (b : bool)
| PyInt (z : Z)
| PyFloat (f : float)
| PyStr (s : string).

Inductive exn :=
| RuntimeError (msg : string)
| ValueError (msg : string)
| TypeError (msg : string)
| AttributeError (msg : string)
| KeyError (msg : string)
| OtherError (msg : string).

Definition exn_str (e : exn) : string :=
  match e with
  | RuntimeError m | ValueError m | TypeError m
  | AttributeError m | KeyError m | OtherError m => m
  end.

Inductive outcome (A : Type) :=
| Ret (a : A)
| Raise (e : exn).
Arguments Ret {A} a.
Arguments Raise {A} e.

Definition returns_value {A} (o : outcome A) : bool :=
  match o with Ret _ => true | Raise _ => false end.

(** [str(int)]. *)
Definition str_int (z : Z) : string := NilZero.string_of_int (Z.to_int z).

Definition type_name (v : pyval) : string :=
  match v with
  | PyNone => "NoneType"
  | PyBool _ => "bool"
  | PyInt _ => "int"
  | PyFloat _ => "float"
  | PyStr _ => "str"
  end.

(** [f"{type(v)}"]. *)
Definition type_repr (v : pyval) : string := "<class '" ++ type_name v ++ "'>".

(** [v == 0] for the integer literal zero. *)
Definition py_eq_zero (v : pyval) : bool :=
  match v with
  | PyNone => false
  | PyBool b => negb b
  | PyInt z => z =? 0
  | PyFloat f => PrimFloat.eqb f 0%float
  | PyStr _ => false
  end.

(** [v > 1] for the integer literal one; ordering a non-number against an
    [int] is a [TypeError]. *)
Definition py_gt_one (v : pyval) : outcome bool :=
  match v with
  | PyBool _ => Ret false
  | PyInt z => Ret (1 <? z)
  | PyFloat f => Ret (PrimFloat.ltb 1%float f)
  | PyNone | PyStr _ =>
      Raise (TypeError ("'>' not supported between instances of '"
                          ++ type_name v ++ "' and 'int'"))
  end.

Definition is_number (v : pyval) : bool :=
  match v with
  | PyBool _ | PyInt _ | PyFloat _ => true
  | PyNone | PyStr _ => false
  end.

(* ================================================================== *)
(** ** Insertion-ordered dictionaries with string keys *)

Section OrderedDict.
Context {V : Type}.

Definition odict := list (string * V).

Fixpoint od_get (k : string) (d : odict) : option V :=
  match d with
  | [] => None
  | (k', v) :: d' => if String.eqb k k' then Some v else od_get k d'
  end.

(** [d[k] = v]: an existing key keeps its position, a new key goes last. *)
Fixpoint od_set (k : string) (v : V) (d : odict) : odict :=
  match d with
  | [] => [(k, v)]
  | (k', v') :: d' =>
      if String.eqb k k' then (k, v) :: d' else (k', v') :: od_set k v d'
  end.

(** [del d[k]]. *)
Fixpoint od_del (k : string) (d : odict) : odict :=
  match d with
  | [] => []
  | (k', v') :: d' =>
      if String.eqb k k' then d' else (k', v') :: od_del k d'
  end.

Definition od_keys (d : odict) : list string := map fst d.
Definition od_values (d : odict) : list V := map snd d.

Definition od_mem (k : string) (d : odict) : bool :=
  match od_get k d with Some _ => true | None => false end.
End OrderedDict.
Arguments odict V : clear implicits.

(* ================================================================== *)
(** ** Data model *)

Inductive StopState := NotFound | Clean | Terminated.

(** Modelled from the spec: [ProcessingState.State], the channel state
    enumeration (section 3, ChannelState); the module that declares it is
    not part of this file of the repository. *)
Inductive State :=
| BOOT | ACTIVE | STEADY | OFFLINE | SHUTTINGDOWN | SHUTDOWN | ERROR.

Record TaskManager := {
  tm_name : string;
  routing_keys : list string;
  loglevel : Z
}.

(** A channel worker as the supervisor observes it: its task manager and
    the two process observations [is_alive()] and [exitcode]. *)
Record ChannelWorker := {
  task_manager : TaskManager;
  is_alive : bool;
  exitcode : option Z
}.

(** A source worker as [start_channel] observes it. *)
Record SourceWorker := {
  sw_is_alive : bool;
  sw_exitcode : option Z;
  sw_queue_name : string;
  sw_key : string
}.

(** A channel configuration: the two keys [start_channel] reads, each
    possibly absent, and the remaining module declarations kept opaque. *)
Record ChannelConfig := {
  cfg_channel_name : option string;
  cfg_sources : option (list (string * string));
  cfg_modules : string
}.

(** The global configuration: the keys read by the modelled operations. *)
Record GlobalConfig := {
  gc_shutdown_timeout : option pyval;
  gc_logger : option string;
  gc_broker_url : option string
}.

Inductive load_result :=
| LoadOk (cfg : ChannelConfig)
| LoadFailed (msg : string).

Definition with_process (p : bool * option Z) (worker : ChannelWorker) : ChannelWorker :=
  {| task_manager := task_manager worker; is_alive := fst p; exitcode := snd p |}.

Definition sw_with_process (p : bool * option Z) (w : SourceWorker) : SourceWorker :=
  {| sw_is_alive := fst p; sw_exitcode := snd p;
     sw_queue_name := sw_queue_name w; sw_key := sw_key w |}.

(** Calls made to collaborators, in the order they are issued. *)
Inductive event :=
| EvLoadAllChannels
| EvLoadChannel (name : string)
| EvSourcesUpdate (channel : string)
| EvValidateWorkflow (channel : string)
| EvRegistryInsert (channel : string)
| EvChannelStart (channel : string)
| EvWaitWhile (channel : string) (st : State) (budget : option Z) (elapsed : N)
| EvSourceStart (key : string) (handle : nat)
| EvTakeOffline (channel : string)
| EvJoin (channel : string) (timeout : pyval)
| EvTerminate (channel : string)
| EvRegistryDelete (channel : string)
| EvSourcesPrune (channel : string)
| EvStartChannel (name : string)
| EvLogException (msg : string).

(** The supervisor's mutable state.  Source workers are shared objects:
    [source_heap] maps a handle to the worker it denotes, and the mapping
    returned by the source registry holds handles. *)
Record DecisionEngine := {
  global_config : GlobalConfig;
  channel_configs : odict ChannelConfig;
  channel_workers : odict ChannelWorker;
  source_heap : nat -> SourceWorker;
  WORKERS_COUNT : Z
}.

Definition set_channel_workers (f : odict ChannelWorker -> odict ChannelWorker)
    (de : DecisionEngine) : DecisionEngine :=
  {| global_config := global_config de;
     channel_configs := channel_configs de;
     channel_workers := f (channel_workers de);
     source_heap := source_heap de;
     WORKERS_COUNT := WORKERS_COUNT de |}.

Definition set_channel_configs (f : odict ChannelConfig -> odict ChannelConfig)
    (de : DecisionEngine) : DecisionEngine :=
  {| global_config := global_config de;
     channel_configs := f (channel_configs de);
     channel_workers := channel_workers de;
     source_heap := source_heap de;
     WORKERS_COUNT := WORKERS_COUNT de |}.

Definition set_source_heap (f : (nat -> SourceWorker) -> nat -> SourceWorker)
    (de : DecisionEngine) : DecisionEngine :=
  {| global_config := global_config de;
     channel_configs := channel_configs de;
     channel_workers := channel_workers de;
     source_heap := f (source_heap de);
     WORKERS_COUNT := WORKERS_COUNT de |}.

Definition add_workers_count (n : Z) (de : DecisionEngine) : DecisionEngine :=
  {| global_config := global_config de;
     channel_configs := channel_configs de;
     channel_workers := channel_workers de;
     source_heap := source_heap de;
     WORKERS_COUNT := WORKERS_COUNT de + n |}.

(* ================================================================== *)
(** ** Countdown *)

(** Modelled from the spec: [Countdown] (section 4.2), whose module is not
    in this file.  It is built with [wait_up_to], a duration or nil;
    [time_left] is the remaining budget, nil when unbounded; leaving a
    [with countdown:] scope subtracts the time spent inside it, and a
    budget that is used up reads zero from then on.  Durations are whole
    numbers of clock ticks. *)
Record Countdown := { time_left : option Z }.

Definition Countdown_new (wait_up_to : option Z) : Countdown :=
  {| time_left := wait_up_to |}.

Definition Countdown_exit (c : Countdown) (elapsed : N) : Countdown :=
  match time_left c with
  | None => c
  | Some t => {| time_left := Some (Z.max 0 (t - Z.of_N elapsed)) |}
  end.

(* ================================================================== *)
(** ** The broker URL pattern *)

Section BrokerUrl.

(** A character of a text stands for one code point of the [str]; the URL
    is a [str], so the pattern is matched by the Unicode rules.
    [unicode_alnum] is [str.isalnum] on the code points that are not ASCII:
    the Unicode data base, which [re] consults for them, is not part of
    the sources. *)
Variable unicode_alnum : ascii -> bool.

(** [\w]: a letter, a digit or the underscore. *)
Definition is_word (c : ascii) : bool :=
  let n := nat_of_ascii c in
  if (n <? 128)%nat then
    ((48 <=? n) && (n <=? 57) || (65 <=? n) && (n <=? 90)
     || (97 <=? n) && (n <=? 122) || (n =? 95))%nat
  else unicode_alnum c.

(** The number of leading word characters. *)
Fixpoint word_run (s : string) : nat :=
  match s with
  | String c s' => if is_word c then S (word_run s') else O
  | EmptyString => O
  end.

Fixpoint drop (n : nat) (s : string) : string :=
  match n, s with
  | S n', String _ s' => drop n' s'
  | _, _ => s
  end.

(** [(?P<backend>\w+)://.*] tried at the start of [s] with the group taking
    [n] characters, then fewer, as the greedy quantifier backtracks; [.*]
    accepts whatever follows. *)
Fixpoint match_here (n : nat) (s : string) : option string :=
  match n with
  | O => None
  | S n' =>
      if prefix "://" (drop n s) then Some (substring 0 n s)
      else match_here n' s
  end.

(** [re.search]: the first position at which the pattern matches; the
    value is the [backend] group. *)
Fixpoint re_search (s : string) : option string :=
  match match_here (word_run s) s with
  | Some backend => Some backend
  | None =>
      match s with
      | String _ s' => re_search s'
      | EmptyString => None
      end
  end.

Definition newline : string := String (ascii_of_nat 10) EmptyString.

Definition _verify_redis_url (broker_url : string) : outcome unit :=
  match re_search broker_url with
  | None =>
      Raise (RuntimeError
               ("Unsupported broker URL format '" ++ broker_url ++ "'" ++ newline
                  ++ "See https://docs.celeryproject.org/projects/kombu/en/stable/userguide/connections.html#urls"))
  | Some backend =>
      if String.eqb backend "redis" then Ret tt
      else Raise (RuntimeError
                    ("Unsupported data-broker backend '" ++ backend
                       ++ "'; only 'redis' is currently supported."))
  end.

End BrokerUrl.

(* ================================================================== *)
(** ** Command line *)

(** The options of the command line as [argparse] recognises them, each
    with the text of its value. *)
Inductive cli_arg :=
| ArgPort (value : string)
| ArgConfig (filename : string)
| ArgNoWebserver.

Record Options := {
  port : Z;
  config : string;
  no_webserver : bool
}.

(** [parser.error]: the usage message is printed and the process exits
    with status 2. *)
Inductive usage_error :=
| InvalidInt (value : string)
| InvalidChoice (value : Z).

(** [int(text)] on a decimal literal with an optional sign.  (The literal
    forms with surrounding blanks or with underscores are left out.) *)
Definition py_int (text : string) : option Z :=
  match NilZero.int_of_string text with
  | Some d => Some (Z.of_int d)
  | None =>
      match text with
      | String "+" digits => option_map Z.of_uint (NilZero.uint_of_string digits)
      | _ => None
      end
  end.

(** [value in range(1, 65535)]. *)
Definition port_choices (value : Z) : bool := (1 <=? value) && (value <? 65535).

Definition set_port (p : Z) (o : Options) : Options :=
  {| port := p; config := config o; no_webserver := no_webserver o |}.
Definition set_config (f : string) (o : Options) : Options :=
  {| port := port o; config := f; no_webserver := no_webserver o |}.
Definition set_no_webserver (o : Options) : Options :=
  {| port := port o; config := config o; no_webserver := true |}.

Fixpoint parse_args (args : list cli_arg) (o : Options) : Options + usage_error :=
  match args with
  | [] => inl o
  | ArgPort text :: rest =>
      match py_int text with
      | None => inr (InvalidInt text)
      | Some v =>
          if port_choices v then parse_args rest (set_port v o)
          else inr (InvalidChoice v)
      end
  | ArgConfig f :: rest => parse_args rest (set_config f o)
  | ArgNoWebserver :: rest => parse_args rest (set_no_webserver o)
  end.

(** [GLOBAL_CONFIG_FILENAME] is the constant of [policies], not in this
    file. *)
Definition parse_program_options (GLOBAL_CONFIG_FILENAME : string)
    (args : list cli_arg) : Options + usage_error :=
  parse_args args {| port := 8888;
                     config := GLOBAL_CONFIG_FILENAME;
                     no_webserver := false |}.

(** The level constants of the [logging] module. *)
Definition logging_levels : odict Z :=
  [("CRITICAL", 50); ("FATAL", 50); ("ERROR", 40); ("WARNING", 30);
   ("WARN", 30); ("INFO", 20); ("DEBUG", 10); ("NOTSET", 0)].

(* ================================================================== *)
(** ** The collaborators *)

(** What the supervisor relies on but does not define: process primitives
    of the workers, the source registry, the workflow validator, the
    configuration loader and the renderings of values that are formatted
    into messages.  A field whose value is an [outcome] may raise; the
    others stand for calls that are taken to return, blocking ones
    included. *)
Record Env := {
  (** what [is_alive()] and [exitcode] read once
      [worker.task_manager.take_offline()] and [worker.join(timeout)] have
      returned *)
  join : pyval -> ChannelWorker -> bool * option Z;
  (** what they read once [worker.start()] has returned *)
  start : ChannelWorker -> bool * option Z;
  (** how long the named channel stays in the given state *)
  leave_time : string -> State -> N;
  (** what a source worker's [is_alive()] and [exitcode] read once
      [src_worker.start()] has returned *)
  sw_start : SourceWorker -> bool * option Z;
  (** [source_workers.update(channel, source_configs)] *)
  sources_update : string -> list (string * string) -> (nat -> SourceWorker) ->
                   outcome (list (string * nat)) * (nat -> SourceWorker);
  (** [source_workers.prune(channel, routing_keys)] *)
  sources_prune : string -> list string -> (nat -> SourceWorker) -> nat -> SourceWorker;
  (** [validated_workflow(channel, src_workers, config, logger)] *)
  validated_workflow : string -> list (string * nat) -> string -> outcome string;
  (** [TaskManager.TaskManager(name, ..., queue_info)]: the log level the
      new task manager reports, unless its construction fails *)
  task_manager_init : string -> list (string * string) -> outcome Z;
  (** [task_manager.set_loglevel_value(log_level)] *)
  set_loglevel_value : string -> TaskManager -> outcome TaskManager;
  (** whether a name that is not a level constant is some other attribute
      of the [logging] module *)
  logging_other_attr : string -> bool;
  (** the body of [rpc_print_product] after its argument check *)
  render_product : string -> pyval -> pyval -> pyval -> pyval ->
                   odict ChannelWorker -> outcome string;
  (** [redis.Redis.from_url(url)] and [r.ping()] *)
  redis_from_url : string -> outcome string;
  redis_ping : string -> outcome unit;
  (** [channel_config_loader.load_all_channels()]: the channels the loader
      holds afterwards, unless loading fails *)
  load_all_channels : odict ChannelConfig -> outcome (odict ChannelConfig);
  (** [channel_config_loader.load_channel(name)] *)
  load_channel : string -> odict ChannelConfig -> load_result * odict ChannelConfig;
  (** [str(x)] of a float and of a channel state *)
  str_float : float -> string;
  str_state : State -> string
}.

(** [f"{v}"]. *)
Definition py_str (env : Env) (v : pyval) : string :=
  match v with
  | PyNone => "None"
  | PyBool true => "True"
  | PyBool false => "False"
  | PyInt z => str_int z
  | PyFloat f => str_float env f
  | PyStr s => s
  end.

(* ================================================================== *)
(** ** The supervisor monad *)

(** A method run from a state yields a value or an exception, the state
    it leaves behind, and the calls it made. *)
Definition M (A : Type) : Type :=
  DecisionEngine -> outcome A * DecisionEngine * list event.

Definition ret {A} (a : A) : M A := fun de => (Ret a, de, []).

Definition raise {A} (e : exn) : M A := fun de => (Raise e, de, []).

Definition bind {A B} (m : M A) (k : A -> M B) : M B :=
  fun de =>
    match m de with
    | (Ret a, de1, evs1) =>
        match k a de1 with
        | (r, de2, evs2) => (r, de2, (evs1 ++ evs2)%list)
        end
    | (Raise e, de1, evs1) => (Raise e, de1, evs1)
    end.

(** [try: m  except Exception as e: h e]. *)
Definition try_except {A} (m : M A) (h : exn -> M A) : M A :=
  fun de =>
    match m de with
    | (Ret a, de1, evs1) => (Ret a, de1, evs1)
    | (Raise e, de1, evs1) =>
        match h e de1 with
        | (r, de2, evs2) => (r, de2, (evs1 ++ evs2)%list)
        end
    end.

Definition gets {A} (f : DecisionEngine -> A) : M A := fun de => (Ret (f de), de, []).

Definition modify (f : DecisionEngine -> DecisionEngine) : M unit :=
  fun de => (Ret tt, f de, []).

Definition emit (ev : event) : M unit := fun de => (Ret tt, de, [ev]).

Definition lift {A} (o : outcome A) : M A := fun de => (o, de, []).

Declare Scope engine_scope.
Delimit Scope engine_scope with engine.
Notation "x <- m ;; k" := (bind m (fun x => k))
  (at level 61, m at next level, right associativity) : engine_scope.
Notation "m ;; k" := (bind m (fun _ => k))
  (at level 61, right associativity) : engine_scope.
Open Scope engine_scope.

Definition result {A} (r : outcome A * DecisionEngine * list event) : outcome A :=
  fst (fst r).
Definition final {A} (r : outcome A * DecisionEngine * list event) : DecisionEngine :=
  snd (fst r).
Definition calls {A} (r : outcome A * DecisionEngine * list event) : list event :=
  snd r.

(* ================================================================== *)
(** ** Stopping channels *)

Section Supervisor.
Variable env : Env.
(** [str.isalnum] on the characters that are not ASCII, for the pattern
    of the broker URL. *)
Variable unicode_alnum : ascii -> bool.

Definition channel_of (worker : ChannelWorker) : string :=
  tm_name (task_manager worker).

(** The first statement of [stop_worker]: an alive worker is asked to go
    offline and joined; the value is the worker as it is afterwards. *)
Definition offline_join (worker : ChannelWorker) (timeout : pyval) : M ChannelWorker :=
  if is_alive worker then
    emit (EvTakeOffline (channel_of worker)) ;;
    emit (EvJoin (channel_of worker) timeout) ;;
    ret (with_process (join env timeout worker) worker)
  else ret worker.

Definition stop_worker (worker : ChannelWorker) (timeout : pyval) : M StopState :=
  worker' <- offline_join worker timeout ;;
  match exitcode worker' with
  | None =>
      emit (EvTerminate (channel_of worker)) ;;
      ret Terminated
  | Some _ => ret Clean
  end.

Definition rm_channel (channel : string) (maybe_timeout : pyval) : M StopState :=
  workers <- gets channel_workers ;;
  match od_get channel workers with
  | None => ret NotFound
  | Some worker =>
      let sources_to_prune := routing_keys (task_manager worker) in
      rc <- stop_worker worker maybe_timeout ;;
      modify (set_channel_workers (od_del channel)) ;;
      emit (EvRegistryDelete channel) ;;
      modify (set_source_heap (sources_prune env channel sources_to_prune)) ;;
      emit (EvSourcesPrune channel) ;;
      ret rc
  end.

Definition rpc_rm_channel (channel : string) (maybe_timeout : pyval) : M string :=
  rc <- rm_channel channel maybe_timeout ;;
  match rc with
  | NotFound => ret ("No channel found with the name " ++ channel ++ ".")
  | Terminated =>
      if py_eq_zero maybe_timeout then
        ret ("Channel " ++ channel ++ " has been killed.")
      else
        plural <- lift (py_gt_one maybe_timeout) ;;
        let suffix := if (plural : bool) then "s" else "" in
        ret ("Channel " ++ channel ++ " has been killed due to shutdown timeout ("
               ++ py_str env maybe_timeout ++ " second" ++ suffix ++ ").")
  | Clean =>
      modify (add_workers_count (-1)) ;;
      ret ("Channel " ++ channel ++ " stopped cleanly.")
  end.

Definition rpc_stop_channel (channel : string) : M string :=
  rpc_rm_channel channel PyNone.

(** [global_config.get("shutdown_timeout", 10)]. *)
Definition shutdown_timeout (de : DecisionEngine) : pyval :=
  match gc_shutdown_timeout (global_config de) with
  | Some v => v
  | None => PyInt 10
  end.

(** [timeout] defaults to [None]; a call without it passes [PyNone]. *)
Definition rpc_kill_channel (channel : string) (timeout : pyval) : M string :=
  timeout <- match timeout with
             | PyNone => gets shutdown_timeout
             | _ => ret timeout
             end ;;
  rpc_rm_channel channel timeout.

(* ---------------------------------------------------------------- *)
(** *** Waiting on a channel *)

(** Modelled from the spec: the state cell's [wait_while(s, timeout)]
    (section 4.1), whose class is not in this file: it blocks until the
    state differs from [s] or the timeout elapses; a nil timeout waits
    indefinitely and a zero or negative one returns immediately.  The
    value is the time the call took. *)
Definition wait_duration (channel : string) (st : State) (budget : option Z) : N :=
  match budget with
  | None => leave_time env channel st
  | Some t => N.min (leave_time env channel st) (Z.to_N t)
  end.

Definition wait_while (worker : ChannelWorker) (st : State) (budget : option Z) : M N :=
  let elapsed := wait_duration (channel_of worker) st budget in
  emit (EvWaitWhile (channel_of worker) st budget elapsed) ;;
  ret elapsed.

(** The loop of [block_while] over [workers.values()]; each wait runs
    inside [with countdown:]. *)
Fixpoint block_while_loop (state : State) (workers : list ChannelWorker)
    (countdown : Countdown) : M Countdown :=
  match workers with
  | [] => ret countdown
  | tm :: rest =>
      if is_alive tm then
        elapsed <- wait_while tm state (time_left countdown) ;;
        block_while_loop state rest (Countdown_exit countdown elapsed)
      else block_while_loop state rest countdown
  end.

Definition block_while (state : State) (timeout : option Z) : M string :=
  workers <- gets channel_workers ;;
  match workers with
  | [] => ret "No active channels."
  | _ :: _ =>
      block_while_loop state (od_values workers) (Countdown_new timeout) ;;
      ret ("No channels in " ++ str_state env state ++ " state.")
  end.

(* ---------------------------------------------------------------- *)
(** *** Starting channels *)

Definition heap_set (h : nat) (w : SourceWorker) (heap : nat -> SourceWorker)
    : nat -> SourceWorker :=
  fun h' => if Nat.eqb h' h then w else heap h'.

(** [src_worker.exitcode == 0]. *)
Definition exited_zero (w : SourceWorker) : bool :=
  match sw_exitcode w with
  | Some c => c =? 0
  | None => false
  end.

(** The loop "Start any sources that are not yet alive." *)
Fixpoint start_sources (channel_name : string) (src_workers : list (string * nat))
    : M unit :=
  match src_workers with
  | [] => ret tt
  | (key, h) :: rest =>
      heap <- gets source_heap ;;
      let src_worker := heap h in
      if sw_is_alive src_worker then start_sources channel_name rest
      else if exited_zero src_worker then
        raise (RuntimeError ("The " ++ key
                 ++ " source has already completed and cannot be used by channel "
                 ++ channel_name ++ "."))
      else
        modify (set_source_heap
                  (heap_set h (sw_with_process (sw_start env src_worker) src_worker))) ;;
        emit (EvSourceStart key h) ;;
        start_sources channel_name rest
  end.

Definition start_channel (channel_name : string) (channel_config : ChannelConfig)
    : M unit :=
  emit (EvStartChannel channel_name) ;;
  let channel_name :=
    match cfg_channel_name channel_config with
    | Some n => n
    | None => channel_name
    end in
  source_configs <- match cfg_sources channel_config with
                    | Some srcs => ret srcs
                    | None => raise (KeyError "'sources'")
                    end ;;
  heap <- gets source_heap ;;
  emit (EvSourcesUpdate channel_name) ;;
  modify (set_source_heap
            (fun _ => snd (sources_update env channel_name source_configs heap))) ;;
  src_workers <- lift (fst (sources_update env channel_name source_configs heap)) ;;
  emit (EvValidateWorkflow channel_name) ;;
  lift (validated_workflow env channel_name src_workers
          (cfg_modules channel_config)) ;;
  heap <- gets source_heap ;;
  let queue_info :=
    map (fun kh => (sw_queue_name (heap (snd kh)), sw_key (heap (snd kh))))
        src_workers in
  level <- lift (task_manager_init env channel_name queue_info) ;;
  let task_manager := {| tm_name := channel_name;
                         routing_keys := map snd queue_info;
                         loglevel := level |} in
  config <- gets global_config ;;
  match gc_logger config with
  | None => raise (KeyError "'logger'")
  | Some _ => ret tt
  end ;;
  let worker := {| task_manager := task_manager;
                   is_alive := false;
                   exitcode := None |} in
  modify (add_workers_count 1) ;;
  modify (set_channel_workers (od_set channel_name worker)) ;;
  emit (EvRegistryInsert channel_name) ;;
  let worker := with_process (start env worker) worker in
  modify (set_channel_workers (od_set channel_name worker)) ;;
  emit (EvChannelStart channel_name) ;;
  wait_while worker BOOT None ;;
  start_sources channel_name src_workers ;;
  wait_while worker ACTIVE None ;;
  ret tt.

(** The loop of [start_channels] over [get_channels().items()]. *)
Fixpoint start_each (channels : list (string * ChannelConfig)) : M unit :=
  match channels with
  | [] => ret tt
  | (name, config) :: rest =>
      try_except (start_channel name config)
        (fun e => emit (EvLogException
                          ("Channel " ++ name ++ " failed to start: " ++ exn_str e))) ;;
      start_each rest
  end.

Definition start_channels : M unit :=
  emit EvLoadAllChannels ;;
  configs <- gets channel_configs ;;
  loaded <- lift (load_all_channels env configs) ;;
  modify (set_channel_configs (fun _ => loaded)) ;;
  channels <- gets channel_configs ;;
  start_each channels.

Definition rpc_start_channel (channel_name : string) : M string :=
  workers <- gets channel_workers ;;
  if od_mem channel_name workers then
    ret ("ERROR, channel " ++ channel_name ++ " is running")
  else
    configs <- gets channel_configs ;;
    emit (EvLoadChannel channel_name) ;;
    modify (set_channel_configs (fun _ => snd (load_channel env channel_name configs))) ;;
    match fst (load_channel env channel_name configs) with
    | LoadFailed msg => ret msg
    | LoadOk cfg =>
        start_channel channel_name cfg ;;
        ret "OK"
    end.

Definition rpc_start_channels : M string :=
  start_channels ;;
  ret "OK".

Definition rpc_ping : M string := ret "pong".

(* ---------------------------------------------------------------- *)
(** *** Products and log levels *)

Definition rpc_print_product (product columns query types format : pyval) : M string :=
  match product with
  | PyStr name =>
      workers <- gets channel_workers ;;
      lift (render_product env name columns query types format workers)
  | _ =>
      raise (ValueError ("Requested product should be a string not "
                           ++ type_repr product))
  end.

(** [getattr(logging, log_level)]: a level constant, some other attribute
    of the module, or no attribute at all. *)
Definition logging_getattr (name : string) : outcome (option Z) :=
  match od_get name logging_levels with
  | Some code => Ret (Some code)
  | None =>
      if logging_other_attr env name then Ret None
      else Raise (AttributeError
                    ("module 'logging' has no attribute '" ++ name ++ "'"))
  end.

Definition with_task_manager (tm : TaskManager) (worker : ChannelWorker)
    : ChannelWorker :=
  {| task_manager := tm; is_alive := is_alive worker; exitcode := exitcode worker |}.

Definition rpc_set_channel_log_level (channel : string) (log_level : pyval) : M string :=
  workers <- gets channel_workers ;;
  match od_get channel workers with
  | None => ret ("No channel found with the name " ++ channel ++ ".")
  | Some worker =>
      if negb (is_alive worker) then
        ret ("Channel " ++ channel ++ " is in ERROR state.")
      else
        match log_level with
        | PyStr name =>
            log_level_code <- lift (logging_getattr name) ;;
            if match log_level_code with
               | Some code => loglevel (task_manager worker) =? code
               | None => false
               end
            then ret ("Nothing to do. Current log level is : " ++ name)
            else
              tm <- lift (set_loglevel_value env name (task_manager worker)) ;;
              modify (set_channel_workers
                        (od_set channel (with_task_manager tm worker))) ;;
              ret ("Log level changed to : " ++ name)
        | _ =>
            raise (TypeError ("attribute name must be string, not '"
                                ++ type_name log_level ++ "'"))
        end
  end.

(* ---------------------------------------------------------------- *)
(** *** Broker validation at start-up *)

Definition _verify_redis_server (broker_url : string) : outcome unit :=
  match _verify_redis_url unicode_alnum broker_url with
  | Raise e => Raise e
  | Ret _ =>
      match redis_from_url env broker_url with
      | Raise e => Raise e
      | Ret r =>
          match redis_ping env r with
          | Ret _ => Ret tt
          | Raise _ =>
              Raise (RuntimeError ("A server with broker URL " ++ broker_url
                                     ++ " is not responding."))
          end
      end
  end.

(** [global_config.get("broker_url", "redis://localhost:6379/0")]. *)
Definition broker_url (config : GlobalConfig) : string :=
  match gc_broker_url config with
  | Some url => url
  | None => "redis://localhost:6379/0"
  end.

(** The part of [__init__] that decides whether the supervisor comes
    up: the broker is verified before the registries are created. *)
Definition DecisionEngine_init (config : GlobalConfig)
    (configs : odict ChannelConfig) (heap : nat -> SourceWorker)
    : outcome DecisionEngine :=
  match _verify_redis_server (broker_url config) with
  | Raise e => Raise e
  | Ret _ => Ret {| global_config := config;
                    channel_configs := configs;
                    channel_workers := [];
                    source_heap := heap;
                    WORKERS_COUNT := 0 |}
  end.

End Supervisor.

(* ================================================================== *)
(** ** Vocabulary of the statements *)

Definition is_source_start (ev : event) : bool :=
  match ev with EvSourceStart _ _ => true | _ => false end.

Definition is_start_channel (ev : event) : bool :=
  match ev with EvStartChannel _ => true | _ => false end.

(** The budgets a single countdown hands to successive waits on the alive
    workers, and the time each wait takes. *)
Fixpoint wait_plan (env : Env) (state : State) (workers : list ChannelWorker)
    (budget : option Z) : list event :=
  match workers with
  | [] => []
  | w :: rest =>
      if is_alive w then
        let elapsed := wait_duration env (channel_of w) state budget in
        EvWaitWhile (channel_of w) state budget elapsed
          :: wait_plan env state rest
               (match budget with
                | None => None
                | Some t => Some (Z.max 0 (t - Z.of_N elapsed))
                end)
      else wait_plan env state rest budget
  end.

Definition has_port (arg : cli_arg) : bool :=
  match arg with ArgPort _ => true | _ => false end.

(** A text made of word characters only. *)
Fixpoint all_word (unicode_alnum : ascii -> bool) (s : string) : bool :=
  match s with
  | EmptyString => true
  | String c s' => is_word unicode_alnum c && all_word unicode_alnum s'
  end.

(** The name a channel is started under: the configuration may override
    the name it is filed under. *)
Definition effective_name (name : string) (cfg : ChannelConfig) : string :=
  match cfg_channel_name cfg with
  | Some n => n
  | None => name
  end.

(** The calls [start_channel] makes before it turns to the sources, when
    nothing fails on the way. *)
Definition bring_up (env : Env) (name channel : string) : list event :=
  [EvStartChannel name; EvSourcesUpdate channel; EvValidateWorkflow channel;
   EvRegistryInsert channel; EvChannelStart channel;
   EvWaitWhile channel BOOT None (leave_time env channel BOOT)].

(** The state [rm_channel] leaves once the worker of [channel] is stopped. *)
Definition removed (env : Env) (channel : string) (worker : ChannelWorker)
    (de : DecisionEngine) : DecisionEngine :=
  set_source_heap (sources_prune env channel (routing_keys (task_manager worker)))
    (set_channel_workers (od_del channel) de).

(** [T > 0] for a number. *)
Definition py_positive (v : pyval) : bool :=
  match v with
  | PyBool b => b
  | PyInt z => 0 <? z
  | PyFloat f => PrimFloat.ltb 0%float f
  | PyNone | PyStr _ => false
  end.

(* ================================================================== *)
(** ** Sample collaborators and states *)

Definition sample_heap : nat -> SourceWorker :=
  fun h => {| sw_is_alive := false; sw_exitcode := None;
              sw_queue_name := "queue"; sw_key := "key" |}.

Fixpoint number_from (n : nat) (l : list (string * string)) : list (string * nat) :=
  match l with
  | [] => []
  | (k, _) :: rest => (k, n) :: number_from (S n) rest
  end.

(** Collaborators that behave: a joined worker exits with code 0, loading
    never fails, the broker answers. *)
Definition sample_env : Env := {|
  join := fun _ _ => (false, Some 0);
  start := fun _ => (true, None);
  leave_time := fun _ _ => 3%N;
  sw_start := fun _ => (true, None);
  sources_update := fun _ cfgs heap => (Ret (number_from 0 cfgs), heap);
  sources_prune := fun _ _ heap => heap;
  validated_workflow := fun _ _ modules => Ret modules;
  task_manager_init := fun _ _ => Ret 20;
  set_loglevel_value := fun _ tm => Ret tm;
  logging_other_attr := fun _ => false;
  render_product := fun name _ _ _ _ _ => Ret ("Product " ++ name ++ ": Not produced by any module");
  redis_from_url := fun url => Ret url;
  redis_ping := fun _ => Ret tt;
  load_all_channels := fun configs => Ret configs;
  load_channel := fun name configs =>
    (match od_get name configs with
     | Some cfg => LoadOk cfg
     | None => LoadFailed ("no configuration for " ++ name)
     end, configs);
  str_float := fun _ => "0.5";
  str_state := fun st =>
    match st with
    | BOOT => "State.BOOT" | ACTIVE => "State.ACTIVE" | STEADY => "State.STEADY"
    | OFFLINE => "State.OFFLINE" | SHUTTINGDOWN => "State.SHUTTINGDOWN"
    | SHUTDOWN => "State.SHUTDOWN" | ERROR => "State.ERROR"
    end
|}.

(** Collaborators whose channel workers never exit when joined. *)
Definition hanging_env : Env := {|
  join := fun _ w => (true, None);
  start := start sample_env;
  leave_time := leave_time sample_env;
  sw_start := sw_start sample_env;
  sources_update := sources_update sample_env;
  sources_prune := sources_prune sample_env;
  validated_workflow := validated_workflow sample_env;
  task_manager_init := task_manager_init sample_env;
  set_loglevel_value := set_loglevel_value sample_env;
  logging_other_attr := logging_other_attr sample_env;
  render_product := render_product sample_env;
  redis_from_url := redis_from_url sample_env;
  redis_ping := redis_ping sample_env;
  load_all_channels := load_all_channels sample_env;
  load_channel := load_channel sample_env;
  str_float := str_float sample_env;
  str_state := str_state sample_env
|}.

Definition sample_worker (name : string) (alive : bool) (code : option Z) : ChannelWorker :=
  {| task_manager := {| tm_name := name; routing_keys := ["key"]; loglevel := 20 |};
     is_alive := alive;
     exitcode := code |}.

Definition sample_config : ChannelConfig :=
  {| cfg_channel_name := None;
     cfg_sources := Some [("srcA", "SourceA()")];
     cfg_modules := "transforms" |}.

Definition two_sources_config : ChannelConfig :=
  {| cfg_channel_name := None;
     cfg_sources := Some [("srcA", "SourceA()"); ("srcB", "SourceB()")];
     cfg_modules := "transforms" |}.

(** A heap in which the worker under handle 1 has run to completion. *)
Definition exhausted_heap : nat -> SourceWorker :=
  fun h => {| sw_is_alive := false;
              sw_exitcode := if Nat.eqb h 1 then Some 0 else None;
              sw_queue_name := "queue"; sw_key := "key" |}.

Definition exhausted_engine : DecisionEngine :=
  {| global_config := {| gc_shutdown_timeout := None;
                         gc_logger := Some "logger";
                         gc_broker_url := None |};
     channel_configs := [("alpha", two_sources_config); ("beta", sample_config)];
     channel_workers := [];
     source_heap := exhausted_heap;
     WORKERS_COUNT := 0 |}.

Definition sample_engine (workers : odict ChannelWorker) : DecisionEngine :=
  {| global_config := {| gc_shutdown_timeout := None;
                         gc_logger := Some "logger";
                         gc_broker_url := None |};
     channel_configs := [("alpha", sample_config)];
     channel_workers := workers;
     source_heap := sample_heap;
     WORKERS_COUNT := Z.of_nat (List.length workers) |}.

(** A heap in which the worker under handle 0 has crashed (exit code 1)
    and the one under handle 1 has run to completion (exit code 0). *)
Definition crashed_heap : nat -> SourceWorker :=
  fun h => {| sw_is_alive := false;
              sw_exitcode := if Nat.eqb h 0 then Some 1
                             else if Nat.eqb h 1 then Some 0 else None;
              sw_queue_name := "queue"; sw_key := "key" |}.

Definition crashed_engine : DecisionEngine :=
  {| global_config := {| gc_shutdown_timeout := None;
                         gc_logger := Some "logger";
                         gc_broker_url := None |};
     channel_configs := [("alpha", two_sources_config)];
     channel_workers := [];
     source_heap := crashed_heap;
     WORKERS_COUNT := 0 |}.

(** An engine whose configuration sets "shutdown_timeout". *)
Definition engine_with_timeout (timeout : pyval) (workers : odict ChannelWorker)
    : DecisionEngine :=
  {| global_config := {| gc_shutdown_timeout := Some timeout;
                         gc_logger := Some "logger";
                         gc_broker_url := None |};
     channel_configs := [];
     channel_workers := workers;
     source_heap := sample_heap;
     WORKERS_COUNT := Z.of_nat (List.length workers) |}.

(* ================================================================== *)
(** ** The rest of the supervisor *)

(** [c * n] for a string of one character. *)
Fixpoint repeat_char (c : ascii) (n : nat) : string :=
  match n with
  | O => EmptyString
  | S n' => String c (repeat_char c n')
  end.

Definition _channel_preamble (name : string) : string :=
  let header := "Channel: " ++ name in
  let rule := repeat_char "=" (String.length header) in
  newline ++ rule ++ newline ++ header ++ newline ++ rule ++ newline ++ newline.

(** Modelled from the spec: [ProcessingState.State[name]], the lookup of a
    state by its name (section 3, ChannelState). *)
Definition State_of_name (name : string) : option State :=
  if String.eqb name "BOOT" then Some BOOT
  else if String.eqb name "ACTIVE" then Some ACTIVE
  else if String.eqb name "STEADY" then Some STEADY
  else if String.eqb name "OFFLINE" then Some OFFLINE
  else if String.eqb name "SHUTTINGDOWN" then Some SHUTTINGDOWN
  else if String.eqb name "SHUTDOWN" then Some SHUTDOWN
  else if String.eqb name "ERROR" then Some ERROR
  else None.

(** Modelled from the spec: [state.probably_running()] (section 3): the
    state is one of BOOT, ACTIVE, STEADY. *)
Definition probably_running (st : State) : bool :=
  match st with
  | BOOT | ACTIVE | STEADY => true
  | OFFLINE | SHUTTINGDOWN | SHUTDOWN | ERROR => false
  end.

(** [logging.getLevelName(level)] for an integer level. *)
Definition getLevelName (level : Z) : string :=
  if level =? 50 then "CRITICAL"
  else if level =? 40 then "ERROR"
  else if level =? 30 then "WARNING"
  else if level =? 20 then "INFO"
  else if level =? 10 then "DEBUG"
  else if level =? 0 then "NOTSET"
  else "Level " ++ str_int level.

Definition rpc_get_channel_log_level (channel : string) : M string :=
  workers <- gets channel_workers ;;
  match od_get channel workers with
  | None => ret ("No channel found with the name " ++ channel ++ ".")
  | Some worker =>
      if negb (is_alive worker) then
        ret ("Channel " ++ channel ++ " is in ERROR state.")
      else ret (getLevelName (loglevel (task_manager worker)))
  end.

(** [os.environ] is the list of the names it defines; [OSError] is the
    exception raised. *)
Definition _check_metrics_env (environ : list string) (options : Options)
    : outcome unit :=
  if no_webserver options then Ret tt
  else if existsb (String.eqb "PROMETHEUS_MULTIPROC_DIR") environ then Ret tt
  else Raise (OtherError
                ("If running with metrics (webserver), PROMETHEUS_MULTIPROC_DIR"
                   ++ " must be set.  If you wish to run the decision engine without"
                   ++ " the metrics webserver, please pass the --no-webserver option.")).

(** The last value given for [--port] and for [--config], if any. *)
Fixpoint last_port (args : list cli_arg) (default : Z) : Z :=
  match args with
  | [] => default
  | ArgPort text :: rest =>
      last_port rest (match py_int text with Some v => v | None => default end)
  | _ :: rest => last_port rest default
  end.

Fixpoint last_config (args : list cli_arg) (default : string) : string :=
  match args with
  | [] => default
  | ArgConfig f :: rest => last_config rest f
  | _ :: rest => last_config rest default
  end.

Definition is_no_webserver (arg : cli_arg) : bool :=
  match arg with ArgNoWebserver => true | _ => false end.

(** A [--port] value that [argparse] refuses. *)
Definition bad_port (arg : cli_arg) : bool :=
  match arg with
  | ArgPort text =>
      match py_int text with
      | Some v => negb (port_choices v)
      | None => true
      end
  | _ => false
  end.

(** Calls made outside the channel life cycle, next to those of it. *)
Inductive call :=
| Core (ev : event)
| ReaperStop
| ReaperStart (delay : pyval)
| SourcesRemoveAll (budget : pyval)
| SourcesDetach (channel : string) (keys : list string)
| ServerShutdown
| DataspaceClose
| WebserverExit
| LoggerStop
| WebserverStart
| StartupComplete
| ServeForever
| PrintFatal (e : exn)
| RedisFlushdb.

Definition is_core (c : call) : bool :=
  match c with Core _ => true | _ => false end.

(** The methods that make such calls. *)
Definition H (A : Type) : Type :=
  DecisionEngine -> outcome A * DecisionEngine * list call.

Definition retc {A} (a : A) : H A := fun de => (Ret a, de, []).

Definition bindc {A B} (m : H A) (k : A -> H B) : H B :=
  fun de =>
    match m de with
    | (Ret a, de1, cs1) =>
        match k a de1 with
        | (r, de2, cs2) => (r, de2, (cs1 ++ cs2)%list)
        end
    | (Raise e, de1, cs1) => (Raise e, de1, cs1)
    end.

Definition getsc {A} (f : DecisionEngine -> A) : H A := fun de => (Ret (f de), de, []).

Definition modifyc (f : DecisionEngine -> DecisionEngine) : H unit :=
  fun de => (Ret tt, f de, []).

Definition emitc (c : call) : H unit := fun de => (Ret tt, de, [c]).

Definition liftc {A} (o : outcome A) : H A := fun de => (o, de, []).

Definition raisec {A} (e : exn) : H A := fun de => (Raise e, de, []).

(** [try: m except Exception as e: h e]. *)
Definition try_exceptc {A} (m : H A) (h : exn -> H A) : H A :=
  fun de =>
    match m de with
    | (Ret a, de1, cs1) => (Ret a, de1, cs1)
    | (Raise e, de1, cs1) =>
        match h e de1 with
        | (r, de2, cs2) => (r, de2, (cs1 ++ cs2)%list)
        end
    end.

(** [try: m finally: fin]: [fin] runs however [m] ends; an exception of
    [fin] replaces the outcome of [m]. *)
Definition try_finallyc {A} (m : H A) (fin : H unit) : H A :=
  fun de =>
    match m de with
    | (r, de1, cs1) =>
        match fin de1 with
        | (Ret _, de2, cs2) => (r, de2, (cs1 ++ cs2)%list)
        | (Raise e, de2, cs2) => (Raise e, de2, (cs1 ++ cs2)%list)
        end
    end.

(** A method of the channel life cycle run among the others. *)
Definition core {A} (m : M A) : H A :=
  fun de =>
    match m de with
    | (r, de1, evs) => (r, de1, map Core evs)
    end.

Definition resultc {A} (r : outcome A * DecisionEngine * list call) : outcome A :=
  fst (fst r).
Definition finalc {A} (r : outcome A * DecisionEngine * list call) : DecisionEngine :=
  snd (fst r).
Definition callsc {A} (r : outcome A * DecisionEngine * list call) : list call :=
  snd r.

Declare Scope house_scope.
Delimit Scope house_scope with house.
Notation "x <- m ;; k" := (bindc m (fun x => k))
  (at level 61, m at next level, right associativity) : house_scope.
Notation "m ;; k" := (bindc m (fun _ => k))
  (at level 61, right associativity) : house_scope.

Section Housekeeping.
Variable env : Env.

(** What these methods rely on besides [env]. *)

(** [channel_config_loader.print_channel_config(name)] *)
Variable print_channel_config : string -> string.
(** [worker.task_manager.state.get()] *)
Variable state_of : ChannelWorker -> State.
(** [source_workers.detach_channel(name, routing_keys)] and
    [source_workers.remove_all(timeout)] *)
Variable sources_detach : string -> list string -> (nat -> SourceWorker) -> nat -> SourceWorker.
Variable sources_remove_all : pyval -> (nat -> SourceWorker) -> nat -> SourceWorker.
(** [Countdown(wait_up_to=timeout)], its [time_left], and the countdown as
    it is once the [with countdown:] scope in which a worker was stopped
    is left *)
Variable Cd : Type.
Variable Cd_new : pyval -> Cd.
Variable Cd_time_left : Cd -> pyval.
Variable Cd_leave : Cd -> ChannelWorker -> Cd.
(** [global_config["dataspace"].get("reaper_start_delay_seconds", 1818)] *)
Variable reaper_start_delay : GlobalConfig -> outcome pyval.
(** [global_config.get("no_webserver")] read as a truth value *)
Variable no_webserver_set : GlobalConfig -> bool.

(** The loop of [rpc_show_config] for "all". *)
Fixpoint show_all (names : list string) : string :=
  match names with
  | [] => ""
  | ch :: rest => _channel_preamble ch ++ print_channel_config ch ++ show_all rest
  end.

Definition rpc_show_config (channel : string) : M string :=
  channels <- gets channel_configs ;;
  if String.eqb channel "all" then ret (show_all (od_keys channels))
  else if negb (od_mem channel channels) then
    ret ("There is no active channel named " ++ channel ++ ".")
  else ret (_channel_preamble channel ++ print_channel_config channel).

Definition rpc_block_while (state_str : pyval) (timeout : option Z) : M string :=
  match state_str with
  | PyStr name =>
      match State_of_name name with
      | Some allowed_state => block_while env allowed_state timeout
      | None => ret (name ++ " is not a valid channel state.")
      end
  | _ => ret (py_str env state_str ++ " is not a valid channel state.")
  end.

Local Open Scope house_scope.

(** The loop of [service_actions] over [workers.items()]. *)
Fixpoint detach_each (workers : list (string * ChannelWorker)) : H unit :=
  match workers with
  | [] => retc tt
  | (channel_name, worker) :: rest =>
      let tm := task_manager worker in
      if probably_running (state_of worker) then detach_each rest
      else
        emitc (SourcesDetach (tm_name tm) (routing_keys tm)) ;;
        modifyc (set_source_heap (sources_detach (tm_name tm) (routing_keys tm))) ;;
        detach_each rest
  end.

Definition service_actions : H unit :=
  workers <- getsc channel_workers ;;
  detach_each workers.

(** The loop of [stop_channels] over [workers.values()]; each worker is
    stopped inside [with countdown:]. *)
Fixpoint stop_each (workers : list ChannelWorker) (countdown : Cd) : H Cd :=
  match workers with
  | [] => retc countdown
  | worker :: rest =>
      core (stop_worker env worker (Cd_time_left countdown)) ;;
      stop_each rest (Cd_leave countdown worker)
  end.

Definition stop_channels : H unit :=
  timeout <- getsc shutdown_timeout ;;
  workers <- getsc channel_workers ;;
  countdown <- stop_each (od_values workers) (Cd_new timeout) ;;
  modifyc (set_channel_workers (fun _ => [])) ;;
  emitc (SourcesRemoveAll (Cd_time_left countdown)) ;;
  modifyc (set_source_heap (sources_remove_all (Cd_time_left countdown))).

Definition rpc_stop_channels : H string :=
  stop_channels ;;
  retc "All channels stopped.".

Definition handle_sighup : H unit :=
  emitc ReaperStop ;;
  stop_channels ;;
  core (start_channels env) ;;
  config <- getsc global_config ;;
  delay <- liftc (reaper_start_delay config) ;;
  emitc (ReaperStart delay).

Definition rpc_stop : H string :=
  emitc ServerShutdown ;;
  stop_channels ;;
  emitc ReaperStop ;;
  emitc DataspaceClose ;;
  config <- getsc global_config ;;
  (if no_webserver_set config then retc tt else emitc WebserverExit) ;;
  emitc LoggerStop ;;
  retc "OK".

(** [_start_de_server(server)].  The message printed on a failure names
    the server address and the exception; [server.broker_url] is the
    value [__init__] read from the global configuration.  Starting the
    reaper and the web server, setting [startup_complete], serving and
    [flushdb] (whose exceptions are suppressed) are taken to return.
    The [try] block and the [finally] clause come first. *)
Definition start_de_server_try : H unit :=
  config <- getsc global_config ;;
  delay <- liftc (reaper_start_delay config) ;;
  emitc (ReaperStart delay) ;;
  core (start_channels env) ;;
  config <- getsc global_config ;;
  (if no_webserver_set config then retc tt else emitc WebserverStart) ;;
  emitc StartupComplete ;;
  emitc ServeForever.

Definition start_de_server_finally : H unit :=
  config <- getsc global_config ;;
  liftc (redis_from_url env (broker_url config)) ;;
  emitc RedisFlushdb.

Definition _start_de_server : H unit :=
  try_finallyc
    (try_exceptc start_de_server_try
       (fun e => emitc (PrintFatal e) ;; raisec e))
    start_de_server_finally.

End Housekeeping.

(** Collaborators whose workflow validator rejects every channel. *)
Definition rejecting_env : Env := {|
  join := join sample_env;
  start := start sample_env;
  leave_time := leave_time sample_env;
  sw_start := sw_start sample_env;
  sources_update := fun _ cfgs heap => (Ret (number_from 0 cfgs), exhausted_heap);
  sources_prune := sources_prune sample_env;
  validated_workflow := fun _ _ _ => Raise (RuntimeError "ghost is not produced");
  task_manager_init := task_manager_init sample_env;
  set_loglevel_value := set_loglevel_value sample_env;
  logging_other_attr := logging_other_attr sample_env;
  render_product := render_product sample_env;
  redis_from_url := redis_from_url sample_env;
  redis_ping := redis_ping sample_env;
  load_all_channels := load_all_channels sample_env;
  load_channel := load_channel sample_env;
  str_float := str_float sample_env;
  str_state := str_state sample_env
|}.

(** Collaborators whose task managers store the level they are given. *)
Definition storing_env : Env := {|
  join := join sample_env;
  start := start sample_env;
  leave_time := leave_time sample_env;
  sw_start := sw_start sample_env;
  sources_update := sources_update sample_env;
  sources_prune := sources_prune sample_env;
  validated_workflow := validated_workflow sample_env;
  task_manager_init := task_manager_init sample_env;
  set_loglevel_value := fun name tm =>
    match od_get name logging_levels with
    | Some code => Ret {| tm_name := tm_name tm;
                          routing_keys := routing_keys tm;
                          loglevel := code |}
    | None => Raise (AttributeError name)
    end;
  logging_other_attr := logging_other_attr sample_env;
  render_product := render_product sample_env;
  redis_from_url := redis_from_url sample_env;
  redis_ping := redis_ping sample_env;
  load_all_channels := load_all_channels sample_env;
  load_channel := load_channel sample_env;
  str_float := str_float sample_env;
  str_state := str_state sample_env
|}.

(** The names the configured channels are started under. *)
Definition effective_names (configs : odict ChannelConfig) : list string :=
  map (fun nc => effective_name (fst nc) (snd nc)) configs.

(** A call that stops the worker of [channel]. *)
Definition is_stop_call (channel : string) (ev : event) : Prop :=
  ev = EvTakeOffline channel \/ (exists t, ev = EvJoin channel t)
  \/ ev = EvTerminate channel.

(** The calls of [stop_worker] on each worker with the budget it is given. *)
Definition stop_calls (env : Env) (de : DecisionEngine)
    (stops : list (ChannelWorker * pyval)) : list event :=
  flat_map (fun wb => calls (stop_worker env (fst wb) (snd wb) de)) stops.

(** The workers of a registry that are not probably running. *)
Definition gone_offline (state_of : ChannelWorker -> State)
    (workers : odict ChannelWorker) : list ChannelWorker :=
  filter (fun w => negb (probably_running (state_of w))) (od_values workers).

Definition detach_call (worker : ChannelWorker) : call :=
  SourcesDetach (tm_name (task_manager worker)) (routing_keys (task_manager worker)).

(** A registry whose workers are all named after their keys, as
    [start_channel] files them. *)
Definition sample_registry : odict ChannelWorker :=
  [("alpha", sample_worker "alpha" true None);
   ("beta", sample_worker "beta" false (Some 1))].

(* ================================================================== *)
(** ** Lemmas on the monad and on dictionaries *)

Ltac run :=
  unfold bind, ret, raise, gets, modify, emit, lift, try_except,
         result, final, calls; simpl.

Lemma bind_ret {A B} (a : A) (k : A -> M B) de :
  bind (ret a) k de = k a de.
Proof. run. destruct (k a de) as [[r d] evs]. reflexivity. Qed.

Lemma bind_gets {A B} (f : DecisionEngine -> A) (k : A -> M B) de :
  bind (gets f) k de = k (f de) de.
Proof. run. destruct (k (f de) de) as [[r d] evs]. reflexivity. Qed.

Lemma bind_modify {B} (f : DecisionEngine -> DecisionEngine) (k : unit -> M B) de :
  bind (modify f) k de = k tt (f de).
Proof. run. destruct (k tt (f de)) as [[r d] evs]. reflexivity. Qed.

Lemma bind_emit {B} (ev : event) (k : unit -> M B) de :
  bind (emit ev) k de
  = (result (k tt de), final (k tt de), ev :: calls (k tt de)).
Proof. run. destruct (k tt de) as [[r d] evs]. reflexivity. Qed.

Lemma bind_raise {A B} (e : exn) (k : A -> M B) de :
  bind (raise e) k de = (Raise e, de, []).
Proof. reflexivity. Qed.

Lemma bind_lift_ret {A B} (a : A) (k : A -> M B) de :
  bind (lift (Ret a)) k de = k a de.
Proof. run. destruct (k a de) as [[r d] evs]. reflexivity. Qed.

Lemma bind_lift_raise {A B} (e : exn) (k : A -> M B) de :
  bind (lift (Raise e)) k de = (Raise e, de, []).
Proof. reflexivity. Qed.

Lemma final_triple {A} (o : outcome A) (d : DecisionEngine) (evs : list event) :
  final (o, d, evs) = d.
Proof. reflexivity. Qed.

Lemma result_triple {A} (o : outcome A) (d : DecisionEngine) (evs : list event) :
  result (o, d, evs) = o.
Proof. reflexivity. Qed.

Lemma calls_triple {A} (o : outcome A) (d : DecisionEngine) (evs : list event) :
  calls (o, d, evs) = evs.
Proof. reflexivity. Qed.

Lemma bind_run {A B} (m : M A) (k : A -> M B) de :
  bind m k de
  = match result (m de) with
    | Ret a => (result (k a (final (m de))), final (k a (final (m de))),
                (calls (m de) ++ calls (k a (final (m de))))%list)
    | Raise e => (Raise e, final (m de), calls (m de))
    end.
Proof.
  unfold bind, result, final, calls.
  destruct (m de) as [[[a|e] d] evs]; simpl; [|reflexivity].
  destruct (k a d) as [[r d'] evs']. reflexivity.
Qed.

Lemma triple_eta {A} (r : outcome A * DecisionEngine * list event) :
  (result r, final r, calls r) = r.
Proof. destruct r as [[o d] evs]. reflexivity. Qed.

Ltac step :=
  repeat first
    [ rewrite bind_ret | rewrite bind_gets | rewrite bind_modify
    | rewrite bind_emit | rewrite bind_raise | rewrite bind_lift_ret
    | rewrite bind_lift_raise ].

Lemma od_del_keys_incl {V} (k : string) (d : odict V) :
  forall x, In x (od_keys (od_del k d)) -> In x (od_keys d).
Proof.
  induction d as [|[k' v'] d IH]; simpl; intros x Hx; [exact Hx|].
  destruct (String.eqb k k'); simpl in *; intuition.
Qed.

Lemma od_del_NoDup {V} (k : string) (d : odict V) :
  NoDup (od_keys d) -> NoDup (od_keys (od_del k d)).
Proof.
  induction d as [|[k' v'] d IH]; simpl; intros H; [exact H|].
  inversion H as [|? ? Hn Hd]; subst.
  destruct (String.eqb k k'); simpl; [exact Hd|].
  constructor; [|auto].
  intros Hin. apply Hn. eapply od_del_keys_incl; eauto.
Qed.

Lemma od_set_keys_in {V} (k : string) (v : V) (d : odict V) :
  forall x, In x (od_keys (od_set k v d)) -> x = k \/ In x (od_keys d).
Proof.
  induction d as [|[k' v'] d IH]; simpl; intros x Hx.
  - destruct Hx as [Hx|[]]; auto.
  - destruct (String.eqb_spec k k') as [->|Hne]; simpl in Hx.
    + destruct Hx; auto.
    + destruct Hx as [Hx|Hx]; auto. destruct (IH _ Hx); auto.
Qed.

Lemma od_set_NoDup {V} (k : string) (v : V) (d : odict V) :
  NoDup (od_keys d) -> NoDup (od_keys (od_set k v d)).
Proof.
  induction d as [|[k' v'] d IH]; simpl; intros H.
  - constructor; [intros []|constructor].
  - inversion H as [|? ? Hn Hd]; subst.
    destruct (String.eqb_spec k k') as [->|Hne]; simpl.
    + constructor; assumption.
    + constructor; [|auto].
      intros Hin. destruct (od_set_keys_in _ _ _ _ Hin) as [->|Hin']; auto.
Qed.

Lemma od_mem_set {V} (k : string) (v : V) (d : odict V) :
  od_mem k (od_set k v d) = true.
Proof.
  unfold od_mem. induction d as [|[x w] d IH]; simpl.
  - rewrite String.eqb_refl. reflexivity.
  - destruct (String.eqb_spec k x) as [->|Hne]; simpl.
    + rewrite String.eqb_refl. reflexivity.
    + destruct (String.eqb_spec k x); [congruence|exact IH].
Qed.

Lemma od_get_set_same {V} (k : string) (v : V) (d : odict V) :
  od_get k (od_set k v d) = Some v.
Proof.
  induction d as [|[x w] d IH]; simpl.
  - rewrite String.eqb_refl. reflexivity.
  - destruct (String.eqb_spec k x) as [->|Hne]; simpl.
    + rewrite String.eqb_refl. reflexivity.
    + destruct (String.eqb_spec k x); [congruence|exact IH].
Qed.

(* ================================================================== *)
(** ** Stopping a worker *)

Lemma offline_join_returns env worker timeout de :
  exists worker',
    offline_join env worker timeout de
    = (Ret worker', de,
       if is_alive worker
       then [EvTakeOffline (channel_of worker); EvJoin (channel_of worker) timeout]
       else [])
    /\ worker' = (if is_alive worker
                  then with_process (join env timeout worker) worker
                  else worker).
Proof.
  unfold offline_join. destruct (is_alive worker); run; eauto.
Qed.

Lemma stop_worker_run env worker timeout de :
  stop_worker env worker timeout de
  = (Ret (match exitcode (if is_alive worker
                          then with_process (join env timeout worker) worker
                          else worker) with
          | None => Terminated
          | Some _ => Clean
          end),
     de,
     ((if is_alive worker
       then [EvTakeOffline (channel_of worker); EvJoin (channel_of worker) timeout]
       else [])
      ++ match exitcode (if is_alive worker
                          then with_process (join env timeout worker) worker
                          else worker) with
         | None => [EvTerminate (channel_of worker)]
         | Some _ => []
         end)%list).
Proof.
  unfold stop_worker, offline_join.
  destruct (is_alive worker); run.
  - destruct (snd (join env timeout worker)); reflexivity.
  - destruct (exitcode worker); reflexivity.
Qed.

(** C10.  A channel worker that is not alive and has no exit code (one
    that was never started, say) is terminated at once by [stop_worker]:
    [take_offline] and [join] are not called, [terminate] is, and the
    value is [Terminated], whatever the timeout; so [Terminated] does not
    tell that a timeout ran out.  And [stop_worker] returns [Clean]
    exactly when the worker has an exit code once the offline-and-join
    step is over, [Terminated] exactly when it has none. *)
Theorem stop_worker_not_started_is_terminated :
  forall env worker timeout de,
    (is_alive worker = false -> exitcode worker = None ->
     stop_worker env worker timeout de
     = (Ret Terminated, de, [EvTerminate (channel_of worker)]))
    /\ (exists worker',
          result (offline_join env worker timeout de) = Ret worker'
          /\ (result (stop_worker env worker timeout de) = Ret Clean
              <-> exitcode worker' <> None)
          /\ (result (stop_worker env worker timeout de) = Ret Terminated
              <-> exitcode worker' = None)).
Proof.
  intros env worker timeout de. split.
  - intros Halive Hcode. rewrite stop_worker_run, Halive, Hcode. reflexivity.
  - destruct (offline_join_returns env worker timeout de) as [w' [Hrun Hw']].
    exists w'. rewrite Hrun, stop_worker_run, <- Hw'. unfold result; simpl.
    split; [reflexivity|].
    destruct (exitcode w'); split; split; intros H;
      try congruence; try discriminate; try reflexivity.
Qed.

Lemma stop_worker_not_started_witness :
  stop_worker sample_env (sample_worker "alpha" false None) PyNone (sample_engine [])
  = (Ret Terminated, sample_engine [], [EvTerminate "alpha"]).
Proof.
  exact (proj1 (stop_worker_not_started_is_terminated
                  sample_env (sample_worker "alpha" false None) PyNone (sample_engine []))
               eq_refl eq_refl).
Defined.

(* ================================================================== *)
(** ** Removing a channel *)

Lemma rm_channel_run env channel timeout de :
  rm_channel env channel timeout de
  = match od_get channel (channel_workers de) with
    | None => (Ret NotFound, de, [])
    | Some worker =>
        (result (stop_worker env worker timeout de),
         removed env channel worker de,
         (calls (stop_worker env worker timeout de)
            ++ [EvRegistryDelete channel; EvSourcesPrune channel])%list)
    end.
Proof.
  unfold rm_channel. run.
  destruct (od_get channel (channel_workers de)) as [worker|]; [|reflexivity].
  rewrite stop_worker_run. run. reflexivity.
Qed.

(** Removing a channel keeps the names of the registry pairwise distinct. *)
Lemma rm_channel_names_distinct env channel timeout de :
  NoDup (od_keys (channel_workers de)) ->
  NoDup (od_keys (channel_workers (final (rm_channel env channel timeout de)))).
Proof.
  intros Hnd. rewrite rm_channel_run.
  destruct (od_get channel (channel_workers de)) as [worker|];
    unfold final; cbn [fst snd]; [|exact Hnd].
  unfold removed. cbn [channel_workers set_source_heap set_channel_workers].
  apply od_del_NoDup. exact Hnd.
Qed.

Lemma float_positive_not_zero (f : float) :
  PrimFloat.ltb 0%float f = true -> PrimFloat.eqb f 0%float = false.
Proof.
  rewrite FloatAxioms.ltb_spec, FloatAxioms.eqb_spec.
  change (FloatOps.Prim2SF 0%float) with (SpecFloat.S754_zero false).
  destruct (FloatOps.Prim2SF f) as [s|s| |s m e]; simpl; try discriminate;
    try reflexivity; destruct s; simpl; try discriminate; reflexivity.
Qed.

Lemma positive_not_zero (v : pyval) :
  py_positive v = true -> py_eq_zero v = false.
Proof.
  destruct v as [|b|z|f|s]; simpl; try discriminate.
  - intros ->. reflexivity.
  - intros H. apply Z.ltb_lt in H. apply Z.eqb_neq. lia.
  - apply float_positive_not_zero.
Qed.

Lemma rpc_rm_channel_result env channel timeout de :
  result (rpc_rm_channel env channel timeout de)
  = match result (rm_channel env channel timeout de) with
    | Ret NotFound => Ret ("No channel found with the name " ++ channel ++ ".")
    | Ret Clean => Ret ("Channel " ++ channel ++ " stopped cleanly.")
    | Ret Terminated =>
        if py_eq_zero timeout then Ret ("Channel " ++ channel ++ " has been killed.")
        else match py_gt_one timeout with
             | Ret plural =>
                 Ret ("Channel " ++ channel
                        ++ " has been killed due to shutdown timeout ("
                        ++ py_str env timeout ++ " second"
                        ++ (if plural then "s" else "") ++ ").")
             | Raise e => Raise e
             end
    | Raise e => Raise e
    end.
Proof.
  unfold rpc_rm_channel. unfold bind at 1. unfold result.
  destruct (rm_channel env channel timeout de) as [[[rc|e] de1] evs]; simpl;
    [|reflexivity].
  destruct rc; run; try reflexivity.
  destruct (py_eq_zero timeout); [reflexivity|].
  run. destruct (py_gt_one timeout); reflexivity.
Qed.

(** C1.  [rpc_stop_channel(name)] is [rpc_rm_channel(name, None)];
    [rpc_kill_channel(name)] called without a timeout is
    [rpc_rm_channel(name, T)] for [T] the value the configuration holds
    under "shutdown_timeout", whatever that value is, and for 10 when the
    configuration has none.  [rpc_rm_channel] answers
    "No channel found with the name {name}." when the name is not in the
    registry, "Channel {name} stopped cleanly." when the worker stopped by
    itself, and, when the worker was terminated under a positive timeout
    [T], "Channel {name} has been killed due to shutdown timeout (T
    seconds)." with "second" in the singular when [T] is not greater
    than 1. *)
Theorem rpc_rm_channel_dispatch_and_messages :
  forall env channel de,
    rpc_stop_channel env channel de = rpc_rm_channel env channel PyNone de
    /\ (forall configured,
          gc_shutdown_timeout (global_config de) = Some configured ->
          rpc_kill_channel env channel PyNone de
          = rpc_rm_channel env channel configured de)
    /\ (gc_shutdown_timeout (global_config de) = None ->
        rpc_kill_channel env channel PyNone de
        = rpc_rm_channel env channel (PyInt 10) de)
    /\ rpc_kill_channel env channel PyNone de
       = rpc_rm_channel env channel (shutdown_timeout de) de
    /\ (gc_shutdown_timeout (global_config de) = None ->
        shutdown_timeout de = PyInt 10)
    /\ (forall timeout,
          od_get channel (channel_workers de) = None ->
          result (rpc_rm_channel env channel timeout de)
          = Ret ("No channel found with the name " ++ channel ++ "."))
    /\ (forall timeout worker,
          od_get channel (channel_workers de) = Some worker ->
          result (stop_worker env worker timeout de) = Ret Clean ->
          result (rpc_rm_channel env channel timeout de)
          = Ret ("Channel " ++ channel ++ " stopped cleanly."))
    /\ (forall t worker,
          od_get channel (channel_workers de) = Some worker ->
          result (stop_worker env worker (PyInt t) de) = Ret Terminated ->
          0 < t ->
          result (rpc_rm_channel env channel (PyInt t) de)
          = Ret ("Channel " ++ channel ++ " has been killed due to shutdown timeout ("
                   ++ str_int t ++ " second" ++ (if 1 <? t then "s" else "") ++ ")."))
    /\ (forall f worker,
          od_get channel (channel_workers de) = Some worker ->
          result (stop_worker env worker (PyFloat f) de) = Ret Terminated ->
          PrimFloat.ltb 0%float f = true ->
          result (rpc_rm_channel env channel (PyFloat f) de)
          = Ret ("Channel " ++ channel ++ " has been killed due to shutdown timeout ("
                   ++ str_float env f ++ " second"
                   ++ (if PrimFloat.ltb 1%float f then "s" else "") ++ ").")).
Proof.
  intros env channel de.
  assert (Hkill : rpc_kill_channel env channel PyNone de
                  = rpc_rm_channel env channel (shutdown_timeout de) de).
  { unfold rpc_kill_channel. run.
    destruct (rpc_rm_channel env channel (shutdown_timeout de) de) as [[r d] e].
    reflexivity. }
  split; [reflexivity|].
  split.
  { intros configured Hcfg. rewrite Hkill. unfold shutdown_timeout.
    rewrite Hcfg. reflexivity. }
  split.
  { intros Hcfg. rewrite Hkill. unfold shutdown_timeout. rewrite Hcfg. reflexivity. }
  split; [exact Hkill|].
  split; [unfold shutdown_timeout; intros ->; reflexivity|].
  split; [|split; [|split]].
  - intros timeout Hget.
    rewrite rpc_rm_channel_result, rm_channel_run, Hget. reflexivity.
  - intros timeout worker Hget Hrc.
    rewrite rpc_rm_channel_result, rm_channel_run, Hget.
    unfold result in *; simpl. rewrite Hrc. reflexivity.
  - intros t worker Hget Hrc Ht.
    rewrite rpc_rm_channel_result, rm_channel_run, Hget.
    unfold result in *; cbn [fst]. rewrite Hrc.
    rewrite (positive_not_zero (PyInt t)); [reflexivity|].
    simpl. apply Z.ltb_lt. exact Ht.
  - intros f worker Hget Hrc Hf.
    rewrite rpc_rm_channel_result, rm_channel_run, Hget.
    unfold result in *; cbn [fst]. rewrite Hrc.
    rewrite (positive_not_zero (PyFloat f)); [reflexivity|exact Hf].
Qed.

(** Scenario 4 of the specification, [kill_channel delta 2] on a worker
    that does not exit; and [kill_channel delta] without a timeout under a
    configuration whose "shutdown_timeout" is 3. *)
Lemma rpc_kill_channel_two_seconds :
  result (rpc_kill_channel hanging_env "delta" (PyInt 2)
            (sample_engine [("delta", sample_worker "delta" true None)]))
  = Ret "Channel delta has been killed due to shutdown timeout (2 seconds)."
  /\ result (rpc_kill_channel hanging_env "delta" PyNone
               (engine_with_timeout (PyInt 3)
                  [("delta", sample_worker "delta" true None)]))
     = Ret "Channel delta has been killed due to shutdown timeout (3 seconds).".
Proof.
  split.
  - pose proof (rpc_rm_channel_dispatch_and_messages hanging_env "delta"
                  (sample_engine [("delta", sample_worker "delta" true None)])) as H.
    destruct H as (_ & _ & _ & _ & _ & _ & _ & Hint & _).
    exact (Hint 2 (sample_worker "delta" true None) eq_refl eq_refl eq_refl).
  - pose proof (rpc_rm_channel_dispatch_and_messages hanging_env "delta"
                  (engine_with_timeout (PyInt 3)
                     [("delta", sample_worker "delta" true None)])) as H.
    destruct H as (_ & Hcfg & _ & _ & _ & _ & _ & Hint & _).
    rewrite (Hcfg (PyInt 3) eq_refl).
    exact (Hint 3 (sample_worker "delta" true None) eq_refl eq_refl eq_refl).
Defined.

(* ================================================================== *)
(** ** What the administrative operations return *)

Lemma rm_channel_returns env channel timeout de :
  exists rc, result (rm_channel env channel timeout de) = Ret rc.
Proof.
  rewrite rm_channel_run.
  destruct (od_get channel (channel_workers de)) as [worker|].
  - rewrite stop_worker_run. unfold result; simpl. eauto.
  - unfold result; simpl. eauto.
Qed.

Lemma rpc_rm_channel_number env channel timeout de :
  is_number timeout = true ->
  returns_value (result (rpc_rm_channel env channel timeout de)) = true.
Proof.
  intros Hnum. rewrite rpc_rm_channel_result.
  destruct (rm_channel_returns env channel timeout de) as [rc ->].
  destruct rc; try reflexivity.
  destruct (py_eq_zero timeout); [reflexivity|].
  destruct timeout; simpl in *; try discriminate; reflexivity.
Qed.

Lemma rpc_set_channel_log_level_alive env channel name worker de :
  od_get channel (channel_workers de) = Some worker ->
  is_alive worker = true ->
  result (rpc_set_channel_log_level env channel (PyStr name) de)
  = match logging_getattr env name with
    | Raise e => Raise e
    | Ret code =>
        if match code with
           | Some c => loglevel (task_manager worker) =? c
           | None => false
           end
        then Ret ("Nothing to do. Current log level is : " ++ name)
        else match set_loglevel_value env name (task_manager worker) with
             | Ret _ => Ret ("Log level changed to : " ++ name)
             | Raise e => Raise e
             end
    end.
Proof.
  intros Hget Halive. unfold rpc_set_channel_log_level. run.
  rewrite Hget, Halive. simpl.
  destruct (logging_getattr env name) as [code|e]; [|reflexivity].
  destruct (match code with Some c => _ | None => false end); [reflexivity|].
  destruct (set_loglevel_value env name (task_manager worker)); reflexivity.
Qed.

(** C2, the claim as stated fails: [rpc_print_product] called with a
    product that is not a string raises [ValueError], and
    [rpc_set_channel_log_level] on a running channel raises
    [AttributeError] for a name that is no attribute of [logging]. *)
Lemma rpc_operations_can_raise :
  result (rpc_print_product sample_env (PyInt 3) PyNone PyNone (PyBool false) PyNone
            (sample_engine []))
  = Raise (ValueError "Requested product should be a string not <class 'int'>")
  /\ result (rpc_set_channel_log_level sample_env "alpha" (PyStr "LOUD")
               (sample_engine [("alpha", sample_worker "alpha" true None)]))
     = Raise (AttributeError "module 'logging' has no attribute 'LOUD'").
Proof. split; reflexivity. Qed.

(** What [rpc_rm_channel] does with a nil timeout when the worker had to
    be terminated: the comparison [None > 1] raises. *)
Lemma rpc_stop_channel_not_started_raises :
  result (rpc_stop_channel sample_env "alpha"
            (sample_engine [("alpha", sample_worker "alpha" false None)]))
  = Raise (TypeError "'>' not supported between instances of 'NoneType' and 'int'").
Proof. reflexivity. Qed.

(** C2, amended.  What six of the administrative operations return.
    [rpc_ping] returns "pong".  [rpc_print_product] raises [ValueError]
    for every product that is not a string.  [rpc_set_channel_log_level]
    returns a string when the channel is unknown or not alive, whatever
    the level; on a running channel and for the name of a [logging] level
    constant it returns "Nothing to do. ..." when that is the current
    level and "Log level changed to : ..." when it is not and the task
    manager's [set_loglevel_value] returns; for a name that is no
    attribute of [logging] it raises [AttributeError].  [rpc_rm_channel]
    and [rpc_kill_channel] return a string whenever the timeout is a
    number; [rpc_rm_channel] and [rpc_stop_channel] return one whenever
    the channel is unknown or its worker stopped by itself.  Nothing is
    said of the other operations, nor of a timeout that is no number when
    the worker had to be terminated. *)
Theorem rpc_operations_outcomes :
  forall env de,
    result (rpc_ping de) = Ret "pong"
    /\ (forall product columns query types format,
          (forall name, product <> PyStr name) ->
          result (rpc_print_product env product columns query types format de)
          = Raise (ValueError ("Requested product should be a string not "
                                 ++ type_repr product)))
    /\ (forall channel log_level,
          od_get channel (channel_workers de) = None ->
          result (rpc_set_channel_log_level env channel log_level de)
          = Ret ("No channel found with the name " ++ channel ++ "."))
    /\ (forall channel log_level worker,
          od_get channel (channel_workers de) = Some worker ->
          is_alive worker = false ->
          result (rpc_set_channel_log_level env channel log_level de)
          = Ret ("Channel " ++ channel ++ " is in ERROR state."))
    /\ (forall channel name worker code,
          od_get channel (channel_workers de) = Some worker ->
          is_alive worker = true ->
          od_get name logging_levels = Some code ->
          (loglevel (task_manager worker) = code ->
           result (rpc_set_channel_log_level env channel (PyStr name) de)
           = Ret ("Nothing to do. Current log level is : " ++ name))
          /\ (loglevel (task_manager worker) <> code ->
              returns_value (set_loglevel_value env name (task_manager worker)) = true ->
              result (rpc_set_channel_log_level env channel (PyStr name) de)
              = Ret ("Log level changed to : " ++ name)))
    /\ (forall channel name worker,
          od_get channel (channel_workers de) = Some worker ->
          is_alive worker = true ->
          od_get name logging_levels = None ->
          logging_other_attr env name = false ->
          result (rpc_set_channel_log_level env channel (PyStr name) de)
          = Raise (AttributeError ("module 'logging' has no attribute '" ++ name ++ "'")))
    /\ (forall channel timeout,
          is_number timeout = true ->
          returns_value (result (rpc_rm_channel env channel timeout de)) = true
          /\ returns_value (result (rpc_kill_channel env channel timeout de)) = true)
    /\ (forall channel timeout,
          result (rm_channel env channel timeout de) <> Ret Terminated ->
          returns_value (result (rpc_rm_channel env channel timeout de)) = true)
    /\ (forall channel,
          result (rm_channel env channel PyNone de) <> Ret Terminated ->
          returns_value (result (rpc_stop_channel env channel de)) = true).
Proof.
  intros env de.
  split; [reflexivity|].
  split.
  { intros product columns query types format Hns.
    destruct product; try reflexivity. exfalso. eapply Hns. reflexivity. }
  split.
  { intros channel log_level Hget. unfold rpc_set_channel_log_level. run.
    rewrite Hget. reflexivity. }
  split.
  { intros channel log_level worker Hget Halive.
    unfold rpc_set_channel_log_level. run. rewrite Hget, Halive. reflexivity. }
  split.
  { intros channel name worker code Hget Halive Hlevel.
    rewrite (rpc_set_channel_log_level_alive _ _ _ _ _ Hget Halive).
    unfold logging_getattr. rewrite Hlevel. split.
    - intros ->. rewrite Z.eqb_refl. reflexivity.
    - intros Hne Hset. apply Z.eqb_neq in Hne. rewrite Hne.
      destruct (set_loglevel_value env name (task_manager worker));
        [reflexivity|discriminate]. }
  split.
  { intros channel name worker Hget Halive Hlevel Hother.
    rewrite (rpc_set_channel_log_level_alive _ _ _ _ _ Hget Halive).
    unfold logging_getattr. rewrite Hlevel, Hother. reflexivity. }
  split.
  { intros channel timeout Hnum. split.
    - apply rpc_rm_channel_number. exact Hnum.
    - assert (Hk : rpc_kill_channel env channel timeout de
                   = rpc_rm_channel env channel timeout de).
      { unfold rpc_kill_channel. destruct timeout; try discriminate; run;
          destruct (rpc_rm_channel env channel _ de) as [[r d] e]; reflexivity. }
      rewrite Hk. apply rpc_rm_channel_number. exact Hnum. }
  assert (Hrm : forall channel timeout,
             result (rm_channel env channel timeout de) <> Ret Terminated ->
             returns_value (result (rpc_rm_channel env channel timeout de)) = true).
  { intros channel timeout Hrc. rewrite rpc_rm_channel_result.
    destruct (rm_channel_returns env channel timeout de) as [rc Hr].
    rewrite Hr in *. destruct rc; try reflexivity. congruence. }
  split; [exact Hrm|].
  intros channel Hrc. apply (Hrm channel PyNone Hrc).
Qed.

Lemma rpc_operations_outcomes_witness :
  result (rpc_set_channel_log_level sample_env "alpha" (PyStr "DEBUG")
            (sample_engine [("alpha", sample_worker "alpha" true None)]))
  = Ret "Log level changed to : DEBUG"
  /\ returns_value
       (result (rpc_rm_channel hanging_env "alpha" (PyInt 1)
                  (sample_engine [("alpha", sample_worker "alpha" true None)])))
     = true.
Proof.
  pose proof (rpc_operations_outcomes sample_env
                (sample_engine [("alpha", sample_worker "alpha" true None)])) as H1.
  pose proof (rpc_operations_outcomes hanging_env
                (sample_engine [("alpha", sample_worker "alpha" true None)])) as H2.
  destruct H1 as (_ & _ & _ & _ & Hlevel & _).
  destruct H2 as (_ & _ & _ & _ & _ & _ & Hnum & _).
  split.
  - refine (proj2 (Hlevel "alpha" "DEBUG" (sample_worker "alpha" true None) 10
                     eq_refl eq_refl eq_refl) _ eq_refl).
    simpl. discriminate.
  - exact (proj1 (Hnum "alpha" (PyInt 1) eq_refl)).
Defined.

(* ================================================================== *)
(** ** Starting a channel that is already running *)

(** C6.  For a name that is already a key of the channel registry,
    [rpc_start_channel] returns "ERROR, channel {name} is running", makes
    no call at all (so the configuration is not loaded) and leaves the
    whole state, hence the registry, as it was; the names of the registry
    stay pairwise distinct. *)
Theorem rpc_start_channel_rejects_running :
  forall env channel_name de,
    od_mem channel_name (channel_workers de) = true ->
    rpc_start_channel env channel_name de
    = (Ret ("ERROR, channel " ++ channel_name ++ " is running"), de, [])
    /\ ~ In (EvLoadChannel channel_name)
            (calls (rpc_start_channel env channel_name de))
    /\ channel_workers (final (rpc_start_channel env channel_name de))
       = channel_workers de
    /\ (NoDup (od_keys (channel_workers de)) ->
        NoDup (od_keys (channel_workers
                          (final (rpc_start_channel env channel_name de))))).
Proof.
  intros env channel_name de Hmem.
  assert (Hrun : rpc_start_channel env channel_name de
                 = (Ret ("ERROR, channel " ++ channel_name ++ " is running"), de, [])).
  { unfold rpc_start_channel. run. rewrite Hmem. reflexivity. }
  rewrite Hrun. unfold calls, final; simpl.
  repeat split; auto.
Qed.

(** Scenario 6 of the specification: a second [start_channel alpha]. *)
Lemma rpc_start_channel_twice :
  rpc_start_channel sample_env "alpha"
    (sample_engine [("alpha", sample_worker "alpha" true None)])
  = (Ret "ERROR, channel alpha is running",
     sample_engine [("alpha", sample_worker "alpha" true None)], []).
Proof.
  exact (proj1 (rpc_start_channel_rejects_running sample_env "alpha"
                  (sample_engine [("alpha", sample_worker "alpha" true None)])
                  eq_refl)).
Defined.

(* ================================================================== *)
(** ** Waiting on the channels *)

Lemma block_while_loop_run env state workers :
  forall countdown de,
    exists countdown',
      block_while_loop env state workers countdown de
      = (Ret countdown', de, wait_plan env state workers (time_left countdown)).
Proof.
  induction workers as [|w rest IH]; intros countdown de; simpl.
  - eexists. reflexivity.
  - destruct (is_alive w).
    + unfold wait_while. run.
      destruct (IH (Countdown_exit countdown
                      (wait_duration env (channel_of w) state (time_left countdown))) de)
        as [c' Hc'].
      rewrite Hc'. exists c'. simpl.
      destruct countdown as [[t|]]; reflexivity.
    + apply IH.
Qed.

Lemma wait_plan_zero env state workers :
  forall ev, In ev (wait_plan env state workers (Some 0)) ->
             exists channel, ev = EvWaitWhile channel state (Some 0) 0%N.
Proof.
  induction workers as [|w rest IH]; cbn [wait_plan]; intros ev Hin;
    [contradiction|].
  destruct (is_alive w); [|auto].
  assert (Hd : wait_duration env (channel_of w) state (Some 0) = 0%N).
  { unfold wait_duration. simpl. apply N.min_0_r. }
  rewrite Hd in Hin. change (Z.max 0 (0 - Z.of_N 0)) with 0 in Hin.
  destruct Hin as [<-|Hin]; [eauto|auto].
Qed.

Lemma wait_plan_channels env state workers :
  forall budget,
    map (fun ev => match ev with
                   | EvWaitWhile channel st _ _ => Some (channel, st)
                   | _ => None
                   end)
        (wait_plan env state workers budget)
    = map (fun w => Some (channel_of w, state)) (filter is_alive workers).
Proof.
  induction workers as [|w rest IH]; simpl; intros budget; [reflexivity|].
  destruct (is_alive w); simpl; rewrite IH; reflexivity.
Qed.

(** C7.  [block_while(state, timeout)] returns "No active channels.",
    with no call made, when the registry is empty.  Otherwise it returns
    "No channels in {state} state." after waiting once on each alive
    worker, in registry order and on none of the others, each wait being
    [wait_while(state, budget)] for the budget one countdown created with
    [timeout] has left after the waits before it.  With a timeout of 0
    every wait is given the budget 0 and takes no time. *)
Theorem block_while_waits_on_alive_workers :
  forall env state timeout de,
    (channel_workers de = [] ->
     block_while env state timeout de = (Ret "No active channels.", de, []))
    /\ (channel_workers de <> [] ->
        block_while env state timeout de
        = (Ret ("No channels in " ++ str_state env state ++ " state."), de,
           wait_plan env state (od_values (channel_workers de)) timeout)
        /\ map (fun ev => match ev with
                          | EvWaitWhile channel st _ _ => Some (channel, st)
                          | _ => None
                          end)
               (calls (block_while env state timeout de))
           = map (fun w => Some (channel_of w, state))
                 (filter is_alive (od_values (channel_workers de))))
    /\ (forall ev, In ev (calls (block_while env state (Some 0) de)) ->
                   exists channel, ev = EvWaitWhile channel state (Some 0) 0%N).
Proof.
  intros env state timeout de.
  assert (Hne : forall t, channel_workers de <> [] ->
            block_while env state t de
            = (Ret ("No channels in " ++ str_state env state ++ " state."), de,
               wait_plan env state (od_values (channel_workers de)) t)).
  { intros t Hw. unfold block_while. run.
    destruct (channel_workers de) as [|kw rest] eqn:E; [congruence|].
    destruct (block_while_loop_run env state (od_values (kw :: rest))
                (Countdown_new t) de) as [c' Hc'].
    rewrite Hc'. simpl. rewrite app_nil_r. reflexivity. }
  split; [|split].
  - intros Hempty. unfold block_while. run. rewrite Hempty. reflexivity.
  - intros Hw. split; [apply Hne; exact Hw|].
    rewrite (Hne timeout Hw). unfold calls; simpl. apply wait_plan_channels.
  - intros ev Hin.
    assert (Hcases : channel_workers de = [] \/ channel_workers de <> []).
    { destruct (channel_workers de); [left; reflexivity|right; discriminate]. }
    destruct Hcases as [Hempty|Hw].
    + unfold block_while in Hin. revert Hin. run. rewrite Hempty. simpl.
      contradiction.
    + rewrite (Hne (Some 0) Hw) in Hin. unfold calls in Hin; simpl in Hin.
      eapply wait_plan_zero; eauto.
Qed.

Lemma block_while_witness :
  block_while sample_env STEADY (Some 5)
    (sample_engine [("alpha", sample_worker "alpha" true None);
                    ("beta", sample_worker "beta" false (Some 1));
                    ("gamma", sample_worker "gamma" true None)])
  = (Ret "No channels in State.STEADY state.",
     sample_engine [("alpha", sample_worker "alpha" true None);
                    ("beta", sample_worker "beta" false (Some 1));
                    ("gamma", sample_worker "gamma" true None)],
     [EvWaitWhile "alpha" STEADY (Some 5) 3%N;
      EvWaitWhile "gamma" STEADY (Some 2) 2%N]).
Proof.
  refine (proj1 (proj1 (proj2 (block_while_waits_on_alive_workers sample_env STEADY (Some 5)
            (sample_engine [("alpha", sample_worker "alpha" true None);
                            ("beta", sample_worker "beta" false (Some 1));
                            ("gamma", sample_worker "gamma" true None)]))) _)).
  simpl. discriminate.
Defined.

(* ================================================================== *)
(** ** Starting the sources of a channel *)

Lemma start_sources_calls env channel_name src_workers :
  forall de,
    Forall (fun ev => is_source_start ev = true)
           (calls (start_sources env channel_name src_workers de)).
Proof.
  induction src_workers as [|[key h] rest IH]; intros de; cbn [start_sources].
  - constructor.
  - step. destruct (sw_is_alive (source_heap de h)); [apply IH|].
    destruct (exited_zero (source_heap de h)); [constructor|].
    step. unfold calls at 1; cbn [snd].
    constructor; [reflexivity|apply IH].
Qed.

Lemma bind_wait_while {B} env worker st budget (k : N -> M B) de :
  bind (wait_while env worker st budget) k de
  = (result (k (wait_duration env (channel_of worker) st budget) de),
     final (k (wait_duration env (channel_of worker) st budget) de),
     EvWaitWhile (channel_of worker) st budget
       (wait_duration env (channel_of worker) st budget)
       :: calls (k (wait_duration env (channel_of worker) st budget) de)).
Proof.
  unfold wait_while. run.
  destruct (k (wait_duration env (channel_of worker) st budget) de) as [[r d] evs].
  reflexivity.
Qed.

Lemma start_sources_registry env channel_name src_workers :
  forall de,
    channel_workers (final (start_sources env channel_name src_workers de))
    = channel_workers de.
Proof.
  induction src_workers as [|[key h] rest IH]; intros de; cbn [start_sources].
  - reflexivity.
  - step. destruct (sw_is_alive (source_heap de h)); [apply IH|].
    destruct (exited_zero (source_heap de h)); [reflexivity|].
    step. unfold final at 1; cbn [fst snd]. rewrite IH. reflexivity.
Qed.

(** Invariant I5: starting a channel keeps the names of the registry
    pairwise distinct, whether the start succeeds or fails. *)
Lemma start_channel_names_distinct env name cfg de :
  NoDup (od_keys (channel_workers de)) ->
  NoDup (od_keys (channel_workers (final (start_channel env name cfg de)))).
Proof.
  intros Hnd. unfold start_channel. fold (effective_name name cfg).
  set (channel := effective_name name cfg).
  step. unfold final at 1; cbn [fst snd].
  destruct (cfg_sources cfg) as [srcs|]; [|step; exact Hnd].
  step. unfold final at 1; cbn [fst snd].
  destruct (fst (sources_update env channel srcs (source_heap de)))
    as [src_workers|e]; [|step; exact Hnd].
  step. unfold final at 1; cbn [fst snd].
  destruct (validated_workflow env channel src_workers (cfg_modules cfg))
    as [mw|e]; [|step; exact Hnd].
  step.
  match goal with
  | |- context [task_manager_init env channel ?qi] =>
      destruct (task_manager_init env channel qi) as [level|e];
        [|step; exact Hnd]
  end.
  step. cbn [global_config set_source_heap].
  destruct (gc_logger (global_config de)) as [logger|]; [|step; exact Hnd].
  step. unfold final at 1; cbn [fst snd].
  rewrite bind_wait_while. unfold final at 1; cbn [fst snd].
  rewrite bind_run.
  match goal with
  | |- context [start_sources env channel src_workers ?d] =>
      pose proof (start_sources_registry env channel src_workers d) as Hreg;
        destruct (start_sources env channel src_workers d) as [[[u|e] d'] starts]
  end; unfold result, final in *; cbn [fst snd] in *.
  - rewrite bind_wait_while. unfold final, ret; cbn [fst snd]. rewrite Hreg.
    cbn [channel_workers set_channel_workers add_workers_count set_source_heap].
    apply od_set_NoDup, od_set_NoDup. exact Hnd.
  - rewrite Hreg.
    cbn [channel_workers set_channel_workers add_workers_count set_source_heap].
    apply od_set_NoDup, od_set_NoDup. exact Hnd.
Qed.

Lemma prefix_before_first {A} (P : A -> bool) (l1 l2 pre post : list A) (x : A) :
  Forall (fun a => P a = false) l1 ->
  P x = true ->
  (l1 ++ l2 = pre ++ x :: post)%list ->
  exists rest, (pre = l1 ++ rest)%list.
Proof.
  revert pre. induction l1 as [|a l1 IH]; intros pre Hl1 Hx Heq.
  - exists pre. reflexivity.
  - inversion Hl1 as [|? ? Ha Hl1']; subst.
    destruct pre as [|b pre]; simpl in Heq.
    + injection Heq as -> _. congruence.
    + injection Heq as -> Heq.
      destruct (IH pre Hl1' Hx Heq) as [rest ->]. exists rest. reflexivity.
Qed.

Lemma middle_occurrence {A} (P : A -> bool) (l1 l2 l3 pre post : list A) (x : A) :
  Forall (fun a => P a = false) l1 ->
  Forall (fun a => P a = false) l3 ->
  P x = true ->
  (l1 ++ l2 ++ l3 = pre ++ x :: post)%list ->
  exists pre2 post2, (pre = l1 ++ pre2 /\ l2 = pre2 ++ x :: post2)%list.
Proof.
  intros Hl1 Hl3 Hx Heq.
  destruct (prefix_before_first P l1 (l2 ++ l3) pre post x Hl1 Hx Heq) as [pre2 ->].
  rewrite <- app_assoc in Heq. apply app_inv_head in Heq.
  exists pre2. clear Hl1.
  revert pre2 Heq. induction l2 as [|a l2 IH]; intros pre2 Heq.
  - cbn [app] in Heq. exfalso. rewrite Heq in Hl3.
    apply Forall_app in Hl3. destruct Hl3 as [_ Hl3].
    inversion Hl3 as [|? ? Hbad _]. congruence.
  - destruct pre2 as [|b pre2]; cbn [app] in Heq.
    + injection Heq as -> _. exists l2. split; reflexivity.
    + injection Heq as -> Heq. destruct (IH pre2 Heq) as (post2 & _ & ->).
      exists post2. split; reflexivity.
Qed.

(** A run of [start_channel] either starts no source, or gets to the loop
    over its sources; the loop is then entered in a state, [booted], whose
    registry holds the started channel worker under the name of the
    channel, and nothing that follows takes it out again. *)
Lemma start_channel_booted env name cfg de :
  let channel := effective_name name cfg in
  let r := start_channel env name cfg de in
  Forall (fun ev => is_source_start ev = false) (calls r)
  \/ exists worker src_workers booted tail,
       od_get channel (channel_workers booted) = Some worker
       /\ channel_of worker = channel
       /\ (is_alive worker, exitcode worker)
          = start env {| task_manager := task_manager worker;
                         is_alive := false; exitcode := None |}
       /\ WORKERS_COUNT booted = WORKERS_COUNT de + 1
       /\ calls r
          = (bring_up env name channel
               ++ calls (start_sources env channel src_workers booted) ++ tail)%list
       /\ Forall (fun ev => is_source_start ev = false) tail
       /\ final r = final (start_sources env channel src_workers booted)
       /\ od_get channel (channel_workers (final r)) = Some worker.
Proof.
  cbv zeta. unfold start_channel. fold (effective_name name cfg).
  set (channel := effective_name name cfg).
  step. unfold calls at 1; cbn [snd].
  destruct (cfg_sources cfg) as [srcs|];
    [|left; step; repeat constructor].
  step. unfold calls at 1; cbn [snd].
  destruct (fst (sources_update env channel srcs (source_heap de)))
    as [src_workers|e]; [|left; step; repeat constructor].
  step. unfold calls at 1; cbn [snd].
  destruct (validated_workflow env channel src_workers (cfg_modules cfg))
    as [mw|e]; [|left; step; repeat constructor].
  step.
  match goal with
  | |- context [task_manager_init env channel ?qi] =>
      destruct (task_manager_init env channel qi) as [level|e];
        [|left; step; repeat constructor]
  end.
  step. cbn [global_config set_source_heap].
  destruct (gc_logger (global_config de)) as [logger|];
    [|left; step; repeat constructor].
  right. step. rewrite bind_wait_while. rewrite bind_run.
  match goal with
  | |- context [EvWaitWhile (channel_of ?w) BOOT None _] => set (worker := w) in *
  end.
  match goal with
  | |- context [start_sources env channel src_workers ?d] =>
      pose proof (start_sources_registry env channel src_workers d) as Hreg;
        pose proof (start_sources_calls env channel src_workers d) as Hstarts;
        set (booted := d) in *
  end.
  assert (Hget : od_get channel (channel_workers booted) = Some worker)
    by (apply od_get_set_same).
  assert (Hproc : (is_alive worker, exitcode worker)
                  = start env {| task_manager := task_manager worker;
                                 is_alive := false; exitcode := None |}).
  { unfold worker, with_process. cbn [is_alive exitcode task_manager].
    match goal with |- (fst ?p, snd ?p) = _ => destruct p; reflexivity end. }
  exists worker, src_workers, booted.
  destruct (start_sources env channel src_workers booted) as [[[u|e] d'] starts]
    eqn:Hrun; unfold result, final, calls in *; cbn [fst snd] in *.
  - rewrite bind_wait_while. unfold ret, result, final, calls; cbn [fst snd].
    eexists. split; [exact Hget|]. split; [reflexivity|].
    split; [exact Hproc|]. split; [reflexivity|].
    split; [reflexivity|]. split; [repeat constructor|].
    split; [reflexivity|]. rewrite Hreg. exact Hget.
  - exists []. split; [exact Hget|]. split; [reflexivity|].
    split; [exact Hproc|]. split; [reflexivity|].
    split; [rewrite app_nil_r; reflexivity|]. split; [constructor|].
    split; [reflexivity|]. rewrite Hreg. exact Hget.
Qed.

(** C3.  Whenever [start_channel] starts a source worker, the calls made
    before that start begin with the bring-up of the channel worker: its
    insertion into the registry, its start, and the wait, without
    timeout, for it to leave [BOOT], in that order; none of the calls of
    the bring-up starts a source.  The start of the source is one of the
    calls of the loop over the sources, and that loop is entered in a
    state whose registry holds the started channel worker under the name
    of the channel; the worker is still registered when [start_channel]
    ends, whether it returns or raises. *)
Theorem start_channel_listener_first :
  forall env name cfg de pre key h post,
    calls (start_channel env name cfg de)
    = (pre ++ EvSourceStart key h :: post)%list ->
    let channel := effective_name name cfg in
    (exists before rest,
       pre = (before
                ++ [EvRegistryInsert channel; EvChannelStart channel;
                    EvWaitWhile channel BOOT None (leave_time env channel BOOT)]
                ++ rest)%list)
    /\ (exists rest, pre = (bring_up env name channel ++ rest)%list)
    /\ Forall (fun ev => is_source_start ev = false) (bring_up env name channel)
    /\ exists worker src_workers booted earlier later tail,
         od_get channel (channel_workers booted) = Some worker
         /\ channel_of worker = channel
         /\ (is_alive worker, exitcode worker)
            = start env {| task_manager := task_manager worker;
                           is_alive := false; exitcode := None |}
         /\ WORKERS_COUNT booted = WORKERS_COUNT de + 1
         /\ pre = (bring_up env name channel ++ earlier)%list
         /\ calls (start_sources env channel src_workers booted)
            = (earlier ++ EvSourceStart key h :: later)%list
         /\ calls (start_channel env name cfg de)
            = (bring_up env name channel
                 ++ calls (start_sources env channel src_workers booted)
                 ++ tail)%list
         /\ final (start_channel env name cfg de)
            = final (start_sources env channel src_workers booted)
         /\ od_get channel (channel_workers (final (start_channel env name cfg de)))
            = Some worker.
Proof.
  intros env name cfg de pre key h post Heq channel.
  assert (Hbring : Forall (fun ev => is_source_start ev = false)
                          (bring_up env name channel))
    by (repeat constructor).
  destruct (start_channel_booted env name cfg de) as [Hnone|Hboot].
  { exfalso. cbv zeta in Hnone. rewrite Heq in Hnone.
    apply Forall_app in Hnone. destruct Hnone as [_ Hnone].
    inversion Hnone as [|? ? Hbad _]. discriminate. }
  destruct Hboot as (worker & src_workers & booted & tail & Hget & Hname & Hproc
                     & Hcount & Hcalls & Htail & Hfinal & Hkept).
  fold channel in Hget, Hname, Hcalls, Hkept, Hfinal.
  assert (Hsplit : exists earlier later,
             (pre = bring_up env name channel ++ earlier
              /\ calls (start_sources env channel src_workers booted)
                 = earlier ++ EvSourceStart key h :: later)%list).
  { apply (middle_occurrence is_source_start _ _ tail pre post);
      [exact Hbring|exact Htail|reflexivity|].
    rewrite <- Hcalls. exact Heq. }
  destruct Hsplit as (earlier & later & Hpre & Hloop).
  split.
  { exists [EvStartChannel name; EvSourcesUpdate channel; EvValidateWorkflow channel],
           earlier.
    rewrite Hpre. reflexivity. }
  split; [exists earlier; exact Hpre|].
  split; [exact Hbring|].
  exists worker, src_workers, booted, earlier, later, tail.
  repeat (split; [assumption|]). assumption.
Qed.

Lemma start_channel_listener_first_witness :
  exists worker,
    od_get "alpha"
      (channel_workers (final (start_channel sample_env "alpha" sample_config
                                 (sample_engine []))))
    = Some worker
    /\ channel_of worker = "alpha"
    /\ is_alive worker = true.
Proof.
  destruct (start_channel_listener_first sample_env "alpha" sample_config
              (sample_engine [])
              (bring_up sample_env "alpha" "alpha") "srcA" 0%nat
              [EvWaitWhile "alpha" ACTIVE None 3%N] eq_refl)
    as (_ & _ & _ & worker & src_workers & booted & earlier & later & tail
        & _ & Hname & Hproc & _ & _ & _ & _ & _ & Hkept).
  exists worker. split; [exact Hkept|]. split; [exact Hname|].
  exact (f_equal fst Hproc).
Defined.

(* ================================================================== *)
(** ** Sources that have already completed *)

Lemma start_channel_sources_run env name cfg de srcs src_workers :
  let channel := effective_name name cfg in
  cfg_sources cfg = Some srcs ->
  fst (sources_update env channel srcs (source_heap de)) = Ret src_workers ->
  returns_value (validated_workflow env channel src_workers (cfg_modules cfg)) = true ->
  (forall queue_info, returns_value (task_manager_init env channel queue_info) = true) ->
  gc_logger (global_config de) <> None ->
  exists de1,
    source_heap de1 = snd (sources_update env channel srcs (source_heap de))
    /\ result (start_channel env name cfg de)
       = result (start_sources env channel src_workers de1)
    /\ final (start_channel env name cfg de)
       = final (start_sources env channel src_workers de1)
    /\ calls (start_channel env name cfg de)
       = (bring_up env name channel
            ++ calls (start_sources env channel src_workers de1)
            ++ match result (start_sources env channel src_workers de1) with
               | Ret _ => [EvWaitWhile channel ACTIVE None (leave_time env channel ACTIVE)]
               | Raise _ => []
               end)%list.
Proof.
  intros channel Hsrcs Hupd Hval Htm Hlog.
  unfold start_channel. fold (effective_name name cfg). fold channel.
  rewrite Hsrcs. step. rewrite Hupd. step.
  destruct (validated_workflow env channel src_workers (cfg_modules cfg))
    as [mw|e]; [|discriminate].
  step.
  match goal with
  | |- context [task_manager_init env channel ?qi] =>
      specialize (Htm qi);
        destruct (task_manager_init env channel qi) as [level|e]; [|discriminate]
  end.
  step. cbn [global_config set_source_heap].
  destruct (gc_logger (global_config de)) as [logger|]; [|congruence].
  step. rewrite bind_wait_while. rewrite bind_run.
  match goal with
  | |- context [start_sources env channel src_workers ?d] => exists d
  end.
  split; [reflexivity|].
  match goal with
  | |- context [start_sources env channel src_workers ?d] =>
      destruct (start_sources env channel src_workers d) as [[[u|e] d'] starts]
  end; unfold result, final, calls; cbn [fst snd].
  - rewrite bind_wait_while. step. unfold result, final, calls; cbn [fst snd].
    destruct u. repeat split; reflexivity.
  - rewrite app_nil_r. repeat split; reflexivity.
Qed.

Lemma exited_zero_iff (w : SourceWorker) :
  exited_zero w = true <-> sw_exitcode w = Some 0.
Proof.
  unfold exited_zero. destruct (sw_exitcode w) as [c|]; [|split; discriminate].
  split.
  - intros Hc. apply Z.eqb_eq in Hc. subst. reflexivity.
  - intros [= ->]. reflexivity.
Qed.

(** The loop over a list of sources is the loop over a first part of it
    followed, unless that raised, by the loop over the rest. *)
Lemma start_sources_app env channel l1 :
  forall l2 de,
    start_sources env channel (l1 ++ l2) de
    = match result (start_sources env channel l1 de) with
      | Ret _ =>
          (result (start_sources env channel l2
                     (final (start_sources env channel l1 de))),
           final (start_sources env channel l2
                    (final (start_sources env channel l1 de))),
           (calls (start_sources env channel l1 de)
              ++ calls (start_sources env channel l2
                          (final (start_sources env channel l1 de))))%list)
      | Raise e =>
          (Raise e, final (start_sources env channel l1 de),
           calls (start_sources env channel l1 de))
      end.
Proof.
  induction l1 as [|[key h] l1 IH]; intros l2 de.
  - cbn [app start_sources]. unfold ret, result, final, calls; cbn [fst snd app].
    destruct (start_sources env channel l2 de) as [[r d] evs]. reflexivity.
  - cbn [app start_sources]. step.
    destruct (sw_is_alive (source_heap de h)); [apply IH|].
    destruct (exited_zero (source_heap de h)); [reflexivity|].
    step. rewrite IH. rewrite !result_triple, !final_triple, !calls_triple.
    match goal with
    | |- context [result ?x] => destruct (result x); reflexivity
    end.
Qed.

(** Every start of a source made by the loop is the start of a source
    that, when the loop got to it, was not alive and had no exit code 0. *)
Lemma start_sources_starts env channel l :
  forall de pre key h post,
    calls (start_sources env channel l de)
    = (pre ++ EvSourceStart key h :: post)%list ->
    exists before after,
      l = (before ++ (key, h) :: after)%list
      /\ pre = calls (start_sources env channel before de)
      /\ result (start_sources env channel before de) = Ret tt
      /\ sw_is_alive (source_heap (final (start_sources env channel before de)) h)
         = false
      /\ sw_exitcode (source_heap (final (start_sources env channel before de)) h)
         <> Some 0.
Proof.
  induction l as [|[k0 h0] rest IH]; intros de pre key h post.
  - cbn [start_sources]. unfold ret, calls; cbn [snd].
    intros Heq. destruct pre; discriminate.
  - cbn [start_sources]. step.
    destruct (sw_is_alive (source_heap de h0)) eqn:Halive.
    + intros Heq. destruct (IH de pre key h post Heq)
        as (before & after & Hl & Hpre & Hres & Ha & Hc).
      exists ((k0, h0) :: before), after.
      assert (Hsame : start_sources env channel ((k0, h0) :: before) de
                      = start_sources env channel before de).
      { cbn [start_sources]. step. rewrite Halive. reflexivity. }
      rewrite Hsame. rewrite Hl. repeat split; assumption.
    + destruct (exited_zero (source_heap de h0)) eqn:Hzero.
      * unfold raise, calls; cbn [snd]. intros Heq. destruct pre; discriminate.
      * step. rewrite calls_triple.
        set (de' := set_source_heap
                      (heap_set h0 (sw_with_process (sw_start env (source_heap de h0))
                                      (source_heap de h0))) de).
        intros Heq. destruct pre as [|ev pre]; cbn [app] in Heq.
        -- injection Heq as -> -> _.
           exists [], rest. split; [reflexivity|]. split; [reflexivity|].
           split; [reflexivity|]. cbn [start_sources]. unfold ret, final; cbn [fst snd].
           split; [exact Halive|].
           intros Hc. apply exited_zero_iff in Hc. congruence.
        -- injection Heq as <- Heq.
           destruct (IH de' pre key h post Heq)
             as (before & after & Hl & Hpre & Hres & Ha & Hc).
           exists ((k0, h0) :: before), after.
           assert (Hsame : start_sources env channel ((k0, h0) :: before) de
                           = (result (start_sources env channel before de'),
                              final (start_sources env channel before de'),
                              EvSourceStart k0 h0
                                :: calls (start_sources env channel before de'))).
           { cbn [start_sources]. step. rewrite Halive, Hzero. step. reflexivity. }
           rewrite Hsame, !result_triple, !final_triple, !calls_triple.
           rewrite Hl, Hpre. repeat split; assumption.
Qed.

(** C4.  When [start_channel] gets as far as its sources (the sources are
    declared, the registry hands out their workers, the workflow is valid
    and the channel worker is built), it visits them in order, starting
    from the state [booted].  Take any source the loop gets to, that is,
    one for which the loop over the sources before it returns, and let it
    be not alive at that moment.  If its exit code is 0, [start_channel]
    raises, to its caller, "The {key} source has already completed and
    cannot be used by channel {channel}."; nothing is called after the
    calls made for the sources before it and the state is the one they
    left, so the completed source is not started and stays as it is.  If
    its exit code is anything else, or it has none, it is started: the
    start is the next call, and the source is afterwards what
    [src_worker.start()] made of it.  Conversely every start of a source
    in the calls of [start_channel] is the start of a source that was not
    alive and did not have exit code 0 when the loop got to it. *)
Theorem start_channel_completed_source :
  forall env name cfg de srcs src_workers,
    let channel := effective_name name cfg in
    let r := start_channel env name cfg de in
    cfg_sources cfg = Some srcs ->
    fst (sources_update env channel srcs (source_heap de)) = Ret src_workers ->
    returns_value (validated_workflow env channel src_workers (cfg_modules cfg)) = true ->
    (forall queue_info, returns_value (task_manager_init env channel queue_info) = true) ->
    gc_logger (global_config de) <> None ->
    exists booted,
      source_heap booted = snd (sources_update env channel srcs (source_heap de))
      /\ (forall before key h after,
            src_workers = (before ++ (key, h) :: after)%list ->
            let reached := start_sources env channel before booted in
            let worker := source_heap (final reached) h in
            result reached = Ret tt ->
            sw_is_alive worker = false ->
            (sw_exitcode worker = Some 0 ->
             result r
             = Raise (RuntimeError
                        ("The " ++ key
                           ++ " source has already completed and cannot be used by channel "
                           ++ channel ++ "."))
             /\ calls r = (bring_up env name channel ++ calls reached)%list
             /\ final r = final reached)
            /\ (sw_exitcode worker <> Some 0 ->
                (exists later,
                   calls r = (bring_up env name channel ++ calls reached
                                ++ EvSourceStart key h :: later)%list)
                /\ source_heap
                     (final (start_sources env channel (before ++ [(key, h)]) booted)) h
                   = sw_with_process (sw_start env worker) worker))
      /\ (forall pre key h post,
            calls r = (pre ++ EvSourceStart key h :: post)%list ->
            exists before after,
              src_workers = (before ++ (key, h) :: after)%list
              /\ pre = (bring_up env name channel
                          ++ calls (start_sources env channel before booted))%list
              /\ result (start_sources env channel before booted) = Ret tt
              /\ sw_is_alive
                   (source_heap (final (start_sources env channel before booted)) h)
                 = false
              /\ sw_exitcode
                   (source_heap (final (start_sources env channel before booted)) h)
                 <> Some 0).
Proof.
  intros env name cfg de srcs src_workers channel r Hsrcs Hupd Hval Htm Hlog.
  destruct (start_channel_sources_run env name cfg de srcs src_workers
              Hsrcs Hupd Hval Htm Hlog) as (booted & Hheap & Hres & Hfin & Hcalls).
  fold channel in Hheap, Hres, Hfin, Hcalls. fold r in Hres, Hfin, Hcalls.
  exists booted. split; [exact Hheap|]. split.
  - intros before key h after Hl reached worker Hreached Halive.
    assert (Hloop : start_sources env channel src_workers booted
                    = (result (start_sources env channel ((key, h) :: after)
                                 (final reached)),
                       final (start_sources env channel ((key, h) :: after)
                                (final reached)),
                       (calls reached
                          ++ calls (start_sources env channel ((key, h) :: after)
                                      (final reached)))%list)).
    { rewrite Hl, start_sources_app. fold reached. rewrite Hreached. reflexivity. }
    split.
    + intros Hzero. apply exited_zero_iff in Hzero.
      assert (Hstep : start_sources env channel ((key, h) :: after) (final reached)
                      = (Raise (RuntimeError
                                  ("The " ++ key
                                     ++ " source has already completed and cannot be used by channel "
                                     ++ channel ++ ".")),
                         final reached, [])).
      { cbn [start_sources]. step. fold worker. rewrite Halive, Hzero. reflexivity. }
      rewrite Hstep in Hloop. rewrite !result_triple, !final_triple, !calls_triple in Hloop.
      rewrite Hloop in Hres, Hfin, Hcalls.
      rewrite !result_triple, !final_triple, !calls_triple in *.
      rewrite Hres, Hfin, Hcalls, !app_nil_r. repeat split; reflexivity.
    + intros Hcode.
      assert (Hzero : exited_zero worker = false).
      { destruct (exited_zero worker) eqn:E; [|reflexivity].
        apply exited_zero_iff in E. congruence. }
      set (started := set_source_heap
                        (heap_set h (sw_with_process (sw_start env worker) worker))
                        (final reached)).
      assert (Hstep : start_sources env channel ((key, h) :: after) (final reached)
                      = (result (start_sources env channel after started),
                         final (start_sources env channel after started),
                         EvSourceStart key h
                           :: calls (start_sources env channel after started))).
      { cbn [start_sources]. step. fold worker. rewrite Halive, Hzero. step.
        reflexivity. }
      split.
      * rewrite Hstep in Hloop.
        rewrite !result_triple, !final_triple, !calls_triple in Hloop.
        rewrite Hloop in Hcalls. rewrite !calls_triple in Hcalls.
        eexists. rewrite Hcalls. rewrite <- !app_assoc. cbn [app]. reflexivity.
      * rewrite start_sources_app. fold reached. rewrite Hreached.
        rewrite final_triple. cbn [start_sources]. step. fold worker.
        rewrite Halive, Hzero. step. rewrite final_triple.
        unfold ret, final; cbn [fst snd source_heap set_source_heap].
        unfold heap_set. rewrite Nat.eqb_refl. reflexivity.
  - intros pre key h post Heq. rewrite Hcalls in Heq.
    destruct (middle_occurrence is_source_start
                (bring_up env name channel)
                (calls (start_sources env channel src_workers booted))
                (match result (start_sources env channel src_workers booted) with
                 | Ret _ =>
                     [EvWaitWhile channel ACTIVE None (leave_time env channel ACTIVE)]
                 | Raise _ => []
                 end)
                pre post (EvSourceStart key h)) as (pre2 & post2 & Hpre & Hmid);
      [repeat constructor| |reflexivity|exact Heq|].
    { destruct (result (start_sources env channel src_workers booted));
        repeat constructor. }
    destruct (start_sources_starts env channel src_workers booted pre2 key h post2 Hmid)
      as (before & after & Hl & Hp & Hr & Ha & Hc).
    exists before, after. rewrite Hpre, Hp. repeat split; assumption.
Qed.

(** The sample run: "srcA" has crashed and is started again, "srcB" has
    run to completion and is refused. *)
Lemma start_channel_completed_source_witness :
  result (start_channel sample_env "alpha" two_sources_config crashed_engine)
  = Raise (RuntimeError
             "The srcB source has already completed and cannot be used by channel alpha.")
  /\ calls (start_channel sample_env "alpha" two_sources_config crashed_engine)
     = (bring_up sample_env "alpha" "alpha" ++ [EvSourceStart "srcA" 0%nat])%list.
Proof.
  destruct (start_channel_completed_source sample_env "alpha"
              two_sources_config crashed_engine
              [("srcA", "SourceA()"); ("srcB", "SourceB()")]
              [("srcA", 0%nat); ("srcB", 1%nat)]
              eq_refl eq_refl eq_refl (fun _ => eq_refl) ltac:(discriminate))
    as (booted & Hheap & Hstep & _).
  cbn in Hheap.
  change (effective_name "alpha" two_sources_config) with "alpha" in Hstep.
  assert (Hreached : start_sources sample_env "alpha" [("srcA", 0%nat)] booted
                     = (Ret tt,
                        set_source_heap
                          (heap_set 0 (sw_with_process (true, None) (crashed_heap 0)))
                          booted,
                        [EvSourceStart "srcA" 0%nat])).
  { cbn [start_sources]. unfold bind, gets, modify, emit, ret. cbn [fst snd].
    rewrite Hheap. reflexivity. }
  destruct (Hstep [("srcA", 0%nat)] "srcB" 1%nat [] eq_refl) as [Hrefused _].
  - rewrite Hreached. reflexivity.
  - rewrite Hreached. cbn. rewrite Hheap. reflexivity.
  - rewrite Hreached in Hrefused. cbn in Hrefused. rewrite Hheap in Hrefused.
    destruct (Hrefused eq_refl) as (Hres & Hcalls & _).
    split; [exact Hres|exact Hcalls].
Defined.

(* ================================================================== *)
(** ** Starting every configured channel *)

Lemma source_starts_are_no_attempts (l : list event) :
  Forall (fun ev => is_source_start ev = true) l ->
  filter is_start_channel l = [].
Proof.
  induction 1 as [|ev evs Hev _ IH]; [reflexivity|].
  cbn [filter]. destruct ev; try discriminate. exact IH.
Qed.

Lemma start_channel_attempt_once env name cfg de :
  filter is_start_channel (calls (start_channel env name cfg de))
  = [EvStartChannel name].
Proof.
  unfold start_channel. fold (effective_name name cfg).
  set (channel := effective_name name cfg).
  step. unfold calls at 1; cbn [snd filter is_start_channel].
  f_equal.
  destruct (cfg_sources cfg) as [srcs|]; [|step; reflexivity].
  step. unfold calls at 1; cbn [snd filter is_start_channel].
  destruct (fst (sources_update env channel srcs (source_heap de)))
    as [src_workers|e]; [|step; reflexivity].
  step. unfold calls at 1; cbn [snd filter is_start_channel].
  destruct (validated_workflow env channel src_workers (cfg_modules cfg))
    as [mw|e]; [|step; reflexivity].
  step.
  match goal with
  | |- context [task_manager_init env channel ?qi] =>
      destruct (task_manager_init env channel qi) as [level|e];
        [|step; reflexivity]
  end.
  step. cbn [global_config set_source_heap].
  destruct (gc_logger (global_config de)) as [logger|]; [|step; reflexivity].
  step. unfold calls at 1; cbn [snd filter is_start_channel].
  rewrite bind_wait_while. unfold calls at 1; cbn [snd filter is_start_channel].
  rewrite bind_run.
  match goal with
  | |- context [start_sources env channel src_workers ?d] =>
      pose proof (start_sources_calls env channel src_workers d) as Hstarts;
        destruct (start_sources env channel src_workers d) as [[[u|e] d'] starts]
  end; unfold result, final, calls in *; cbn [fst snd] in *.
  - rewrite bind_wait_while. step. unfold calls; cbn [snd].
    cbn [filter is_start_channel].
    rewrite filter_app. cbn [filter is_start_channel]. rewrite app_nil_r.
    apply source_starts_are_no_attempts. exact Hstarts.
  - cbn [filter is_start_channel].
    apply source_starts_are_no_attempts. exact Hstarts.
Qed.

Lemma start_each_step env name cfg rest de :
  start_each env ((name, cfg) :: rest) de
  = let r := start_channel env name cfg de in
    let logged :=
      match result r with
      | Ret _ => []
      | Raise e =>
          [EvLogException ("Channel " ++ name ++ " failed to start: " ++ exn_str e)]
      end in
    (result (start_each env rest (final r)),
     final (start_each env rest (final r)),
     (calls r ++ logged ++ calls (start_each env rest (final r)))%list).
Proof.
  cbn [start_each]. rewrite bind_run. unfold try_except, emit.
  cbv zeta. unfold result, final, calls.
  destruct (start_channel env name cfg de) as [[[u|e] d] evs]; cbn [fst snd].
  - destruct (start_each env rest d) as [[r d'] evs']. reflexivity.
  - destruct (start_each env rest d) as [[r d'] evs']. cbn [fst snd].
    rewrite <- app_assoc. reflexivity.
Qed.

Lemma start_each_run env channels :
  forall de,
    result (start_each env channels de) = Ret tt
    /\ filter is_start_channel (calls (start_each env channels de))
       = map EvStartChannel (od_keys channels).
Proof.
  induction channels as [|[name cfg] rest IH]; intros de.
  - split; reflexivity.
  - rewrite start_each_step. cbv zeta.
    destruct (IH (final (start_channel env name cfg de))) as [I1 I2].
    split; [exact I1|].
    match goal with
    | |- filter _ (calls (_, _, ?evs)) = _ => change (filter is_start_channel evs
          = map EvStartChannel (od_keys ((name, cfg) :: rest)))
    end.
    rewrite !filter_app, start_channel_attempt_once, I2.
    destruct (result (start_channel env name cfg de)); reflexivity.
Qed.

(** C5.  [start_channels] loads the configurations and then calls
    [start_channel] exactly once for each configured channel, in the order
    of the configuration.  The calls are made one after the other: all the
    calls of one attempt come before those of the next.  When an attempt
    raises, the exception is logged ("Channel {name} failed to start:
    ...") and the remaining channels are attempted all the same, from the
    state the failed attempt left; the loop itself never raises, so
    [start_channels] returns whenever the configurations could be loaded. *)
Theorem start_channels_attempts_every_channel :
  forall env de,
    (forall channels d,
       result (start_each env channels d) = Ret tt
       /\ filter is_start_channel (calls (start_each env channels d))
          = map EvStartChannel (od_keys channels))
    /\ (forall name cfg rest d,
          calls (start_each env ((name, cfg) :: rest) d)
          = (calls (start_channel env name cfg d)
               ++ match result (start_channel env name cfg d) with
                  | Ret _ => []
                  | Raise e =>
                      [EvLogException
                         ("Channel " ++ name ++ " failed to start: " ++ exn_str e)]
                  end
               ++ calls (start_each env rest (final (start_channel env name cfg d))))%list)
    /\ match load_all_channels env (channel_configs de) with
       | Ret loaded =>
           result (start_channels env de) = Ret tt
           /\ calls (start_channels env de)
              = EvLoadAllChannels
                  :: calls (start_each env loaded
                              (set_channel_configs (fun _ => loaded) de))
           /\ filter is_start_channel (calls (start_channels env de))
              = map EvStartChannel (od_keys loaded)
       | Raise e =>
           start_channels env de = (Raise e, de, [EvLoadAllChannels])
       end.
Proof.
  intros env de. split; [apply start_each_run|]. split.
  - intros name cfg rest d. rewrite start_each_step. reflexivity.
  - unfold start_channels. step.
    destruct (load_all_channels env (channel_configs de)) as [loaded|e].
    + step. cbn [channel_configs set_channel_configs].
      destruct (start_each_run env loaded
                  (set_channel_configs (fun _ => loaded) de)) as [R1 R2].
      unfold result at 1, calls at 1 3. cbn [fst snd].
      split; [exact R1|]. split; [reflexivity|].
      cbn [filter is_start_channel]. exact R2.
    + step. reflexivity.
Qed.

(** Two channels are configured; the first one fails on a source that
    has already completed, and the second one is started all the same. *)
Lemma start_channels_first_fails :
  result (start_channels sample_env exhausted_engine) = Ret tt
  /\ calls (start_channels sample_env exhausted_engine)
     = (EvLoadAllChannels
          :: bring_up sample_env "alpha" "alpha"
          ++ [EvSourceStart "srcA" 0;
              EvLogException
                "Channel alpha failed to start: The srcB source has already completed and cannot be used by channel alpha."]
          ++ bring_up sample_env "beta" "beta"
          ++ [EvWaitWhile "beta" ACTIVE None 3%N])%list.
Proof. split; reflexivity. Qed.

(* ================================================================== *)
(** ** The broker URL *)

Lemma append_assoc (a b c : string) : (a ++ b) ++ c = a ++ (b ++ c).
Proof. induction a as [|x a IH]; simpl; [reflexivity|]. rewrite IH. reflexivity. Qed.

Lemma take_drop (n : nat) (s : string) : substring 0 n s ++ drop n s = s.
Proof.
  revert s. induction n as [|n IH]; intros s.
  - destruct s; reflexivity.
  - destruct s as [|c s]; simpl; [reflexivity|]. rewrite IH. reflexivity.
Qed.

Lemma prefix_split (p s : string) :
  prefix p s = true -> exists rest, s = p ++ rest.
Proof.
  revert s. induction p as [|c p IH]; intros s H.
  - exists s. reflexivity.
  - destruct s as [|c' s]; simpl in H; [discriminate|].
    destruct (Ascii.ascii_dec c c') as [->|]; [|discriminate].
    destruct (IH s H) as [rest ->]. exists rest. reflexivity.
Qed.

Lemma prefix_append (p rest : string) : prefix p (p ++ rest) = true.
Proof.
  induction p as [|c p IH]; simpl.
  - destruct rest; reflexivity.
  - destruct (Ascii.ascii_dec c c); [exact IH|congruence].
Qed.

Lemma match_here_sound (n : nat) (s b : string) :
  match_here n s = Some b ->
  exists k rest, (1 <= k <= n)%nat /\ b = substring 0 k s
                 /\ drop k s = "://" ++ rest /\ s = b ++ "://" ++ rest.
Proof.
  induction n as [|n IH]; cbn [match_here]; [discriminate|].
  destruct (prefix "://" (drop (S n) s)) eqn:E.
  - intros [= <-]. destruct (prefix_split _ _ E) as [rest Hrest].
    exists (S n), rest. split; [lia|]. split; [reflexivity|]. split; [exact Hrest|].
    rewrite <- Hrest. symmetry. apply take_drop.
  - intros H. destruct (IH H) as (k & rest & Hk & Hb & Hd & Hs).
    exists k, rest. split; [lia|]. auto.
Qed.

Section BrokerUrlFacts.
Variable uni : ascii -> bool.

Lemma re_search_sound (s b : string) :
  re_search uni s = Some b -> exists pre rest, s = pre ++ b ++ "://" ++ rest.
Proof.
  induction s as [|c s IH]; cbn [re_search].
  - cbn [word_run match_here]. discriminate.
  - destruct (match_here (word_run uni (String c s)) (String c s)) as [b'|] eqn:E.
    + intros [= <-]. destruct (match_here_sound _ _ _ E) as (k & rest & _ & _ & _ & Hs).
      exists "", rest. exact Hs.
    + intros H. destruct (IH H) as (pre & rest & ->).
      exists (String c pre), rest. reflexivity.
Qed.

Lemma word_run_scheme (scheme tail : string) :
  all_word uni scheme = true ->
  word_run uni tail = O ->
  word_run uni (scheme ++ tail) = String.length scheme
  /\ drop (String.length scheme) (scheme ++ tail) = tail
  /\ substring 0 (String.length scheme) (scheme ++ tail) = scheme.
Proof.
  intros Hword Htail. induction scheme as [|c scheme IH].
  - cbn [append String.length drop]. split; [exact Htail|]. split; [reflexivity|].
    destruct tail; reflexivity.
  - cbn [all_word] in Hword. apply andb_prop in Hword. destruct Hword as [Hc Hs].
    destruct (IH Hs) as (I1 & I2 & I3).
    cbn [append String.length drop word_run substring].
    rewrite Hc, I1, I2, I3. repeat split; reflexivity.
Qed.

Lemma re_search_scheme (scheme rest : string) :
  scheme <> "" -> all_word uni scheme = true ->
  re_search uni (scheme ++ "://" ++ rest) = Some scheme.
Proof.
  intros Hne Hword.
  destruct (word_run_scheme scheme ("://" ++ rest) Hword eq_refl) as (H1 & H2 & H3).
  remember ("://" ++ rest) as tail eqn:Etail.
  destruct scheme as [|c scheme]; [congruence|].
  cbn [append re_search].
  change (String c (scheme ++ tail)) with (String c scheme ++ tail).
  rewrite H1. cbn [String.length match_here].
  change (S (String.length scheme)) with (String.length (String c scheme)).
  rewrite H2, H3. rewrite Etail, (prefix_append "://" rest). reflexivity.
Qed.

Lemma word_run_split (n : nat) (s : string) :
  (S n <= word_run uni s)%nat ->
  exists pre c, s = pre ++ String c (drop (S n) s) /\ is_word uni c = true.
Proof.
  revert s. induction n as [|n IH]; intros s H.
  - destruct s as [|c s]; simpl in H; [lia|].
    destruct (is_word uni c) eqn:E; [|lia]. exists "", c. split; [reflexivity|exact E].
  - destruct s as [|c s]; simpl in H; [lia|].
    destruct (is_word uni c) eqn:E; [|lia].
    destruct (IH s) as (pre & c' & Hs & Hc'); [lia|].
    exists (String c pre), c'. split; [|exact Hc'].
    simpl. simpl in Hs. rewrite <- Hs. reflexivity.
Qed.

Lemma match_here_occurrence (n : nat) (s b : string) :
  (n <= word_run uni s)%nat ->
  match_here n s = Some b ->
  exists pre c rest, s = pre ++ String c ("://" ++ rest) /\ is_word uni c = true.
Proof.
  intros Hn H. destruct (match_here_sound _ _ _ H) as (k & rest & Hk & _ & Hd & _).
  destruct k as [|k]; [lia|].
  destruct (word_run_split k s) as (pre & c & Hs & Hc); [lia|].
  exists pre, c, rest. rewrite <- Hd. auto.
Qed.

Lemma re_search_none (s : string) :
  (forall pre c rest, s = pre ++ String c ("://" ++ rest) -> is_word uni c = false) ->
  re_search uni s = None.
Proof.
  induction s as [|a s IH]; intros Hno; cbn [re_search].
  - reflexivity.
  - destruct (match_here (word_run uni (String a s)) (String a s)) as [b|] eqn:E.
    + destruct (match_here_occurrence _ _ _ (Nat.le_refl _) E)
        as (pre & c & rest & Hs & Hc).
      rewrite (Hno _ _ _ Hs) in Hc. discriminate.
    + apply IH. intros pre c rest Hs.
      apply (Hno (String a pre) c rest). rewrite Hs. reflexivity.
Qed.

(** What the check does with a URL that starts with its scheme, with one
    that has no scheme at all, and what an accepted URL looks like. *)
Lemma verify_redis_url_by_scheme (url : string) :
  (forall scheme rest,
     scheme <> "" -> all_word uni scheme = true ->
     url = scheme ++ "://" ++ rest ->
     _verify_redis_url uni url
     = if String.eqb scheme "redis" then Ret tt
       else Raise (RuntimeError
                     ("Unsupported data-broker backend '" ++ scheme
                        ++ "'; only 'redis' is currently supported.")))
  /\ ((forall pre c rest, url = pre ++ String c ("://" ++ rest) -> is_word uni c = false) ->
      _verify_redis_url uni url
      = Raise (RuntimeError
                 ("Unsupported broker URL format '" ++ url ++ "'" ++ newline
                    ++ "See https://docs.celeryproject.org/projects/kombu/en/stable/userguide/connections.html#urls")))
  /\ (_verify_redis_url uni url = Ret tt ->
      exists pre rest, url = pre ++ "redis://" ++ rest).
Proof.
  split; [|split].
  - intros scheme rest Hne Hword ->. unfold _verify_redis_url.
    rewrite (re_search_scheme scheme rest Hne Hword). reflexivity.
  - intros Hno. unfold _verify_redis_url. rewrite (re_search_none url Hno).
    reflexivity.
  - unfold _verify_redis_url.
    destruct (re_search uni url) as [backend|] eqn:E; [|discriminate].
    destruct (String.eqb_spec backend "redis") as [->|]; [|discriminate].
    intros _. destruct (re_search_sound _ _ E) as (pre & rest & Hs).
    exists pre, rest. exact Hs.
Qed.

(** A letter outside ASCII in front of "redis" belongs to the scheme. *)
Lemma verify_redis_url_unicode_scheme (c : ascii) (rest : string) :
  is_word uni c = true ->
  _verify_redis_url uni (String c "redis" ++ "://" ++ rest)
  = Raise (RuntimeError
             ("Unsupported data-broker backend '" ++ String c "redis"
                ++ "'; only 'redis' is currently supported.")).
Proof.
  intros Hc.
  rewrite (proj1 (verify_redis_url_by_scheme _) (String c "redis") rest);
    [|discriminate| |reflexivity].
  - replace (String.eqb (String c "redis") "redis") with false; [reflexivity|].
    cbn [String.eqb]. destruct (Ascii.eqb c "r"); reflexivity.
  - cbn [all_word]. rewrite Hc. reflexivity.
Qed.

(** What [_verify_redis_server] makes of the three steps. *)
Lemma verify_redis_server_steps (env : Env) (url : string) :
  (_verify_redis_server env uni url = Ret tt <->
   _verify_redis_url uni url = Ret tt
   /\ exists r, redis_from_url env url = Ret r /\ redis_ping env r = Ret tt)
  /\ (forall r,
        _verify_redis_url uni url = Ret tt ->
        redis_from_url env url = Ret r ->
        redis_ping env r <> Ret tt ->
        _verify_redis_server env uni url
        = Raise (RuntimeError ("A server with broker URL " ++ url
                                 ++ " is not responding.")))
  /\ (forall config configs heap,
        broker_url config = url ->
        (returns_value (DecisionEngine_init env uni config configs heap) = true
         <-> _verify_redis_server env uni url = Ret tt)).
Proof.
  split; [|split].
  - unfold _verify_redis_server. split.
    + destruct (_verify_redis_url uni url) as [[]|e]; [|discriminate].
      destruct (redis_from_url env url) as [r|e]; [|discriminate].
      destruct (redis_ping env r) as [[]|e] eqn:Ep; [|discriminate].
      intros _. split; [reflexivity|]. exists r. split; [reflexivity|exact Ep].
    + intros [Hurl (r & Hfrom & Hping)]. rewrite Hurl, Hfrom, Hping. reflexivity.
  - intros r Hurl Hfrom Hping. unfold _verify_redis_server.
    rewrite Hurl, Hfrom.
    destruct (redis_ping env r) as [[]|e]; [congruence|reflexivity].
  - intros config configs heap <-. unfold DecisionEngine_init.
    destruct (_verify_redis_server env uni (broker_url config)) as [[]|e];
      split; intros H; try reflexivity; discriminate.
Qed.

(** C8, where the code departs from the claim.  The pattern is searched
    for, not anchored at the start of the URL, so the check looks at the
    first run of word characters that is followed by "://" and at nothing
    before it: "amqp+redis://h", whose scheme is not "redis", passes
    [_verify_redis_url], and the supervisor is then built whenever the
    connection object can be made and the server answers the ping.  A URL
    that starts with its scheme is treated as the claim says: "redis" is
    accepted, "amqp" and "rediss" are refused, and a text without scheme
    is refused as malformed. *)
Theorem broker_url_check_is_not_anchored :
  forall env,
    _verify_redis_url uni "amqp+redis://h" = Ret tt
    /\ _verify_redis_url uni "py-redis://h" = Ret tt
    /\ (forall r,
          redis_from_url env "amqp+redis://h" = Ret r ->
          redis_ping env r = Ret tt ->
          _verify_redis_server env uni "amqp+redis://h" = Ret tt
          /\ forall configs heap,
               DecisionEngine_init env uni
                 {| gc_shutdown_timeout := None; gc_logger := None;
                    gc_broker_url := Some "amqp+redis://h" |} configs heap
               = Ret {| global_config :=
                          {| gc_shutdown_timeout := None; gc_logger := None;
                             gc_broker_url := Some "amqp+redis://h" |};
                        channel_configs := configs;
                        channel_workers := [];
                        source_heap := heap;
                        WORKERS_COUNT := 0 |})
    /\ _verify_redis_url uni "redis://localhost:6379/0" = Ret tt
    /\ _verify_redis_url uni "amqp://guest@localhost//"
       = Raise (RuntimeError
                  "Unsupported data-broker backend 'amqp'; only 'redis' is currently supported.")
    /\ _verify_redis_url uni "rediss://localhost"
       = Raise (RuntimeError
                  "Unsupported data-broker backend 'rediss'; only 'redis' is currently supported.")
    /\ _verify_redis_url uni "localhost:6379"
       = Raise (RuntimeError
                  ("Unsupported broker URL format 'localhost:6379'" ++ newline
                     ++ "See https://docs.celeryproject.org/projects/kombu/en/stable/userguide/connections.html#urls")).
Proof.
  intros env.
  split; [reflexivity|]. split; [reflexivity|]. split.
  { intros r Hfrom Hping.
    assert (Hserver : _verify_redis_server env uni "amqp+redis://h" = Ret tt).
    { apply (proj1 (verify_redis_server_steps env "amqp+redis://h")).
      split; [reflexivity|]. exists r. split; assumption. }
    split; [exact Hserver|].
    intros configs heap. unfold DecisionEngine_init.
    cbn [broker_url gc_broker_url]. rewrite Hserver. reflexivity. }
  repeat split; reflexivity.
Qed.

End BrokerUrlFacts.

(* ================================================================== *)
(** ** The port option *)

Lemma to_int_not_nil (v : Z) :
  Z.to_int v <> Decimal.Pos Decimal.Nil /\ Z.to_int v <> Decimal.Neg Decimal.Nil.
Proof.
  assert (H : Z.to_int v = Decimal.norm (Z.to_int v)).
  { rewrite <- (DecimalZ.to_of (Z.to_int v)), DecimalZ.of_to. reflexivity. }
  rewrite H. destruct (Z.to_int v) as [d|d]; cbn [Decimal.norm].
  - split; [|discriminate]. intros [= Hd]. exact (DecimalFacts.unorm_nonnil d Hd).
  - destruct (Decimal.nzhead d) eqn:E; split; try discriminate;
      intros [= Hd]; pose proof (DecimalFacts.unorm_nonnil d) as Hn;
      unfold Decimal.unorm in Hn; rewrite E in Hn; congruence.
Qed.

Lemma py_int_str_int (v : Z) : py_int (str_int v) = Some v.
Proof.
  unfold py_int, str_int.
  destruct (to_int_not_nil v) as [Hp Hn].
  rewrite (NilZero.isi _ Hp Hn), DecimalZ.of_to. reflexivity.
Qed.

Lemma parse_args_port (args : list cli_arg) :
  forall o o',
    parse_args args o = inl o' ->
    (port o' = port o \/ 1 <= port o' < 65535)
    /\ (forallb (fun a => negb (has_port a)) args = true -> port o' = port o).
Proof.
  induction args as [|arg rest IH]; intros o o'; cbn [parse_args forallb].
  - intros [= <-]. auto.
  - destruct arg as [text|f|]; cbn [has_port negb andb].
    + destruct (py_int text) as [v|]; [|discriminate].
      destruct (port_choices v) eqn:E; [|discriminate].
      intros H. destruct (IH _ _ H) as [[Hsame|Hin] _]; split; try discriminate.
      * right. rewrite Hsame. cbn [set_port port].
        unfold port_choices in E. apply andb_prop in E. lia.
      * right. exact Hin.
    + intros H. destruct (IH _ _ H) as [Hp Hno]. cbn [set_config port] in *.
      split; assumption.
    + intros H. destruct (IH _ _ H) as [Hp Hno]. cbn [set_no_webserver port] in *.
      split; assumption.
Qed.

(** C9, the claim as stated fails: 65535 is in the range 1..65535 and
    [--port 65535] is refused. *)
Lemma port_65535_is_rejected :
  1 <= 65535 <= 65535
  /\ parse_program_options "decision_engine.jsonnet" [ArgPort "65535"]
     = inr (InvalidChoice 65535).
Proof. split; [lia|reflexivity]. Qed.

(** C9, amended.  [parse_program_options] accepts [--port] with every
    integer from 1 to 65534 and refuses every other integer, 65535
    included: the choices are the half-open interval [1, 65535).  The port
    is 8888 when [--port] is not given, and whatever is parsed has its
    port in that interval. *)
Theorem port_option_range :
  forall file,
    parse_program_options file []
    = inl {| port := 8888; config := file; no_webserver := false |}
    /\ (forall v, 1 <= v <= 65534 ->
                  parse_program_options file [ArgPort (str_int v)]
                  = inl {| port := v; config := file; no_webserver := false |})
    /\ (forall v, ~ (1 <= v <= 65534) ->
                  parse_program_options file [ArgPort (str_int v)]
                  = inr (InvalidChoice v))
    /\ (forall args o,
          parse_program_options file args = inl o ->
          1 <= port o <= 65534
          /\ (forallb (fun a => negb (has_port a)) args = true -> port o = 8888)).
Proof.
  intros file. split; [reflexivity|]. split; [|split].
  - intros v Hv. unfold parse_program_options. cbn [parse_args].
    rewrite py_int_str_int.
    replace (port_choices v) with true; [reflexivity|].
    symmetry. unfold port_choices. apply andb_true_intro. split.
    + apply Z.leb_le. lia.
    + apply Z.ltb_lt. lia.
  - intros v Hv. unfold parse_program_options. cbn [parse_args].
    rewrite py_int_str_int.
    replace (port_choices v) with false; [reflexivity|].
    symmetry. unfold port_choices. apply andb_false_iff.
    destruct (Z_le_gt_dec 1 v); [right; apply Z.ltb_ge; lia|left; apply Z.leb_gt; lia].
  - intros args o H. unfold parse_program_options in H.
    destruct (parse_args_port _ _ _ H) as [Hp Hno]. cbn [port] in *.
    split; [lia|exact Hno].
Qed.

(* ================================================================== *)
(** ** Showing configurations *)

Lemma length_append (a b : string) :
  String.length (a ++ b) = (String.length a + String.length b)%nat.
Proof. induction a as [|c a IH]; simpl; [reflexivity|]. rewrite IH. reflexivity. Qed.

Lemma repeat_char_length (c : ascii) (n : nat) :
  String.length (repeat_char c n) = n.
Proof. induction n as [|n IH]; simpl; [reflexivity|]. rewrite IH. reflexivity. Qed.

Lemma repeat_char_get (c : ascii) (n i : nat) (x : ascii) :
  String.get i (repeat_char c n) = Some x -> x = c.
Proof.
  revert i. induction n as [|n IH]; intros i; simpl; [discriminate|].
  destruct i as [|i]; [intros [= <-]; reflexivity|apply IH].
Qed.

(** The preamble of a channel is its header "Channel: {name}" between two
    rules; each rule is made of "=" only and is exactly as long as the
    header, whatever the name, so the text has 3 * (9 + len(name)) + 5
    characters. *)
Theorem channel_preamble_rules_fit_header :
  forall name,
    exists rule,
      _channel_preamble name
      = newline ++ rule ++ newline ++ ("Channel: " ++ name) ++ newline
          ++ rule ++ newline ++ newline
      /\ String.length rule = String.length ("Channel: " ++ name)
      /\ (forall i x, String.get i rule = Some x -> x = "="%char)
      /\ String.length (_channel_preamble name)
         = (3 * (9 + String.length name) + 5)%nat.
Proof.
  intros name.
  exists (repeat_char "=" (String.length ("Channel: " ++ name))).
  split; [reflexivity|]. split; [apply repeat_char_length|].
  split; [intros i x; apply repeat_char_get|].
  unfold _channel_preamble. cbv zeta.
  rewrite !length_append, !repeat_char_length.
  change (String.length newline) with 1%nat.
  change (String.length "Channel: ") with 9%nat. lia.
Qed.

Lemma show_all_app print (l1 l2 : list string) :
  show_all print (l1 ++ l2) = show_all print l1 ++ show_all print l2.
Proof.
  induction l1 as [|ch l1 IH]; simpl; [reflexivity|].
  rewrite IH, !append_assoc. reflexivity.
Qed.

Lemma od_get_in_keys {V} (k : string) (d : odict V) :
  od_mem k d = true -> In k (od_keys d).
Proof.
  unfold od_mem. induction d as [|[k' v] d IH]; simpl; [discriminate|].
  destruct (String.eqb_spec k k') as [->|]; [left; reflexivity|].
  intros H. right. apply IH. exact H.
Qed.

(** [rpc_show_config] never changes anything and never raises.  For a name
    that is neither "all" nor a configured channel it answers "There is no
    active channel named {name}."; for "all" with no channel configured it
    answers the empty string; and what it shows for one configured channel
    is part of what it shows for "all".  A channel that is itself called
    "all" is never shown alone. *)
Theorem rpc_show_config_one_and_all :
  forall print channel de,
    (exists txt, rpc_show_config print channel de = (Ret txt, de, []))
    /\ (channel <> "all" -> od_mem channel (channel_configs de) = false ->
        result (rpc_show_config print channel de)
        = Ret ("There is no active channel named " ++ channel ++ "."))
    /\ (channel_configs de = [] ->
        result (rpc_show_config print "all" de) = Ret "")
    /\ (channel <> "all" -> od_mem channel (channel_configs de) = true ->
        exists one before after,
          result (rpc_show_config print channel de) = Ret one
          /\ one = _channel_preamble channel ++ print channel
          /\ result (rpc_show_config print "all" de)
             = Ret (before ++ one ++ after))
    /\ result (rpc_show_config print "all" de)
       = Ret (show_all print (od_keys (channel_configs de))).
Proof.
  intros print channel de. unfold rpc_show_config.
  split; [|split; [|split; [|split]]].
  - rewrite bind_gets. destruct (String.eqb channel "all"); [eexists; reflexivity|].
    destruct (negb (od_mem channel (channel_configs de))); eexists; reflexivity.
  - intros Hne Hmem. rewrite bind_gets.
    apply String.eqb_neq in Hne. rewrite Hne, Hmem. reflexivity.
  - intros Hempty. rewrite bind_gets, Hempty. reflexivity.
  - intros Hne Hmem. rewrite !bind_gets.
    pose proof (od_get_in_keys _ _ Hmem) as Hin.
    apply String.eqb_neq in Hne. rewrite Hne, Hmem.
    apply in_split in Hin. destruct Hin as (l1 & l2 & Hkeys).
    exists (_channel_preamble channel ++ print channel),
           (show_all print l1), (show_all print l2).
    split; [reflexivity|]. split; [reflexivity|].
    cbn [String.eqb Ascii.eqb Bool.eqb]. unfold result, ret; cbn [fst].
    rewrite Hkeys, show_all_app. cbn [show_all].
    rewrite !append_assoc. reflexivity.
  - rewrite bind_gets. reflexivity.
Qed.

Lemma rpc_show_config_one_and_all_witness :
  exists one before after,
    result (rpc_show_config (fun name => "{ " ++ name ++ " }") "beta" exhausted_engine)
    = Ret one
    /\ one = _channel_preamble "beta" ++ "{ beta }"
    /\ result (rpc_show_config (fun name => "{ " ++ name ++ " }") "all" exhausted_engine)
       = Ret (before ++ one ++ after).
Proof.
  refine (proj1 (proj2 (proj2 (proj2
            (rpc_show_config_one_and_all (fun name => "{ " ++ name ++ " }")
               "beta" exhausted_engine)))) _ eq_refl).
  discriminate.
Defined.

(* ================================================================== *)
(** ** Waiting by the name of a state *)

Lemma block_while_returns env state timeout de :
  exists msg evs, block_while env state timeout de = (Ret msg, de, evs).
Proof.
  unfold block_while. rewrite bind_gets.
  destruct (channel_workers de) as [|kw rest]; [eexists _, _; reflexivity|].
  rewrite bind_run.
  destruct (block_while_loop_run env state (od_values (kw :: rest))
              (Countdown_new timeout) de) as [c' Hc'].
  rewrite Hc'. unfold result, final, calls, ret; cbn [fst snd].
  eexists _, _. reflexivity.
Qed.

Lemma State_of_name_names name st :
  State_of_name name = Some st ->
  In name ["BOOT"; "ACTIVE"; "STEADY"; "OFFLINE"; "SHUTTINGDOWN"; "SHUTDOWN"; "ERROR"].
Proof.
  unfold State_of_name.
  repeat match goal with
         | |- context [String.eqb name ?s] =>
             destruct (String.eqb_spec name s) as [->|_];
               [intros _; simpl; tauto|]
         end.
  discriminate.
Qed.

(** [rpc_block_while] never raises and leaves the state as it is, whatever
    it is given as the name of the state.  With something that is not the
    name of one of the seven channel states it waits on nothing and
    answers "{state_str} is not a valid channel state."; with the name of
    a state it is [block_while] on that state. *)
Theorem rpc_block_while_checks_state_name :
  forall env state_str timeout de,
    (exists msg evs,
       rpc_block_while env state_str timeout de = (Ret msg, de, evs))
    /\ ((forall name,
           state_str = PyStr name ->
           ~ In name ["BOOT"; "ACTIVE"; "STEADY"; "OFFLINE"; "SHUTTINGDOWN";
                      "SHUTDOWN"; "ERROR"]) ->
        rpc_block_while env state_str timeout de
        = (Ret (py_str env state_str ++ " is not a valid channel state."), de, []))
    /\ (forall name st,
          state_str = PyStr name -> State_of_name name = Some st ->
          rpc_block_while env state_str timeout de = block_while env st timeout de).
Proof.
  intros env state_str timeout de. split; [|split].
  - destruct state_str as [| | | |name]; try (eexists _, _; reflexivity).
    unfold rpc_block_while. destruct (State_of_name name) as [st|].
    + apply block_while_returns.
    + eexists _, _. reflexivity.
  - intros Hno. destruct state_str as [| | | |name]; try reflexivity.
    unfold rpc_block_while.
    destruct (State_of_name name) as [st|] eqn:E; [|reflexivity].
    exfalso. apply (Hno name eq_refl). eapply State_of_name_names. exact E.
  - intros name st -> Hst. unfold rpc_block_while. rewrite Hst. reflexivity.
Qed.

Lemma rpc_block_while_checks_state_name_witness :
  rpc_block_while sample_env (PyStr "boot") (Some 5) (sample_engine sample_registry)
  = (Ret "boot is not a valid channel state.", sample_engine sample_registry, []).
Proof.
  apply (proj1 (proj2 (rpc_block_while_checks_state_name sample_env (PyStr "boot")
                         (Some 5) (sample_engine sample_registry)))).
  intros name [= <-]. simpl. intuition discriminate.
Defined.

(* ================================================================== *)
(** ** What removing a channel changes *)

Lemma od_get_del_other {V} (k k' : string) (d : odict V) :
  k' <> k -> od_get k' (od_del k d) = od_get k' d.
Proof.
  intros Hne. induction d as [|[x v] d IH]; simpl; [reflexivity|].
  destruct (String.eqb_spec k x) as [->|Hkx]; simpl.
  - destruct (String.eqb_spec k' x); [congruence|reflexivity].
  - rewrite IH. reflexivity.
Qed.

Lemma od_get_not_key {V} (k : string) (d : odict V) :
  ~ In k (od_keys d) -> od_get k d = None.
Proof.
  induction d as [|[x v] d IH]; simpl; [reflexivity|].
  intros Hnot. destruct (String.eqb_spec k x) as [->|]; [tauto|].
  apply IH. tauto.
Qed.

Lemma od_get_del_same {V} (k : string) (d : odict V) :
  NoDup (od_keys d) -> od_get k (od_del k d) = None.
Proof.
  induction d as [|[x v] d IH]; simpl; intros Hnd; [reflexivity|].
  inversion Hnd as [|? ? Hnot Hnd']; subst.
  destruct (String.eqb_spec k x) as [->|Hne]; simpl.
  - apply od_get_not_key. exact Hnot.
  - destruct (String.eqb_spec k x); [congruence|]. apply IH. exact Hnd'.
Qed.

Lemma stop_worker_calls env worker timeout de :
  Forall (is_stop_call (channel_of worker))
         (calls (stop_worker env worker timeout de)).
Proof.
  rewrite stop_worker_run. unfold calls; cbn [snd]. apply Forall_app. split.
  - destruct (is_alive worker); [|constructor].
    constructor; [left; reflexivity|].
    constructor; [right; left; eexists; reflexivity|constructor].
  - destruct (exitcode _); constructor; [|constructor].
    right; right; reflexivity.
Qed.

(** [rm_channel] on a name that is not in the registry makes no call and
    changes nothing.  On a registered name it removes that entry and no
    other one: the name is gone from the registry afterwards and every
    other name maps to what it mapped to; the worker is stopped first
    (only [take_offline], [join], [terminate] on it), then the entry is
    deleted, and the sources are pruned last. *)
Theorem rm_channel_removes_only_that_channel :
  forall env channel timeout de,
    NoDup (od_keys (channel_workers de)) ->
    (od_get channel (channel_workers de) = None ->
     rm_channel env channel timeout de = (Ret NotFound, de, []))
    /\ (forall worker,
          od_get channel (channel_workers de) = Some worker ->
          od_get channel (channel_workers (final (rm_channel env channel timeout de)))
          = None
          /\ (forall other,
                other <> channel ->
                od_get other (channel_workers
                                (final (rm_channel env channel timeout de)))
                = od_get other (channel_workers de))
          /\ exists stops,
               calls (rm_channel env channel timeout de)
               = (stops ++ [EvRegistryDelete channel; EvSourcesPrune channel])%list
               /\ Forall (is_stop_call (channel_of worker)) stops).
Proof.
  intros env channel timeout de Hnd. rewrite rm_channel_run. split.
  - intros ->. reflexivity.
  - intros worker ->. unfold final, calls; cbn [fst snd].
    unfold removed. cbn [channel_workers set_source_heap set_channel_workers].
    split; [apply od_get_del_same; exact Hnd|].
    split; [intros other Hne; apply od_get_del_other; exact Hne|].
    eexists. split; [reflexivity|]. apply stop_worker_calls.
Qed.

Lemma rm_channel_removes_only_that_channel_witness :
  od_get "alpha" (channel_workers
                    (final (rm_channel sample_env "alpha" PyNone
                              (sample_engine sample_registry))))
  = None
  /\ od_get "beta" (channel_workers
                      (final (rm_channel sample_env "alpha" PyNone
                                (sample_engine sample_registry))))
     = Some (sample_worker "beta" false (Some 1)).
Proof.
  assert (Hnd : NoDup (od_keys (channel_workers (sample_engine sample_registry)))).
  { repeat constructor; simpl; intuition discriminate. }
  destruct (proj2 (rm_channel_removes_only_that_channel sample_env "alpha" PyNone
                     (sample_engine sample_registry) Hnd)
              (sample_worker "alpha" true None) eq_refl) as (Hgone & Hothers & _).
  split; [exact Hgone|].
  rewrite (Hothers "beta"); [reflexivity|discriminate].
Defined.

Lemma rpc_rm_channel_final env channel timeout de :
  WORKERS_COUNT (final (rpc_rm_channel env channel timeout de))
  = match result (rm_channel env channel timeout de) with
    | Ret Clean => WORKERS_COUNT (final (rm_channel env channel timeout de)) - 1
    | _ => WORKERS_COUNT (final (rm_channel env channel timeout de))
    end.
Proof.
  unfold rpc_rm_channel. rewrite bind_run.
  destruct (result (rm_channel env channel timeout de)) as [[| |]|e];
    unfold final; cbn [fst snd]; try reflexivity.
  destruct (py_eq_zero timeout); [reflexivity|].
  rewrite bind_run. unfold lift, result, final; cbn [fst snd].
  destruct (py_gt_one timeout); reflexivity.
Qed.

(** The gauge of running workers goes down by one when [rpc_rm_channel]
    stops a worker cleanly, and only then: it stays as it is when the
    name is unknown and also when the worker had to be terminated, although
    the channel is removed from the registry in that case too. *)
Theorem rpc_rm_channel_counts_clean_stops_only :
  forall env channel timeout de,
    (result (rm_channel env channel timeout de) = Ret Clean ->
     WORKERS_COUNT (final (rpc_rm_channel env channel timeout de))
     = WORKERS_COUNT de - 1)
    /\ (result (rm_channel env channel timeout de) <> Ret Clean ->
        WORKERS_COUNT (final (rpc_rm_channel env channel timeout de))
        = WORKERS_COUNT de)
    /\ (forall worker,
          od_get channel (channel_workers de) = Some worker ->
          is_alive worker = false -> exitcode worker = None ->
          NoDup (od_keys (channel_workers de)) ->
          result (rm_channel env channel timeout de) = Ret Terminated
          /\ od_get channel (channel_workers
                               (final (rm_channel env channel timeout de))) = None).
Proof.
  intros env channel timeout de.
  assert (Hcount : WORKERS_COUNT (final (rm_channel env channel timeout de))
                   = WORKERS_COUNT de).
  { rewrite rm_channel_run.
    destruct (od_get channel (channel_workers de)); reflexivity. }
  split; [|split].
  - intros Hclean. rewrite rpc_rm_channel_final, Hclean, Hcount. reflexivity.
  - intros Hnot. rewrite rpc_rm_channel_final, Hcount.
    destruct (result (rm_channel env channel timeout de)) as [[| |]|e];
      try reflexivity. congruence.
  - intros worker Hget Halive Hcode Hnd. rewrite rm_channel_run, Hget.
    unfold result, final; cbn [fst snd]. rewrite stop_worker_run.
    rewrite Halive, Hcode. split; [reflexivity|].
    unfold removed. cbn [channel_workers set_source_heap set_channel_workers].
    apply od_get_del_same. exact Hnd.
Qed.

Lemma rpc_rm_channel_counts_clean_stops_only_witness :
  WORKERS_COUNT (final (rpc_rm_channel sample_env "alpha" (PyInt 2)
                          (sample_engine sample_registry)))
  = 1
  /\ WORKERS_COUNT (final (rpc_rm_channel hanging_env "alpha" (PyInt 2)
                             (sample_engine sample_registry)))
     = 2.
Proof.
  split.
  - exact (proj1 (rpc_rm_channel_counts_clean_stops_only sample_env "alpha" (PyInt 2)
                    (sample_engine sample_registry)) eq_refl).
  - refine (proj1 (proj2 (rpc_rm_channel_counts_clean_stops_only hanging_env "alpha"
                            (PyInt 2) (sample_engine sample_registry))) _).
    discriminate.
Defined.

(** When the worker had to be terminated, a timeout equal to zero ([0],
    [False], [0.0]) gives "Channel {name} has been killed." with no
    mention of a timeout, and a negative whole number of seconds gives the
    timeout message with "second" in the singular. *)
Theorem rpc_rm_channel_zero_and_negative_timeouts :
  forall env channel worker de,
    od_get channel (channel_workers de) = Some worker ->
    (forall timeout,
       timeout = PyInt 0 \/ timeout = PyBool false
       \/ (exists f, timeout = PyFloat f /\ PrimFloat.eqb f 0%float = true) ->
       result (stop_worker env worker timeout de) = Ret Terminated ->
       result (rpc_rm_channel env channel timeout de)
       = Ret ("Channel " ++ channel ++ " has been killed."))
    /\ (forall t,
          t < 0 ->
          result (stop_worker env worker (PyInt t) de) = Ret Terminated ->
          result (rpc_rm_channel env channel (PyInt t) de)
          = Ret ("Channel " ++ channel ++ " has been killed due to shutdown timeout ("
                   ++ str_int t ++ " second).")).
Proof.
  intros env channel worker de Hget. split.
  - intros timeout Hzero Hrc.
    rewrite rpc_rm_channel_result, rm_channel_run, Hget.
    unfold result in *; cbn [fst]. rewrite Hrc.
    replace (py_eq_zero timeout) with true; [reflexivity|].
    destruct Hzero as [->|[->|(f & -> & Hf)]]; try reflexivity.
    symmetry. exact Hf.
  - intros t Ht Hrc.
    rewrite rpc_rm_channel_result, rm_channel_run, Hget.
    unfold result in *; cbn [fst]. rewrite Hrc.
    cbn [py_eq_zero py_gt_one py_str].
    replace (t =? 0) with false by (symmetry; apply Z.eqb_neq; lia).
    replace (1 <? t) with false by (symmetry; apply Z.ltb_ge; lia).
    reflexivity.
Qed.

Lemma rpc_rm_channel_zero_and_negative_timeouts_witness :
  result (rpc_rm_channel hanging_env "alpha" (PyInt 0) (sample_engine sample_registry))
  = Ret "Channel alpha has been killed."
  /\ result (rpc_rm_channel hanging_env "alpha" (PyInt (-5))
               (sample_engine sample_registry))
     = Ret "Channel alpha has been killed due to shutdown timeout (-5 second).".
Proof.
  pose proof (rpc_rm_channel_zero_and_negative_timeouts hanging_env "alpha"
                (sample_worker "alpha" true None) (sample_engine sample_registry)
                eq_refl) as [Hzero Hneg].
  split.
  - exact (Hzero (PyInt 0) (or_introl eq_refl) eq_refl).
  - exact (Hneg (-5) eq_refl eq_refl).
Defined.

(* ================================================================== *)
(** ** What starting a channel changes *)

Lemma start_sources_frame env channel_name src_workers :
  forall de,
    channel_workers (final (start_sources env channel_name src_workers de))
    = channel_workers de
    /\ WORKERS_COUNT (final (start_sources env channel_name src_workers de))
       = WORKERS_COUNT de
    /\ channel_configs (final (start_sources env channel_name src_workers de))
       = channel_configs de
    /\ global_config (final (start_sources env channel_name src_workers de))
       = global_config de.
Proof.
  induction src_workers as [|[key h] rest IH]; intros de; cbn [start_sources].
  - repeat split; reflexivity.
  - step. destruct (sw_is_alive (source_heap de h)); [apply IH|].
    destruct (exited_zero (source_heap de h)); [repeat split; reflexivity|].
    step. rewrite !final_triple.
    match goal with
    | |- context [start_sources env channel_name rest ?d] =>
        destruct (IH d) as (I1 & I2 & I3 & I4)
    end.
    rewrite I1, I2, I3, I4. repeat split; reflexivity.
Qed.

(** The state in which [start_channel] ends: either nothing of the
    registry and of the gauge has changed (the start failed before the
    worker was built), or the worker is filed under the name of the
    channel and the gauge is one up. *)
Lemma start_channel_final env name cfg de :
  let channel := effective_name name cfg in
  let de' := final (start_channel env name cfg de) in
  (channel_workers de' = channel_workers de
   /\ WORKERS_COUNT de' = WORKERS_COUNT de)
  \/ (exists w1 w2,
        channel_workers de' = od_set channel w2 (od_set channel w1 (channel_workers de))
        /\ WORKERS_COUNT de' = WORKERS_COUNT de + 1).
Proof.
  cbv zeta. unfold start_channel. fold (effective_name name cfg).
  set (channel := effective_name name cfg).
  step. rewrite !final_triple.
  destruct (cfg_sources cfg) as [srcs|];
    [|left; step; split; reflexivity].
  step. rewrite !final_triple.
  destruct (fst (sources_update env channel srcs (source_heap de)))
    as [src_workers|e]; [|left; step; split; reflexivity].
  step. rewrite !final_triple.
  destruct (validated_workflow env channel src_workers (cfg_modules cfg))
    as [mw|e]; [|left; step; split; reflexivity].
  step.
  match goal with
  | |- context [task_manager_init env channel ?qi] =>
      destruct (task_manager_init env channel qi) as [level|e];
        [|left; step; split; reflexivity]
  end.
  step. cbn [global_config set_source_heap].
  destruct (gc_logger (global_config de)) as [logger|];
    [|left; step; split; reflexivity].
  right. step. rewrite !final_triple.
  rewrite bind_wait_while. rewrite !final_triple.
  rewrite bind_run.
  match goal with
  | |- context [start_sources env channel src_workers ?d] =>
      destruct (start_sources_frame env channel src_workers d) as (F1 & F2 & _);
        destruct (start_sources env channel src_workers d) as [[[u|e] d'] starts]
  end; unfold result, final in *; cbn [fst snd] in *.
  - rewrite bind_wait_while. unfold final, ret; cbn [fst snd].
    rewrite F1, F2. eexists _, _. split; reflexivity.
  - rewrite F1, F2. eexists _, _. split; reflexivity.
Qed.

(** Once [start_channel] has built the worker (the sources are declared,
    the registry hands out their workers, the workflow is valid and the
    task manager is built), the channel is in the registry and the gauge
    of workers is one up when it ends, also when it ends by raising
    because a source had already completed: a start that fails at its
    sources leaves the channel registered, so that [rpc_start_channel]
    then refuses the name as running. *)
Theorem start_channel_failed_start_stays_registered :
  forall env name cfg de srcs src_workers,
    let channel := effective_name name cfg in
    let de' := final (start_channel env name cfg de) in
    cfg_sources cfg = Some srcs ->
    fst (sources_update env channel srcs (source_heap de)) = Ret src_workers ->
    returns_value (validated_workflow env channel src_workers (cfg_modules cfg)) = true ->
    (forall queue_info, returns_value (task_manager_init env channel queue_info) = true) ->
    gc_logger (global_config de) <> None ->
    od_mem channel (channel_workers de') = true
    /\ WORKERS_COUNT de' = WORKERS_COUNT de + 1
    /\ rpc_start_channel env channel de'
       = (Ret ("ERROR, channel " ++ channel ++ " is running"), de', []).
Proof.
  intros env name cfg de srcs src_workers channel de' Hsrcs Hupd Hval Htm Hlog.
  assert (Hreg : od_mem channel (channel_workers de') = true
                 /\ WORKERS_COUNT de' = WORKERS_COUNT de + 1).
  { destruct (start_channel_final env name cfg de) as [(_ & Hcount)|Hin].
    - exfalso. revert Hcount.
      destruct (start_channel_sources_run env name cfg de srcs src_workers
                  Hsrcs Hupd Hval Htm Hlog) as (de1 & _ & _ & Hfin & _).
      clear Hfin. unfold start_channel. fold (effective_name name cfg).
      fold channel. rewrite Hsrcs. step. rewrite Hupd. step.
      destruct (validated_workflow env channel src_workers (cfg_modules cfg))
        as [mw|e]; [|discriminate].
      step.
      match goal with
      | |- context [task_manager_init env channel ?qi] =>
          specialize (Htm qi);
            destruct (task_manager_init env channel qi) as [level|e]; [|discriminate]
      end.
      step. cbn [global_config set_source_heap].
      destruct (gc_logger (global_config de)) as [logger|]; [|congruence].
      step. unfold final at 1; cbn [fst snd].
      rewrite bind_wait_while. unfold final at 1; cbn [fst snd]. rewrite bind_run.
      match goal with
      | |- context [start_sources env channel src_workers ?d] =>
          destruct (start_sources_frame env channel src_workers d) as (_ & F2 & _);
            destruct (start_sources env channel src_workers d) as [[[u|e] d'] starts]
      end; unfold result, final in *; cbn [fst snd] in *.
      + rewrite bind_wait_while. unfold final, ret; cbn [fst snd]. rewrite F2.
        cbn [WORKERS_COUNT set_channel_workers add_workers_count set_source_heap]. lia.
      + rewrite F2.
        cbn [WORKERS_COUNT set_channel_workers add_workers_count set_source_heap]. lia.
    - destruct Hin as (w1 & w2 & Hw & Hc). fold channel in Hw. fold de' in Hw, Hc.
      rewrite Hw. split; [apply od_mem_set|exact Hc]. }
  destruct Hreg as [Hmem Hcount]. split; [exact Hmem|]. split; [exact Hcount|].
  unfold rpc_start_channel. rewrite bind_gets, Hmem. reflexivity.
Qed.

Lemma start_channel_failed_start_stays_registered_witness :
  od_mem "alpha" (channel_workers
                    (final (start_channel sample_env "alpha" two_sources_config
                              exhausted_engine))) = true
  /\ WORKERS_COUNT (final (start_channel sample_env "alpha" two_sources_config
                             exhausted_engine)) = 0 + 1
  /\ rpc_start_channel sample_env "alpha"
       (final (start_channel sample_env "alpha" two_sources_config exhausted_engine))
     = (Ret "ERROR, channel alpha is running",
        final (start_channel sample_env "alpha" two_sources_config exhausted_engine),
        []).
Proof.
  refine (start_channel_failed_start_stays_registered sample_env "alpha"
            two_sources_config exhausted_engine
            [("srcA", "SourceA()"); ("srcB", "SourceB()")]
            [("srcA", 0%nat); ("srcB", 1%nat)]
            eq_refl eq_refl eq_refl (fun _ => eq_refl) _).
  discriminate.
Defined.

(** A start that fails before the worker is built leaves the registry and
    the gauge as they were.  Without a "sources" key [start_channel]
    raises [KeyError] at once and changes nothing at all; when the source
    registry raises, or when the workflow is rejected, the exception goes
    to the caller and the channel is not registered; but in the latter
    case the update of the source registry made for the channel is kept. *)
Theorem start_channel_early_failures :
  forall env name cfg de,
    let channel := effective_name name cfg in
    (cfg_sources cfg = None ->
     start_channel env name cfg de
     = (Raise (KeyError "'sources'"), de, [EvStartChannel name]))
    /\ (forall srcs e,
          cfg_sources cfg = Some srcs ->
          fst (sources_update env channel srcs (source_heap de)) = Raise e ->
          result (start_channel env name cfg de) = Raise e
          /\ channel_workers (final (start_channel env name cfg de))
             = channel_workers de
          /\ WORKERS_COUNT (final (start_channel env name cfg de)) = WORKERS_COUNT de)
    /\ (forall srcs src_workers e,
          cfg_sources cfg = Some srcs ->
          fst (sources_update env channel srcs (source_heap de)) = Ret src_workers ->
          validated_workflow env channel src_workers (cfg_modules cfg) = Raise e ->
          result (start_channel env name cfg de) = Raise e
          /\ channel_workers (final (start_channel env name cfg de))
             = channel_workers de
          /\ WORKERS_COUNT (final (start_channel env name cfg de)) = WORKERS_COUNT de
          /\ source_heap (final (start_channel env name cfg de))
             = snd (sources_update env channel srcs (source_heap de))
          /\ calls (start_channel env name cfg de)
             = [EvStartChannel name; EvSourcesUpdate channel;
                EvValidateWorkflow channel]).
Proof.
  intros env name cfg de channel. split; [|split].
  - intros Hsrcs. unfold start_channel. rewrite Hsrcs. step. reflexivity.
  - intros srcs e Hsrcs Hupd. unfold start_channel.
    fold (effective_name name cfg). fold channel.
    rewrite Hsrcs. step. rewrite Hupd. step.
    repeat split; reflexivity.
  - intros srcs src_workers e Hsrcs Hupd Hval. unfold start_channel.
    fold (effective_name name cfg). fold channel.
    rewrite Hsrcs. step. rewrite Hupd. step. rewrite Hval. step.
    repeat split; reflexivity.
Qed.

Lemma start_channel_early_failures_witness :
  result (start_channel rejecting_env "gamma" sample_config (sample_engine sample_registry))
  = Raise (RuntimeError "ghost is not produced")
  /\ channel_workers (final (start_channel rejecting_env "gamma" sample_config
                               (sample_engine sample_registry)))
     = sample_registry
  /\ WORKERS_COUNT (final (start_channel rejecting_env "gamma" sample_config
                             (sample_engine sample_registry))) = 2
  /\ source_heap (final (start_channel rejecting_env "gamma" sample_config
                           (sample_engine sample_registry)))
     = exhausted_heap
  /\ calls (start_channel rejecting_env "gamma" sample_config
              (sample_engine sample_registry))
     = [EvStartChannel "gamma"; EvSourcesUpdate "gamma"; EvValidateWorkflow "gamma"].
Proof.
  exact (proj2 (proj2 (start_channel_early_failures rejecting_env "gamma" sample_config
                         (sample_engine sample_registry)))
               [("srcA", "SourceA()")] [("srcA", 0%nat)]
               (RuntimeError "ghost is not produced") eq_refl eq_refl eq_refl).
Defined.

(* ================================================================== *)
(** ** Starting channels over RPC *)

(** For a name that is not in the registry [rpc_start_channel] loads the
    configuration of that channel first.  When loading fails it returns
    the loader's message, attempts no start and leaves the registry as it
    was; when it succeeds it starts the channel and returns "OK" if the
    start returned, while an exception of the start goes to the caller. *)
Theorem rpc_start_channel_loads_then_starts :
  forall env channel_name de,
    od_mem channel_name (channel_workers de) = false ->
    let loaded := set_channel_configs
                    (fun _ => snd (load_channel env channel_name (channel_configs de)))
                    de in
    (forall msg,
       fst (load_channel env channel_name (channel_configs de)) = LoadFailed msg ->
       rpc_start_channel env channel_name de
       = (Ret msg, loaded, [EvLoadChannel channel_name]))
    /\ (forall cfg,
          fst (load_channel env channel_name (channel_configs de)) = LoadOk cfg ->
          result (rpc_start_channel env channel_name de)
          = match result (start_channel env channel_name cfg loaded) with
            | Ret _ => Ret "OK"
            | Raise e => Raise e
            end
          /\ calls (rpc_start_channel env channel_name de)
             = EvLoadChannel channel_name
                 :: calls (start_channel env channel_name cfg loaded)
          /\ final (rpc_start_channel env channel_name de)
             = final (start_channel env channel_name cfg loaded)).
Proof.
  intros env channel_name de Hmem loaded. split.
  - intros msg Hload. unfold rpc_start_channel. step. rewrite Hmem. step.
    rewrite Hload. reflexivity.
  - intros cfg Hload. unfold rpc_start_channel. step. rewrite Hmem. step.
    rewrite Hload. rewrite bind_run. fold loaded.
    destruct (start_channel env channel_name cfg loaded) as [[[u|e] d] evs];
      unfold result, final, calls, ret; cbn [fst snd].
    + rewrite app_nil_r. repeat split; reflexivity.
    + repeat split; reflexivity.
Qed.

Lemma rpc_start_channel_loads_then_starts_witness :
  rpc_start_channel sample_env "gamma" (sample_engine sample_registry)
  = (Ret "no configuration for gamma", sample_engine sample_registry,
     [EvLoadChannel "gamma"]).
Proof.
  exact (proj1 (rpc_start_channel_loads_then_starts sample_env "gamma"
                  (sample_engine sample_registry) eq_refl)
               "no configuration for gamma" eq_refl).
Defined.

(** [rpc_start_channels] answers "OK" whenever the configurations could
    be loaded, however many of the channels failed to start; it raises
    only what loading the configurations raises. *)
Theorem rpc_start_channels_ok_despite_failures :
  forall env de,
    result (rpc_start_channels env de)
    = match load_all_channels env (channel_configs de) with
      | Ret _ => Ret "OK"
      | Raise e => Raise e
      end.
Proof.
  intros env de. unfold rpc_start_channels. rewrite bind_run.
  unfold start_channels. step.
  destruct (load_all_channels env (channel_configs de)) as [loaded|e].
  - step. cbn [channel_configs set_channel_configs]. rewrite !result_triple.
    destruct (start_each_run env loaded
                (set_channel_configs (fun _ => loaded) de)) as [R1 _].
    rewrite R1. reflexivity.
  - step. reflexivity.
Qed.

Lemma start_channel_keys env name cfg de k :
  In k (od_keys (channel_workers (final (start_channel env name cfg de)))) ->
  In k (od_keys (channel_workers de)) \/ k = effective_name name cfg.
Proof.
  destruct (start_channel_final env name cfg de) as [[Hsame _]|(w1 & w2 & Hset & _)].
  - rewrite Hsame. auto.
  - rewrite Hset. intros Hin.
    destruct (od_set_keys_in _ _ _ _ Hin) as [->|Hin1]; [auto|].
    destruct (od_set_keys_in _ _ _ _ Hin1) as [->|Hin2]; auto.
Qed.

Lemma start_each_final env name cfg rest de :
  final (start_each env ((name, cfg) :: rest) de)
  = final (start_each env rest (final (start_channel env name cfg de))).
Proof. rewrite start_each_step. reflexivity. Qed.

Lemma start_each_keys env channels :
  forall de k,
    In k (od_keys (channel_workers (final (start_each env channels de)))) ->
    In k (od_keys (channel_workers de)) \/ In k (effective_names channels).
Proof.
  induction channels as [|[name cfg] rest IH]; intros de k.
  - cbn [start_each]. auto.
  - rewrite start_each_final. intros Hin.
    destruct (IH _ _ Hin) as [Hin1|Hin1]; [|right; right; exact Hin1].
    destruct (start_channel_keys _ _ _ _ _ Hin1) as [Hin2| ->]; [auto|].
    right. left. reflexivity.
Qed.

Lemma start_each_names_distinct env channels :
  forall de,
    NoDup (od_keys (channel_workers de)) ->
    NoDup (od_keys (channel_workers (final (start_each env channels de)))).
Proof.
  induction channels as [|[name cfg] rest IH]; intros de Hnd.
  - exact Hnd.
  - rewrite start_each_final. apply IH. apply start_channel_names_distinct. exact Hnd.
Qed.

Lemma start_channels_final env de loaded :
  load_all_channels env (channel_configs de) = Ret loaded ->
  final (start_channels env de)
  = final (start_each env loaded (set_channel_configs (fun _ => loaded) de)).
Proof.
  intros Hload. unfold start_channels. step. rewrite Hload. step. reflexivity.
Qed.

(** After [start_channels] the registry holds no name it did not hold
    before other than names under which the loaded configurations start
    their channels, and its names are still pairwise distinct (invariant
    I5), whichever of the channels failed. *)
Theorem start_channels_registers_configured_names_only :
  forall env de loaded,
    load_all_channels env (channel_configs de) = Ret loaded ->
    (forall k,
       In k (od_keys (channel_workers (final (start_channels env de)))) ->
       In k (od_keys (channel_workers de)) \/ In k (effective_names loaded))
    /\ (NoDup (od_keys (channel_workers de)) ->
        NoDup (od_keys (channel_workers (final (start_channels env de))))).
Proof.
  intros env de loaded Hload. rewrite (start_channels_final env de loaded Hload).
  split.
  - intros k Hin. apply start_each_keys in Hin. exact Hin.
  - intros Hnd. apply start_each_names_distinct. exact Hnd.
Qed.

Lemma start_channels_registers_configured_names_only_witness :
  NoDup (od_keys (channel_workers (final (start_channels sample_env exhausted_engine)))).
Proof.
  apply (proj2 (start_channels_registers_configured_names_only sample_env
                  exhausted_engine (channel_configs exhausted_engine) eq_refl)).
  apply NoDup_nil.
Defined.

(* ================================================================== *)
(** ** Stopping everything, reloading and servicing *)

Lemma start_channel_frame env name cfg de :
  global_config (final (start_channel env name cfg de)) = global_config de
  /\ channel_configs (final (start_channel env name cfg de)) = channel_configs de.
Proof.
  unfold start_channel. fold (effective_name name cfg).
  set (channel := effective_name name cfg).
  step. rewrite !final_triple.
  destruct (cfg_sources cfg) as [srcs|]; [|step; split; reflexivity].
  step. rewrite !final_triple.
  destruct (fst (sources_update env channel srcs (source_heap de)))
    as [src_workers|e]; [|step; split; reflexivity].
  step. rewrite !final_triple.
  destruct (validated_workflow env channel src_workers (cfg_modules cfg))
    as [mw|e]; [|step; split; reflexivity].
  step.
  match goal with
  | |- context [task_manager_init env channel ?qi] =>
      destruct (task_manager_init env channel qi) as [level|e];
        [|step; split; reflexivity]
  end.
  step. cbn [global_config set_source_heap].
  destruct (gc_logger (global_config de)) as [logger|];
    [|step; split; reflexivity].
  step. rewrite !final_triple.
  rewrite bind_wait_while. rewrite !final_triple.
  rewrite bind_run.
  match goal with
  | |- context [start_sources env channel src_workers ?d] =>
      destruct (start_sources_frame env channel src_workers d) as (_ & _ & F3 & F4);
        destruct (start_sources env channel src_workers d) as [[[u|e] d'] starts]
  end; unfold result, final in *; cbn [fst snd] in *.
  - rewrite bind_wait_while. unfold final, ret; cbn [fst snd].
    rewrite F3, F4. split; reflexivity.
  - rewrite F3, F4. split; reflexivity.
Qed.

Lemma start_each_frame env channels :
  forall de,
    global_config (final (start_each env channels de)) = global_config de
    /\ channel_configs (final (start_each env channels de)) = channel_configs de.
Proof.
  induction channels as [|[name cfg] rest IH]; intros de.
  - split; reflexivity.
  - rewrite start_each_final.
    destruct (IH (final (start_channel env name cfg de))) as [I1 I2].
    destruct (start_channel_frame env name cfg de) as [F1 F2].
    rewrite I1, I2, F1, F2. split; reflexivity.
Qed.

Lemma start_channels_run env de :
  match load_all_channels env (channel_configs de) with
  | Ret loaded =>
      result (start_channels env de) = Ret tt
      /\ global_config (final (start_channels env de)) = global_config de
      /\ channel_configs (final (start_channels env de)) = loaded
  | Raise e => start_channels env de = (Raise e, de, [EvLoadAllChannels])
  end.
Proof.
  destruct (load_all_channels env (channel_configs de)) as [loaded|e] eqn:Hload.
  - rewrite (start_channels_final env de loaded Hload).
    destruct (start_each_frame env loaded (set_channel_configs (fun _ => loaded) de))
      as [F1 F2].
    rewrite F1, F2. split; [|split; reflexivity].
    unfold start_channels. step. rewrite Hload. step.
    cbn [channel_configs set_channel_configs]. rewrite !result_triple.
    apply start_each_run.
  - unfold start_channels. step. rewrite Hload. step. reflexivity.
Qed.

Lemma bindc_run {A B} (m : H A) (k : A -> H B) de :
  bindc m k de
  = match resultc (m de) with
    | Ret a =>
        (resultc (k a (finalc (m de))), finalc (k a (finalc (m de))),
         (callsc (m de) ++ callsc (k a (finalc (m de))))%list)
    | Raise e => (Raise e, finalc (m de), callsc (m de))
    end.
Proof.
  unfold bindc, resultc, finalc, callsc.
  destruct (m de) as [[[a|e] d] cs]; cbn [fst snd]; [|reflexivity].
  destruct (k a d) as [[r d'] cs']. reflexivity.
Qed.

Lemma bindc_retc {A B} (a : A) (k : A -> H B) de :
  bindc (retc a) k de = k a de.
Proof. unfold bindc, retc. destruct (k a de) as [[r d] cs]. reflexivity. Qed.

Lemma bindc_getsc {A B} (f : DecisionEngine -> A) (k : A -> H B) de :
  bindc (getsc f) k de = k (f de) de.
Proof. unfold bindc, getsc. destruct (k (f de) de) as [[r d] cs]. reflexivity. Qed.

Lemma bindc_modifyc {B} (f : DecisionEngine -> DecisionEngine) (k : unit -> H B) de :
  bindc (modifyc f) k de = k tt (f de).
Proof. unfold bindc, modifyc. destruct (k tt (f de)) as [[r d] cs]. reflexivity. Qed.

Lemma bindc_emitc {B} (c : call) (k : unit -> H B) de :
  bindc (emitc c) k de
  = (resultc (k tt de), finalc (k tt de), c :: callsc (k tt de)).
Proof.
  unfold bindc, emitc, resultc, finalc, callsc.
  destruct (k tt de) as [[r d] cs]. reflexivity.
Qed.

Ltac stepc :=
  repeat (rewrite ?bindc_retc, ?bindc_getsc, ?bindc_modifyc, ?bindc_emitc).

Lemma core_stop_worker env worker timeout de :
  exists st,
    core (stop_worker env worker timeout) de
    = (Ret st, de, map Core (calls (stop_worker env worker timeout de))).
Proof.
  unfold core. rewrite stop_worker_run. eexists. reflexivity.
Qed.

Section HousekeepingFacts.
Variable env : Env.
Variable state_of : ChannelWorker -> State.
Variable sources_detach : string -> list string -> (nat -> SourceWorker) -> nat -> SourceWorker.
Variable sources_remove_all : pyval -> (nat -> SourceWorker) -> nat -> SourceWorker.
Variable Cd : Type.
Variable Cd_new : pyval -> Cd.
Variable Cd_time_left : Cd -> pyval.
Variable Cd_leave : Cd -> ChannelWorker -> Cd.
Variable reaper_start_delay : GlobalConfig -> outcome pyval.
Variable no_webserver_set : GlobalConfig -> bool.

Local Abbreviation stop_each' := (stop_each env Cd Cd_time_left Cd_leave).
Local Abbreviation stop_channels' :=
  (stop_channels env sources_remove_all Cd Cd_new Cd_time_left Cd_leave).
Local Abbreviation rpc_stop_channels' :=
  (rpc_stop_channels env sources_remove_all Cd Cd_new Cd_time_left Cd_leave).
Local Abbreviation handle_sighup' :=
  (handle_sighup env sources_remove_all Cd Cd_new Cd_time_left Cd_leave
                 reaper_start_delay).
Local Abbreviation rpc_stop' :=
  (rpc_stop env sources_remove_all Cd Cd_new Cd_time_left Cd_leave no_webserver_set).
Local Abbreviation service_actions' := (service_actions state_of sources_detach).
Local Abbreviation detach_each' := (detach_each state_of sources_detach).

Lemma stop_each_run workers :
  forall countdown de,
    exists budgets countdown',
      List.length budgets = List.length workers
      /\ stop_each' workers countdown de
         = (Ret countdown', de, map Core (stop_calls env de (combine workers budgets))).
Proof.
  induction workers as [|worker rest IH]; intros countdown de.
  - exists [], countdown. split; reflexivity.
  - cbn [stop_each]. rewrite bindc_run.
    destruct (core_stop_worker env worker (Cd_time_left countdown) de) as [st Hst].
    rewrite Hst. unfold resultc, finalc, callsc; cbn [fst snd].
    destruct (IH (Cd_leave countdown worker) de) as (budgets & cd' & Hlen & Hrun).
    rewrite Hrun. cbn [fst snd].
    exists (Cd_time_left countdown :: budgets), cd'. split.
    + cbn [List.length]. rewrite Hlen. reflexivity.
    + cbn [combine]. unfold stop_calls. cbn [flat_map fst snd].
      rewrite map_app. reflexivity.
Qed.

Lemma stop_calls_are_stops de stops :
  Forall (fun ev => exists worker, In worker (map fst stops)
                                   /\ is_stop_call (channel_of worker) ev)
         (stop_calls env de stops).
Proof.
  induction stops as [|[worker budget] rest IH]; [constructor|].
  unfold stop_calls. cbn [flat_map fst snd]. apply Forall_app. split.
  - eapply Forall_impl; [|apply stop_worker_calls].
    intros ev Hev. exists worker. split; [left; reflexivity|exact Hev].
  - eapply Forall_impl; [|exact IH].
    intros ev (w & Hin & Hev). exists w. split; [right; exact Hin|exact Hev].
Qed.

Lemma stop_channels_run de :
  exists budgets last,
    List.length budgets = List.length (channel_workers de)
    /\ stop_channels' de
       = (Ret tt,
          set_source_heap (sources_remove_all last)
            (set_channel_workers (fun _ => []) de),
          (map Core (stop_calls env de
                       (combine (od_values (channel_workers de)) budgets))
             ++ [SourcesRemoveAll last])%list).
Proof.
  unfold stop_channels. stepc. rewrite bindc_run.
  destruct (stop_each_run (od_values (channel_workers de))
              (Cd_new (shutdown_timeout de)) de)
    as (budgets & cd' & Hlen & Hrun).
  rewrite Hrun. unfold resultc, finalc, callsc; cbn [fst snd].
  stepc. unfold modifyc; cbn [fst snd].
  exists budgets, (Cd_time_left cd'). split.
  - rewrite Hlen. unfold od_values. apply length_map.
  - reflexivity.
Qed.

(** [stop_channels] never raises and leaves an empty registry, whatever
    the workers do; it stops the workers one after the other in registry
    order, each by the calls of [stop_worker] (so it starts nothing,
    deletes no single entry and prunes no channel's sources), and only
    then removes the source workers, once.  The configurations are kept,
    and the gauge of workers is not lowered although no worker is left. *)
Theorem stop_channels_empties_registry :
  forall de,
    let r := stop_channels' de in
    resultc r = Ret tt
    /\ channel_workers (finalc r) = []
    /\ WORKERS_COUNT (finalc r) = WORKERS_COUNT de
    /\ channel_configs (finalc r) = channel_configs de
    /\ global_config (finalc r) = global_config de
    /\ exists budgets last,
         List.length budgets = List.length (channel_workers de)
         /\ callsc r
            = (map Core (stop_calls env de
                           (combine (od_values (channel_workers de)) budgets))
                 ++ [SourcesRemoveAll last])%list
         /\ Forall (fun ev => exists worker,
                        In worker (od_values (channel_workers de))
                        /\ is_stop_call (channel_of worker) ev)
                   (stop_calls env de
                      (combine (od_values (channel_workers de)) budgets))
         /\ source_heap (finalc r) = sources_remove_all last (source_heap de).
Proof.
  intros de. cbv zeta.
  destruct (stop_channels_run de) as (budgets & last & Hlen & Hrun).
  rewrite Hrun. unfold resultc, finalc, callsc; cbn [fst snd].
  repeat (split; [reflexivity|]).
  exists budgets, last. split; [exact Hlen|]. split; [reflexivity|].
  split; [|reflexivity].
  eapply Forall_impl; [|apply stop_calls_are_stops].
  intros ev (w & Hin & Hev). exists w. split; [|exact Hev].
  clear - Hin.
  revert budgets Hin. induction (od_values (channel_workers de)) as [|x xs IH];
    intros [|b bs] Hin; cbn in Hin; try contradiction.
  destruct Hin as [->|Hin]; [left; reflexivity|right; eapply IH; exact Hin].
Qed.

Lemma core_run {A} (m : M A) de :
  core m de = (result (m de), final (m de), map Core (calls (m de))).
Proof. unfold core. destruct (m de) as [[r d] evs]. reflexivity. Qed.

Lemma detach_each_run workers :
  forall de,
    resultc (detach_each' workers de) = Ret tt
    /\ channel_workers (finalc (detach_each' workers de)) = channel_workers de
    /\ WORKERS_COUNT (finalc (detach_each' workers de)) = WORKERS_COUNT de
    /\ channel_configs (finalc (detach_each' workers de)) = channel_configs de
    /\ callsc (detach_each' workers de)
       = map detach_call (gone_offline state_of workers)
    /\ (gone_offline state_of workers = [] -> finalc (detach_each' workers de) = de).
Proof.
  induction workers as [|[channel_name worker] rest IH]; intros de.
  - repeat split; reflexivity.
  - cbn [detach_each]. unfold gone_offline, od_values. cbn [map snd filter].
    fold (od_values rest). fold (gone_offline state_of rest).
    destruct (probably_running (state_of worker)); cbn [negb].
    + apply IH.
    + stepc. unfold resultc, finalc, callsc; cbn [fst snd].
      match goal with
      | |- context [detach_each' rest ?d] =>
          destruct (IH d) as (I1 & I2 & I3 & I4 & I5 & _)
      end.
      unfold resultc, finalc, callsc in I1, I2, I3, I4, I5.
      rewrite I1, I2, I3, I4, I5.
      repeat split; try reflexivity. discriminate.
Qed.

(** [service_actions] detaches the sources of exactly the registered
    channels whose state is not BOOT, ACTIVE or STEADY, once each and in
    registry order, under the name and the routing keys of their task
    manager; it never raises, removes no channel from the registry (a
    channel that has gone offline stays registered), and when every
    channel is running it does nothing at all. *)
Theorem service_actions_detaches_offline_channels :
  forall de,
    let r := service_actions' de in
    resultc r = Ret tt
    /\ channel_workers (finalc r) = channel_workers de
    /\ WORKERS_COUNT (finalc r) = WORKERS_COUNT de
    /\ callsc r = map detach_call (gone_offline state_of (channel_workers de))
    /\ ((forall worker, In worker (od_values (channel_workers de)) ->
                        probably_running (state_of worker) = true) ->
        r = (Ret tt, de, [])).
Proof.
  intros de. cbv zeta. unfold service_actions. stepc.
  destruct (detach_each_run (channel_workers de) de) as (R1 & R2 & R3 & _ & R5 & R6).
  repeat (split; [assumption|]).
  intros Hall.
  assert (Hnone : gone_offline state_of (channel_workers de) = []).
  { unfold gone_offline. clear - Hall.
    induction (od_values (channel_workers de)) as [|w ws IH]; [reflexivity|].
    cbn [filter]. rewrite (Hall w (or_introl eq_refl)). cbn [negb].
    apply IH. intros w' Hin. apply Hall. right. exact Hin. }
  specialize (R6 Hnone). rewrite Hnone in R5. cbn [map] in R5.
  unfold resultc, finalc, callsc in R1, R5, R6.
  destruct (detach_each' (channel_workers de) de) as [[o d] cs].
  cbn [fst snd] in *. subst. reflexivity.
Qed.

(** [rpc_stop_channels] is [stop_channels] followed by its fixed answer;
    [rpc_stop] always answers "OK" and leaves an empty registry.  Its
    calls come in one order: the server is shut down first, then the
    channel workers are stopped and the source workers removed, then the
    reaper is stopped and the data space closed, the web server is told
    to exit exactly when "no_webserver" is not set, and the queue logger
    is stopped last. *)
Theorem rpc_stop_order_of_shutdown :
  forall de,
    rpc_stop_channels' de
    = (Ret "All channels stopped.", finalc (stop_channels' de), callsc (stop_channels' de))
    /\ resultc (rpc_stop' de) = Ret "OK"
    /\ finalc (rpc_stop' de) = finalc (stop_channels' de)
    /\ channel_workers (finalc (rpc_stop' de)) = []
    /\ callsc (rpc_stop' de)
       = (ServerShutdown :: callsc (stop_channels' de)
            ++ [ReaperStop; DataspaceClose]
            ++ (if no_webserver_set (global_config de) then [] else [WebserverExit])
            ++ [LoggerStop])%list.
Proof.
  intros de.
  destruct (stop_channels_run de) as (budgets & last & Hlen & Hrun).
  split.
  - unfold rpc_stop_channels. rewrite bindc_run. rewrite Hrun.
    unfold resultc, finalc, callsc, retc; cbn [fst snd].
    rewrite app_nil_r. reflexivity.
  - unfold rpc_stop. stepc. rewrite bindc_run. rewrite Hrun.
    unfold resultc, finalc, callsc; cbn [fst snd].
    stepc. unfold resultc, finalc, callsc; cbn [fst snd].
    cbn [global_config set_source_heap set_channel_workers].
    destruct (no_webserver_set (global_config de)); stepc;
      unfold retc, resultc, finalc, callsc; cbn [fst snd];
      rewrite <- ?app_assoc; repeat split; reflexivity.
Qed.

Lemma core_calls_no_reaper_start {A} (m : M A) de delay :
  ~ In (ReaperStart delay) (map Core (calls (m de))).
Proof.
  intros Hin. apply in_map_iff in Hin. destruct Hin as (ev & Hev & _). discriminate.
Qed.

Lemma stop_channels_no_reaper_start de delay :
  ~ In (ReaperStart delay) (callsc (stop_channels' de)).
Proof.
  destruct (stop_channels_run de) as (budgets & last & _ & Hrun).
  rewrite Hrun. unfold callsc; cbn [snd]. intros Hin.
  apply in_app_or in Hin. destruct Hin as [Hin|[Hin|[]]]; [|discriminate].
  apply in_map_iff in Hin. destruct Hin as (ev & Hev & _). discriminate.
Qed.

(** [handle_sighup] stops the reaper before anything else and starts it
    again only as its last step.  When the configurations cannot be
    reloaded the exception leaves the handler with every channel stopped,
    the registry empty and the reaper not started again.  When they can,
    the registry afterwards holds only names under which the reloaded
    configurations start their channels, pairwise distinct, whatever it
    held before; the reaper is then started with the configured delay,
    unless reading the delay raises. *)
Theorem handle_sighup_restarts_from_empty_registry :
  forall de,
    let r := handle_sighup' de in
    (exists rest, callsc r = ReaperStop :: rest)
    /\ (forall e,
          load_all_channels env (channel_configs de) = Raise e ->
          resultc r = Raise e
          /\ channel_workers (finalc r) = []
          /\ forall delay, ~ In (ReaperStart delay) (callsc r))
    /\ (forall loaded,
          load_all_channels env (channel_configs de) = Ret loaded ->
          (forall k, In k (od_keys (channel_workers (finalc r))) ->
                     In k (effective_names loaded))
          /\ NoDup (od_keys (channel_workers (finalc r)))
          /\ channel_configs (finalc r) = loaded
          /\ match reaper_start_delay (global_config de) with
             | Ret delay =>
                 resultc r = Ret tt
                 /\ exists before, callsc r = (before ++ [ReaperStart delay])%list
                     /\ forall d, ~ In (ReaperStart d) before
             | Raise e =>
                 resultc r = Raise e
                 /\ forall d, ~ In (ReaperStart d) (callsc r)
             end).
Proof.
  intros de. cbv zeta.
  pose proof (stop_channels_no_reaper_start de) as Hquiet.
  destruct (stop_channels_run de) as (budgets & last & _ & Hrun).
  unfold handle_sighup. rewrite bindc_emitc. rewrite bindc_run.
  rewrite Hrun in *. unfold resultc, finalc, callsc in *; cbn [fst snd] in *.
  set (de1 := set_source_heap (sources_remove_all last)
                (set_channel_workers (fun _ => []) de)) in *.
  set (stops := (map Core (stop_calls env de
                             (combine (od_values (channel_workers de)) budgets))
                   ++ [SourcesRemoveAll last])%list) in *.
  rewrite bindc_run. rewrite core_run.
  unfold resultc, finalc, callsc; cbn [fst snd].
  pose proof (start_channels_run env de1) as Hstart.
  change (channel_configs de1) with (channel_configs de) in Hstart.
  split; [|split].
  - eexists. reflexivity.
  - intros e Hload. rewrite Hload in Hstart. rewrite Hstart.
    unfold result, final, calls; cbn [fst snd].
    split; [reflexivity|]. split; [reflexivity|].
    intros delay [Hin|Hin]; [discriminate|].
    apply in_app_or in Hin. destruct Hin as [Hin|[Hin|[]]]; [|discriminate].
    exact (Hquiet delay Hin).
  - intros loaded Hload. rewrite Hload in Hstart.
    destruct Hstart as (S1 & S2 & S3). rewrite S1.
    stepc. rewrite S2. change (global_config de1) with (global_config de).
    assert (Hkeys : forall k,
               In k (od_keys (channel_workers (final (start_channels env de1)))) ->
               In k (effective_names loaded)).
    { intros k Hin. rewrite (start_channels_final env de1 loaded Hload) in Hin.
      apply start_each_keys in Hin. destruct Hin as [[]|Hin]. exact Hin. }
    assert (Hnd : NoDup (od_keys (channel_workers (final (start_channels env de1))))).
    { rewrite (start_channels_final env de1 loaded Hload).
      apply start_each_names_distinct. apply NoDup_nil. }
    assert (Hcore : forall d, ~ In (ReaperStart d)
                                 (ReaperStop :: stops
                                    ++ map Core (calls (start_channels env de1)))).
    { intros d [Hin|Hin]; [discriminate|].
      apply in_app_or in Hin. destruct Hin as [Hin|Hin].
      - exact (Hquiet d Hin).
      - exact (core_calls_no_reaper_start _ _ _ Hin). }
    rewrite bindc_run.
    destruct (reaper_start_delay (global_config de)) as [delay|e];
      unfold liftc, emitc, resultc, finalc, callsc; cbn [fst snd].
    + repeat (split; [assumption|]). split; [reflexivity|].
      exists (ReaperStop :: stops ++ map Core (calls (start_channels env de1)))%list.
      split; [|exact Hcore].
      cbn [app]. rewrite <- app_assoc. reflexivity.
    + repeat (split; [assumption|]). split; [reflexivity|].
      rewrite !app_nil_r. exact Hcore.
Qed.

End HousekeepingFacts.

(* ================================================================== *)
(** ** Log levels *)

Lemma logging_levels_names name code :
  od_get name logging_levels = Some code ->
  (getLevelName code = name <-> name <> "WARN" /\ name <> "FATAL").
Proof.
  unfold logging_levels. cbn [od_get].
  repeat match goal with
         | |- context [String.eqb ?a ?b] =>
             destruct (String.eqb a b) eqn:?
         end;
    try discriminate;
    repeat match goal with
           | H : String.eqb _ _ = true |- _ => apply String.eqb_eq in H; subst
           end;
    intros [= <-]; vm_compute; split;
    try (intros _; split; discriminate);
    try discriminate;
    try (intros [H1 H2]; exfalso; first [apply H1; reflexivity | apply H2; reflexivity]).
Qed.

Lemma logging_getattr_level env name code :
  od_get name logging_levels = Some code ->
  logging_getattr env name = Ret (Some code).
Proof. intros Hcode. unfold logging_getattr. rewrite Hcode. reflexivity. Qed.

(** Setting the log level of a running channel and reading it back.  When
    the name is a level constant other than the current level and the task
    manager stores the level it is given, [rpc_set_channel_log_level]
    answers that the level changed; [rpc_get_channel_log_level] then
    answers with the canonical name of the level, which is the name that
    was set except for the aliases WARN and FATAL (read back as WARNING
    and CRITICAL); and setting the same level once more answers "Nothing
    to do" and changes nothing. *)
Theorem log_level_set_then_get :
  forall env channel name code worker tm de,
    od_get channel (channel_workers de) = Some worker ->
    is_alive worker = true ->
    od_get name logging_levels = Some code ->
    loglevel (task_manager worker) <> code ->
    set_loglevel_value env name (task_manager worker) = Ret tm ->
    loglevel tm = code ->
    let de' := final (rpc_set_channel_log_level env channel (PyStr name) de) in
    result (rpc_set_channel_log_level env channel (PyStr name) de)
    = Ret ("Log level changed to : " ++ name)
    /\ rpc_get_channel_log_level channel de' = (Ret (getLevelName code), de', [])
    /\ (getLevelName code = name <-> name <> "WARN" /\ name <> "FATAL")
    /\ rpc_set_channel_log_level env channel (PyStr name) de'
       = (Ret ("Nothing to do. Current log level is : " ++ name), de', []).
Proof.
  intros env channel name code worker tm de Hget Halive Hcode Hdiff Hset Hstored de'.
  assert (Hneq : (loglevel (task_manager worker) =? code) = false)
    by (apply Z.eqb_neq; exact Hdiff).
  assert (Hde' : de' = set_channel_workers
                         (od_set channel (with_task_manager tm worker)) de).
  { unfold de', rpc_set_channel_log_level. step. rewrite Hget, Halive. cbn [negb].
    rewrite (logging_getattr_level env name code Hcode). step.
    rewrite Hneq, Hset. step. reflexivity. }
  assert (Hget' : od_get channel (channel_workers de')
                  = Some (with_task_manager tm worker)).
  { rewrite Hde'. cbn [channel_workers set_channel_workers].
    apply od_get_set_same. }
  split; [|split; [|split]].
  - rewrite (rpc_set_channel_log_level_alive env channel name worker de Hget Halive).
    rewrite (logging_getattr_level env name code Hcode), Hneq, Hset. reflexivity.
  - unfold rpc_get_channel_log_level. step. rewrite Hget'.
    cbn [is_alive with_task_manager task_manager]. rewrite Halive. cbn [negb].
    rewrite Hstored. reflexivity.
  - apply logging_levels_names. exact Hcode.
  - unfold rpc_set_channel_log_level. step. rewrite Hget'.
    cbn [is_alive with_task_manager task_manager]. rewrite Halive. cbn [negb].
    rewrite (logging_getattr_level env name code Hcode). step.
    rewrite Hstored, Z.eqb_refl. reflexivity.
Qed.

Lemma log_level_set_then_get_witness :
  rpc_get_channel_log_level "alpha"
    (final (rpc_set_channel_log_level storing_env "alpha" (PyStr "WARN")
              (sample_engine sample_registry)))
  = (Ret "WARNING",
     final (rpc_set_channel_log_level storing_env "alpha" (PyStr "WARN")
              (sample_engine sample_registry)),
     []).
Proof.
  exact (proj1 (proj2
    (log_level_set_then_get storing_env "alpha" "WARN" 30
       (sample_worker "alpha" true None)
       {| tm_name := "alpha"; routing_keys := ["key"]; loglevel := 30 |}
       (sample_engine sample_registry)
       eq_refl eq_refl eq_refl ltac:(discriminate) eq_refl eq_refl))).
Defined.

(* ================================================================== *)
(** ** The command line as a whole *)

Lemma parse_args_last_wins args :
  forall o,
    (existsb bad_port args = false ->
     parse_args args o
     = inl {| port := last_port args (port o);
              config := last_config args (config o);
              no_webserver := no_webserver o || existsb is_no_webserver args |})
    /\ (existsb bad_port args = true -> exists err, parse_args args o = inr err).
Proof.
  induction args as [|arg rest IH]; intros o.
  - split; [|discriminate]. intros _. cbn. rewrite orb_false_r.
    destruct o; reflexivity.
  - destruct arg as [text|f|]; cbn [parse_args existsb bad_port is_no_webserver
                                     last_port last_config].
    + destruct (py_int text) as [v|]; [|split; [discriminate|eexists; reflexivity]].
      destruct (port_choices v); cbn [negb orb];
        [|split; [discriminate|eexists; reflexivity]].
      exact (IH (set_port v o)).
    + cbn [orb]. exact (IH (set_config f o)).
    + cbn [orb]. destruct (IH (set_no_webserver o)) as [I1 I2]. split; [|exact I2].
      intros Hok. rewrite (I1 Hok). cbn [port config no_webserver set_no_webserver].
      rewrite orb_true_r. reflexivity.
Qed.


(** [main] checks the environment of the metrics right after parsing the
    command line: with [--no-webserver] anywhere on an accepted command
    line the check passes whatever the environment holds, and without it
    the check passes exactly when PROMETHEUS_MULTIPROC_DIR is defined and
    raises [OSError] otherwise; the port and the configuration file play
    no part in it. *)
Theorem check_metrics_env_after_parsing :
  forall file args environ options,
    parse_program_options file args = inl options ->
    (existsb is_no_webserver args = true ->
     _check_metrics_env environ options = Ret tt)
    /\ (existsb is_no_webserver args = false ->
        (_check_metrics_env environ options = Ret tt
         <-> In "PROMETHEUS_MULTIPROC_DIR" environ)
        /\ (~ In "PROMETHEUS_MULTIPROC_DIR" environ ->
            exists msg, _check_metrics_env environ options = Raise (OtherError msg))).
Proof.
  intros file args environ options Hparse.
  assert (Hflag : no_webserver options = existsb is_no_webserver args).
  { unfold parse_program_options in Hparse.
    destruct (parse_args_last_wins args
                {| port := 8888; config := file; no_webserver := false |})
      as [Hok Hbad].
    destruct (existsb bad_port args).
    - destruct (Hbad eq_refl) as [err Herr]. rewrite Herr in Hparse. discriminate.
    - rewrite (Hok eq_refl) in Hparse. injection Hparse as <-. reflexivity. }
  assert (Hin : existsb (String.eqb "PROMETHEUS_MULTIPROC_DIR") environ = true
                <-> In "PROMETHEUS_MULTIPROC_DIR" environ).
  { rewrite existsb_exists. split.
    - intros (x & Hx & Heq). apply String.eqb_eq in Heq. subst. exact Hx.
    - intros Hx. eexists. split; [exact Hx|apply String.eqb_refl]. }
  unfold _check_metrics_env. rewrite Hflag. split.
  - intros ->. reflexivity.
  - intros ->.
    destruct (existsb (String.eqb "PROMETHEUS_MULTIPROC_DIR") environ) eqn:Hex.
    + split; [split; [intros _; apply Hin; reflexivity|reflexivity]|].
      intros Hnot. exfalso. apply Hnot, Hin. reflexivity.
    + split.
      * split; [discriminate|]. intros Hx. apply Hin in Hx. discriminate.
      * intros _. eexists. reflexivity.
Qed.

Lemma check_metrics_env_after_parsing_witness :
  _check_metrics_env []
    {| port := 9000; config := "de.jsonnet"; no_webserver := true |} = Ret tt.
Proof.
  exact (proj1
    (check_metrics_env_after_parsing "de.jsonnet"
       [ArgPort "80"; ArgNoWebserver; ArgPort "9000"] []
       {| port := 9000; config := "de.jsonnet"; no_webserver := true |}
       eq_refl)
    eq_refl).
Defined.

(* ================================================================== *)
(** ** Bringing the server up *)

Lemma bindc_liftc_ret {A B} (a : A) (k : A -> H B) de :
  bindc (liftc (Ret a)) k de = k a de.
Proof. unfold bindc, liftc. destruct (k a de) as [[r d] cs]. reflexivity. Qed.

Lemma bindc_liftc_raise {A B} (e : exn) (k : A -> H B) de :
  bindc (liftc (Raise e)) k de = (Raise e, de, []).
Proof. reflexivity. Qed.

Section StartupFacts.
Variable env : Env.
Variable reaper_start_delay : GlobalConfig -> outcome pyval.
Variable no_webserver_set : GlobalConfig -> bool.

Local Abbreviation start_de_server' :=
  (_start_de_server env reaper_start_delay no_webserver_set).

(** What the [finally] clause adds to the calls, and what it makes of the
    outcome of the [try] statement. *)
Local Abbreviation flushed de :=
  (match redis_from_url env (broker_url (global_config de)) with
   | Ret _ => [RedisFlushdb]
   | Raise _ => []
   end).
Local Abbreviation after_flush de o :=
  (match redis_from_url env (broker_url (global_config de)) with
   | Ret _ => o
   | Raise e => Raise e
   end).

Lemma start_de_server_try_run de :
  start_de_server_try env reaper_start_delay no_webserver_set de
  = match reaper_start_delay (global_config de) with
    | Raise e => (Raise e, de, [])
    | Ret delay =>
        match load_all_channels env (channel_configs de) with
        | Raise e => (Raise e, de, [ReaperStart delay; Core EvLoadAllChannels])
        | Ret _ =>
            (Ret tt, final (start_channels env de),
             (ReaperStart delay :: map Core (calls (start_channels env de))
                ++ (if no_webserver_set (global_config de) then []
                    else [WebserverStart])
                ++ [StartupComplete; ServeForever])%list)
        end
    end.
Proof.
  unfold start_de_server_try. rewrite bindc_getsc.
  destruct (reaper_start_delay (global_config de)) as [delay|e];
    [|apply bindc_liftc_raise].
  rewrite bindc_liftc_ret, bindc_emitc, bindc_run, core_run.
  unfold resultc, finalc, callsc; cbn [fst snd].
  pose proof (start_channels_run env de) as Hstart.
  destruct (load_all_channels env (channel_configs de)) as [loaded|e].
  - destruct Hstart as (S1 & S2 & _). rewrite S1. stepc. rewrite S2.
    destruct (no_webserver_set (global_config de)); stepc;
      unfold emitc, resultc, finalc, callsc; cbn [fst snd app]; reflexivity.
  - rewrite Hstart. reflexivity.
Qed.

Lemma start_de_server_finally_run de :
  start_de_server_finally env de
  = (after_flush de (Ret tt), de, flushed de).
Proof.
  unfold start_de_server_finally. rewrite bindc_getsc.
  destruct (redis_from_url env (broker_url (global_config de)));
    [rewrite bindc_liftc_ret|rewrite bindc_liftc_raise]; reflexivity.
Qed.

Lemma start_de_server_run de :
  start_de_server' de
  = match reaper_start_delay (global_config de) with
    | Raise e => (after_flush de (Raise e), de, ([PrintFatal e] ++ flushed de)%list)
    | Ret delay =>
        match load_all_channels env (channel_configs de) with
        | Raise e =>
            (after_flush de (Raise e), de,
             ([ReaperStart delay; Core EvLoadAllChannels; PrintFatal e]
                ++ flushed de)%list)
        | Ret _ =>
            (after_flush de (Ret tt), final (start_channels env de),
             (ReaperStart delay :: map Core (calls (start_channels env de))
                ++ (if no_webserver_set (global_config de) then []
                    else [WebserverStart])
                ++ [StartupComplete; ServeForever] ++ flushed de)%list)
        end
    end.
Proof.
  unfold _start_de_server, try_finallyc, try_exceptc.
  rewrite start_de_server_try_run.
  destruct (reaper_start_delay (global_config de)) as [delay|e].
  - pose proof (start_channels_run env de) as Hstart.
    destruct (load_all_channels env (channel_configs de)) as [loaded|e].
    + destruct Hstart as (_ & S2 & _).
      rewrite start_de_server_finally_run, S2.
      destruct (redis_from_url env (broker_url (global_config de)));
        cbn [app]; rewrite <- !app_assoc; reflexivity.
    + rewrite bindc_emitc. unfold raisec, resultc, finalc, callsc; cbn [fst snd].
      rewrite start_de_server_finally_run.
      destruct (redis_from_url env (broker_url (global_config de))); reflexivity.
  - rewrite bindc_emitc. unfold raisec, resultc, finalc, callsc; cbn [fst snd].
    rewrite start_de_server_finally_run.
    destruct (redis_from_url env (broker_url (global_config de))); reflexivity.
Qed.

Lemma not_core_not_in (c : call) (evs : list event) :
  is_core c = false -> ~ In c (map Core evs).
Proof.
  intros Hc Hin. apply in_map_iff in Hin. destruct Hin as (ev & <- & _). discriminate.
Qed.

(** [_start_de_server] flushes the broker data base on every path, as the
    last thing it does, provided the connection object can be built; an
    exception of [redis.Redis.from_url] in the [finally] clause replaces
    whatever the server start had come to.  The start itself succeeds
    exactly when the reaper delay can be read and the configurations can
    be loaded (channels that fail to start do not count); only then is
    [startup_complete] set and the server serving, and the web server is
    started only then and only when "no_webserver" is not set.  A failure
    is printed and raised again.  The reaper is started before the
    channels, so a failing load leaves it started. *)
Theorem start_de_server_flushes_broker_on_every_path :
  forall de,
    let r := start_de_server' de in
    let started : outcome unit :=
      match reaper_start_delay (global_config de) with
      | Raise e => Raise e
      | Ret _ =>
          match load_all_channels env (channel_configs de) with
          | Raise e => Raise e
          | Ret _ => Ret tt
          end
      end in
    resultc r = after_flush de started
    /\ (exists before,
          callsc r = (before ++ flushed de)%list /\ ~ In RedisFlushdb before)
    /\ (In StartupComplete (callsc r) <-> started = Ret tt)
    /\ (In ServeForever (callsc r) <-> started = Ret tt)
    /\ (In WebserverStart (callsc r)
        <-> started = Ret tt /\ no_webserver_set (global_config de) = false)
    /\ (forall e, started = Raise e -> In (PrintFatal e) (callsc r))
    /\ (forall delay,
          reaper_start_delay (global_config de) = Ret delay ->
          exists rest, callsc r = ReaperStart delay :: rest).
Proof.
  intros de. cbv zeta. rewrite start_de_server_run.
  assert (Hflush : forall c, c <> RedisFlushdb -> ~ In c (flushed de)).
  { intros c Hc Hin.
    destruct (redis_from_url env (broker_url (global_config de)));
      [destruct Hin as [<-|[]]; apply Hc; reflexivity|destruct Hin]. }
  pose proof (fun c => not_core_not_in c (calls (start_channels env de))) as Hcore.
  destruct (reaper_start_delay (global_config de)) as [delay|e];
    [destruct (load_all_channels env (channel_configs de)) as [loaded|e]|];
    unfold resultc, callsc; cbn [fst snd].
  - split; [reflexivity|]. split.
    { eexists (ReaperStart delay :: map Core (calls (start_channels env de))
                 ++ (if no_webserver_set (global_config de) then []
                     else [WebserverStart])
                 ++ [StartupComplete; ServeForever])%list.
      split; [cbn [app]; rewrite <- !app_assoc; reflexivity|].
      intros [Hin|Hin]; [discriminate|].
      rewrite !in_app_iff in Hin. destruct Hin as [Hin|[Hin|Hin]].
      - exact (Hcore RedisFlushdb eq_refl Hin).
      - destruct (no_webserver_set (global_config de));
          [destruct Hin|destruct Hin as [Hin|[]]; discriminate].
      - destruct Hin as [Hin|[Hin|[]]]; discriminate. }
    split; [split; [reflexivity|]; intros _; right;
            rewrite !in_app_iff; right; right; left; left; reflexivity|].
    split; [split; [reflexivity|]; intros _; right;
            rewrite !in_app_iff; right; right; left; right; left; reflexivity|].
    split.
    { split.
      - intros [Hin|Hin]; [discriminate|]. split; [reflexivity|].
        rewrite !in_app_iff in Hin. destruct Hin as [Hin|[Hin|[Hin|Hin]]].
        + exfalso. exact (Hcore WebserverStart eq_refl Hin).
        + destruct (no_webserver_set (global_config de)); [destruct Hin|reflexivity].
        + destruct Hin as [Hin|[Hin|[]]]; discriminate.
        + exfalso. apply (Hflush WebserverStart); [discriminate|exact Hin].
      - intros [_ Hweb]. rewrite Hweb. right.
        rewrite !in_app_iff. right; left; left; reflexivity. }
    split; [discriminate|].
    intros d [= <-]. eexists. reflexivity.
  - split; [reflexivity|]. split.
    { exists [ReaperStart delay; Core EvLoadAllChannels; PrintFatal e].
      split; [reflexivity|].
      intros [Hin|[Hin|[Hin|[]]]]; discriminate. }
    assert (Hnot : forall c, c <> RedisFlushdb -> c <> ReaperStart delay ->
                     c <> Core EvLoadAllChannels -> c <> PrintFatal e ->
                     ~ In c ([ReaperStart delay; Core EvLoadAllChannels; PrintFatal e]
                               ++ flushed de)).
    { intros c H1 H2 H3 H4 Hin. apply in_app_iff in Hin.
      destruct Hin as [[Hin|[Hin|[Hin|[]]]]|Hin]; try (symmetry in Hin; contradiction).
      exact (Hflush c H1 Hin). }
    split; [split; [|discriminate]; intros Hin; exfalso;
            apply (Hnot StartupComplete); try discriminate; exact Hin|].
    split; [split; [|discriminate]; intros Hin; exfalso;
            apply (Hnot ServeForever); try discriminate; exact Hin|].
    split; [split; [|intros [Hx _]; discriminate]; intros Hin; exfalso;
            apply (Hnot WebserverStart); try discriminate; exact Hin|].
    split; [intros e' [= <-]; right; right; left; reflexivity|].
    intros d [= <-]. eexists. reflexivity.
  - split; [reflexivity|]. split.
    { exists [PrintFatal e]. split; [reflexivity|].
      intros [Hin|[]]; discriminate. }
    assert (Hnot : forall c, c <> RedisFlushdb -> c <> PrintFatal e ->
                     ~ In c ([PrintFatal e] ++ flushed de)).
    { intros c H1 H2 Hin. apply in_app_iff in Hin.
      destruct Hin as [[Hin|[]]|Hin]; [symmetry in Hin; contradiction|].
      exact (Hflush c H1 Hin). }
    split; [split; [|discriminate]; intros Hin; exfalso;
            apply (Hnot StartupComplete); try discriminate; exact Hin|].
    split; [split; [|discriminate]; intros Hin; exfalso;
            apply (Hnot ServeForever); try discriminate; exact Hin|].
    split; [split; [|intros [Hx _]; discriminate]; intros Hin; exfalso;
            apply (Hnot WebserverStart); try discriminate; exact Hin|].
    split; [intros e' [= <-]; left; reflexivity|].
    intros d Hd. discriminate.
Qed.

End StartupFacts.

(* ================================================================== *)
(** ** The guards of the log level RPCs *)

(** On a channel that is not registered, or whose worker is not alive, the
    two log level RPCs give the same answer ("No channel found ..." or
    "... is in ERROR state."), make no call and change nothing; the level
    handed to [rpc_set_channel_log_level] is not looked at, so neither a
    level that is no string nor an unknown level name raises there. *)
Theorem log_level_rpcs_check_the_channel_first :
  forall env channel log_level de,
    (od_get channel (channel_workers de) = None
     \/ exists worker, od_get channel (channel_workers de) = Some worker
                       /\ is_alive worker = false) ->
    rpc_set_channel_log_level env channel log_level de
    = rpc_get_channel_log_level channel de
    /\ exists msg, rpc_get_channel_log_level channel de = (Ret msg, de, []).
Proof.
  intros env channel log_level de Hguard.
  unfold rpc_set_channel_log_level, rpc_get_channel_log_level. step.
  destruct Hguard as [Hnone|(worker & Hsome & Hdead)].
  - rewrite Hnone. split; [reflexivity|]. eexists. reflexivity.
  - rewrite Hsome, Hdead. cbn [negb]. split; [reflexivity|]. eexists. reflexivity.
Qed.

Lemma log_level_rpcs_check_the_channel_first_witness :
  rpc_set_channel_log_level sample_env "beta" (PyInt 3) (sample_engine sample_registry)
  = rpc_get_channel_log_level "beta" (sample_engine sample_registry).
Proof.
  exact (proj1
    (log_level_rpcs_check_the_channel_first sample_env "beta" (PyInt 3)
       (sample_engine sample_registry)
       (or_intror (ex_intro _ (sample_worker "beta" false (Some 1))
                     (conj eq_refl eq_refl))))).
Defined.
